(** * Clasificador de movimientos bancarios: a shallow embedding

    The definitions below follow the helper functions of the Streamlit
    application ([_slug], [guess_columns], [_to_datetime], [_to_number],
    [detect_direction_and_amount], [categorize_rows], [build_output_sheets],
    [process_dataframe], [autosize_and_formats], [to_excel_bytes]), the
    keyword boxes of its page, and the standalone script [app.py].

    Conventions of the model.
    - A Python [str] is a [string] whose characters are code points below
      256 (Latin-1).  The tables for white space, lower-casing and NFKD
      decomposition cover exactly that range.
    - A Python [float] is a binary64 value of [spec_float] (precision 53,
      maximal exponent 1024), with the arithmetic and comparisons of
      [SpecFloat].
    - A pandas [Series] over a [RangeIndex] is a list; the index label of an
      element is its position.
    - Column labels are strings: the application takes [str(c)] of every
      label.  The standalone script does not, and starts from labels that
      are cells.  Where a label names several columns, [df[c]] is a frame
      and not a series; every place that reads a column says what happens
      then.
    - A Python exception is the [Raise] branch of [result]. *)

From Stdlib Require Import ZArith String Ascii List Bool Lia SpecFloat Sorted.
From stdpp Require Import gmap strings pretty.

Import ListNotations.
Open Scope string_scope.

(** ** Results and exceptions *)

Inductive exception : Type :=
  | ValueError
  | KeyError
  | IndexError
  | AttributeError
  | NotImplementedError.

Inductive result (A : Type) : Type :=
  | Ok (a : A)
  | Raise (e : exception).

Arguments Ok {A} a.
Arguments Raise {A} e.

#[global] Instance result_ret : MRet result := fun _ a => Ok a.

#[global] Instance result_bind : MBind result := fun _ _ k r =>
  match r with
  | Ok a => k a
  | Raise e => Raise e
  end.

(** [try: r except: h] runs the handler when [r] raised. *)
Definition try_except {A : Type} (r : result A) (h : result A) : result A :=
  match r with
  | Ok a => Ok a
  | Raise _ => h
  end.

(** ** Python strings *)

Module Str.

Definition code (c : ascii) : N := N_of_ascii c.

Definition between (lo hi n : N) : bool := (lo <=? n)%N && (n <=? hi)%N.

(** [str.isspace] on one character. *)
Definition isspace (c : ascii) : bool :=
  let n := code c in
  between 9 13 n || between 28 32 n || (n =? 133)%N || (n =? 160)%N.

Definition isdigit (c : ascii) : bool := between 48 57 (code c).

Definition isupper_ascii (c : ascii) : bool := between 65 90 (code c).
Definition islower_ascii (c : ascii) : bool := between 97 122 (code c).

(** Membership in the class [[a-zA-Z0-9]]. *)
Definition isalnum_ascii (c : ascii) : bool :=
  isdigit c || isupper_ascii c || islower_ascii c.

(** [str.lower] on one character. *)
Definition lower_char (c : ascii) : ascii :=
  let n := code c in
  if between 65 90 n || (between 192 222 n && negb (n =? 215)%N)
  then ascii_of_N (n + 32)
  else c.

Fixpoint lower (s : string) : string :=
  match s with
  | EmptyString => EmptyString
  | String c s' => String (lower_char c) (lower s')
  end.

Fixpoint lstrip_with (p : ascii -> bool) (s : string) : string :=
  match s with
  | EmptyString => EmptyString
  | String c s' => if p c then lstrip_with p s' else s
  end.

Fixpoint rstrip_with (p : ascii -> bool) (s : string) : string :=
  match s with
  | EmptyString => EmptyString
  | String c s' =>
      match rstrip_with p s' with
      | EmptyString => if p c then EmptyString else String c EmptyString
      | r => String c r
      end
  end.

Definition strip_with (p : ascii -> bool) (s : string) : string :=
  rstrip_with p (lstrip_with p s).

(** [s.strip()] *)
Definition strip (s : string) : string := strip_with isspace s.

(** [s.strip(chars)] for a one-character [chars]. *)
Definition strip_char (ch : ascii) (s : string) : string :=
  strip_with (Ascii.eqb ch) s.

Fixpoint startswith (k t : string) : bool :=
  match k, t with
  | EmptyString, _ => true
  | String a k', String b t' => Ascii.eqb a b && startswith k' t'
  | String _ _, EmptyString => false
  end.

(** [k in t] *)
Fixpoint contains (k t : string) : bool :=
  startswith k t ||
  match t with
  | EmptyString => false
  | String _ t' => contains k t'
  end.

(** [s.replace(ch, "")] for a one-character [ch]. *)
Fixpoint remove_char (ch : ascii) (s : string) : string :=
  match s with
  | EmptyString => EmptyString
  | String c s' =>
      if Ascii.eqb c ch then remove_char ch s' else String c (remove_char ch s')
  end.

(** [s.replace(a, b)] for one-character [a] and [b]. *)
Fixpoint replace_char (a b : ascii) (s : string) : string :=
  match s with
  | EmptyString => EmptyString
  | String c s' =>
      String (if Ascii.eqb c a then b else c) (replace_char a b s')
  end.

(** [any(k in t for k in kws)] *)
Definition any_in (kws : list string) (t : string) : bool :=
  existsb (fun k => contains k t) kws.

End Str.

(** ** Slugs *)

(** [unicodedata.normalize("NFKD", c).encode("ascii", "ignore")] of one
    Latin-1 character: the ASCII part of its compatibility decomposition. *)
Definition nfkd_ascii_char (c : ascii) : string :=
  let n := Str.code c in
  if (n <? 128)%N then String c EmptyString
  else if (n =? 160)%N || (n =? 168)%N || (n =? 175)%N || (n =? 180)%N
          || (n =? 184)%N then " "
  else if (n =? 170)%N || Str.between 224 229 n then "a"
  else if (n =? 178)%N then "2"
  else if (n =? 179)%N then "3"
  else if (n =? 185)%N then "1"
  else if (n =? 186)%N || Str.between 242 246 n then "o"
  else if (n =? 188)%N then "14"
  else if (n =? 189)%N then "12"
  else if (n =? 190)%N then "34"
  else if Str.between 192 197 n then "A"
  else if (n =? 199)%N then "C"
  else if Str.between 200 203 n then "E"
  else if Str.between 204 207 n then "I"
  else if (n =? 209)%N then "N"
  else if Str.between 210 214 n then "O"
  else if Str.between 217 220 n then "U"
  else if (n =? 221)%N then "Y"
  else if (n =? 231)%N then "c"
  else if Str.between 232 235 n then "e"
  else if Str.between 236 239 n then "i"
  else if (n =? 241)%N then "n"
  else if Str.between 249 252 n then "u"
  else if (n =? 253)%N || (n =? 255)%N then "y"
  else "".

Fixpoint nfkd_ascii (s : string) : string :=
  match s with
  | EmptyString => EmptyString
  | String c s' => nfkd_ascii_char c ++ nfkd_ascii s'
  end.

(** [re.sub(r"[^a-zA-Z0-9]+", "_", s)]; [in_run] tells that the previous
    character already belonged to the run being replaced. *)
Fixpoint re_sub_nonalnum (in_run : bool) (s : string) : string :=
  match s with
  | EmptyString => EmptyString
  | String c s' =>
      if Str.isalnum_ascii c then String c (re_sub_nonalnum false s')
      else if in_run then re_sub_nonalnum true s'
      else String "_" (re_sub_nonalnum true s')
  end.

(** Headers are strings here (the caller applies [str] to every label), so
    the [isinstance] guard of the source never fires. *)
Definition _slug (s : string) : string :=
  let s := Str.strip s in
  let s := nfkd_ascii s in
  Str.strip_char "_" (re_sub_nonalnum false (Str.lower s)).

(** ** Column resolution *)

(** [{ _slug(c): c for c in df.columns }]: a later label with the same slug
    replaces an earlier one. *)
Definition slug_to_orig (columns : list string) : gmap string string :=
  foldl (fun m c => <[_slug c := c]> m) ∅ columns.

(** The inner function [find] of [guess_columns]. *)
Fixpoint find (m : gmap string string) (cands : list string) : option string :=
  match cands with
  | [] => None
  | c :: cands' =>
      match m !! c with
      | Some orig => Some orig
      | None => find m cands'
      end
  end.

Inductive role : Type :=
  | Fecha | Referencia | Nombre | Cuit | Detalle
  | Importe | Credito | Debito | Tipo.

Definition candidates (r : role) : list string :=
  match r with
  | Fecha => ["fecha"; "fecha_operacion"; "fecha_mov"; "fecha_debito";
              "fecha_credito"; "date"; "posting_date"]
  | Referencia => ["referencia"; "n_operacion"; "nro_operacion";
                   "numero_operacion"; "n_referencia"; "detalle";
                   "descripcion"; "concepto"; "glosa";
                   "referencia_bancaria"; "ref"; "memo"]
  | Nombre => ["nombre"; "nombre_pagador"; "pagador"; "cliente"; "emisor";
               "beneficiario"; "proveedor"; "titular"; "contraparte";
               "razon_social"]
  | Cuit => ["cuit"; "cuil"; "dni"; "tax_id"; "doc"; "documento"; "id_fiscal"]
  | Detalle => ["detalle"; "descripcion"; "concepto"; "glosa"; "referencia";
                "observaciones"]
  | Credito => ["credito"; "creditos"; "haber"; "entrada"; "ingreso";
                "acreditacion"; "amount_in"; "in"]
  | Debito => ["debito"; "debitos"; "debe"; "salida"; "egreso"; "extraccion";
               "amount_out"; "out"]
  | Importe => ["importe"; "monto"; "importe_total"; "importe_neto";
                "importe_bruto"; "importe_movimiento"; "monto_total";
                "amount"; "transaction_amount"]
  | Tipo => ["tipo"; "tipo_movimiento"; "operacion"; "movimiento"; "cr_db";
             "debe_haber"]
  end.

(** Truth value of [None] or a string. *)
Definition truthy (o : option string) : bool :=
  match o with
  | Some s => negb (String.eqb s "")
  | None => false
  end.

Record column_guess : Type := {
  fecha_col : option string;
  ref_col : option string;
  nombre_col : option string;
  cuit_col : option string;
  detalle_col : option string;
  importe_col : option string;
  credito_col : option string;
  debito_col : option string;
  tipo_col : option string
}.

Definition guess_columns (columns : list string) : column_guess :=
  let m := slug_to_orig columns in
  let fecha := find m (candidates Fecha) in
  let ref := find m (candidates Referencia) in
  let nombre := find m (candidates Nombre) in
  let cuit := find m (candidates Cuit) in
  let detalle := find m (candidates Detalle) in
  let credito := find m (candidates Credito) in
  let debito := find m (candidates Debito) in
  let importe := find m (candidates Importe) in
  let tipo := find m (candidates Tipo) in
  let detalle :=
    match detalle with
    | Some d => Some d
    | None => if truthy ref then ref else head columns
    end in
  {| fecha_col := fecha; ref_col := ref; nombre_col := nombre;
     cuit_col := cuit; detalle_col := detalle; importe_col := importe;
     credito_col := credito; debito_col := debito; tipo_col := tipo |}.

(** The column that [guess_columns] returns for a role. *)
Definition role_col (g : column_guess) (r : role) : option string :=
  match r with
  | Fecha => fecha_col g
  | Referencia => ref_col g
  | Nombre => nombre_col g
  | Cuit => cuit_col g
  | Detalle => detalle_col g
  | Importe => importe_col g
  | Credito => credito_col g
  | Debito => debito_col g
  | Tipo => tipo_col g
  end.

(** ** Floats *)

Module Float.

Definition prec : Z := 53.
Definition emax : Z := 1024.

Abbreviation float := spec_float.

Definition zero : float := S754_zero false.
Definition nan : float := S754_nan.

Definition sub (x y : float) : float := SFsub prec emax x y.
Definition ltb (x y : float) : bool := SFltb x y.
Definition eqb (x y : float) : bool := SFeqb x y.

Definition isnan (x : float) : bool :=
  match x with
  | S754_nan => true
  | _ => false
  end.

(** [float(z)] for an integer; integer cells are 64-bit, so the conversion
    only rounds. *)
Definition of_int (z : Z) : float := binary_normalize prec emax z 0 false.

(** The binary64 value nearest to [m * 10 ^ e], with the sign [neg]. *)
Definition of_decimal (neg : bool) (m : Z) (e : Z) : float :=
  match m with
  | Zpos p =>
      if (0 <=? e)%Z
      then binary_normalize prec emax
             (cond_Zopp neg (Zpos p * 10 ^ e)) 0 false
      else SFdiv prec emax (S754_finite neg p 0)
             (S754_finite false (Z.to_pos (10 ^ (- e))) 0)
  | _ => S754_zero neg
  end.

Definition digit_val (c : ascii) : Z := Z.of_N (Str.code c) - 48.

Definition digits_val (ds : list ascii) : Z :=
  fold_left (fun acc c => 10 * acc + digit_val c)%Z ds 0%Z.

(** The continuation [(["_"] digit)*] of a digit part. *)
Fixpoint digits_tail (s : string) : list ascii * string :=
  match s with
  | EmptyString => ([], EmptyString)
  | String c s' =>
      if Str.isdigit c then
        let '(ds, r) := digits_tail s' in (c :: ds, r)
      else if Ascii.eqb c "_" then
        match s' with
        | String d s'' =>
            if Str.isdigit d then
              let '(ds, r) := digits_tail s'' in (d :: ds, r)
            else ([], s)
        | EmptyString => ([], s)
        end
      else ([], s)
  end.

(** [digit (["_"] digit)*] *)
Definition digitpart (s : string) : option (list ascii * string) :=
  match s with
  | String c s' =>
      if Str.isdigit c then
        let '(ds, r) := digits_tail s' in Some (c :: ds, r)
      else None
  | EmptyString => None
  end.

Definition sign_prefix (s : string) : bool * string :=
  match s with
  | String c r =>
      if Ascii.eqb c "-" then (true, r)
      else if Ascii.eqb c "+" then (false, r)
      else (false, s)
  | EmptyString => (false, s)
  end.

(** An exponent [("e" | "E") ["+" | "-"] digitpart] in front of [s], if
    there is one. *)
Definition exponent (s : string) : Z * string :=
  match s with
  | String c r =>
      if Ascii.eqb c "e" || Ascii.eqb c "E" then
        let '(neg, r') := sign_prefix r in
        match digitpart r' with
        | Some (ds, rest) => (cond_Zopp neg (digits_val ds), rest)
        | None => (0%Z, s)
        end
      else (0%Z, s)
  | EmptyString => (0%Z, s)
  end.

(** The built-in [float(s)] on a string: white space is stripped, then
    comes an optional sign and one of [inf], [infinity], [nan] (in any
    case) or a decimal number with optional fraction and exponent. *)
Definition of_string (s : string) : result float :=
  let '(neg, body) := sign_prefix (Str.strip s) in
  let word := Str.lower body in
  if String.eqb word "inf" || String.eqb word "infinity"
  then Ok (S754_infinity neg)
  else if String.eqb word "nan" then Ok S754_nan
  else
    let '(ip, s1) :=
      match digitpart body with
      | Some (ds, r) => (ds, r)
      | None => ([], body)
      end in
    let '(fp, s2) :=
      match s1 with
      | String c r =>
          if Ascii.eqb c "." then
            match digitpart r with
            | Some (ds, r') => (ds, r')
            | None => ([], r)
            end
          else ([], s1)
      | EmptyString => ([], s1)
      end in
    match (ip ++ fp)%list with
    | [] => Raise ValueError
    | ds =>
        let '(ex, s3) := exponent s2 in
        if String.eqb s3 ""
        then Ok (of_decimal neg (digits_val ds) (ex - Z.of_nat (length fp)))
        else Raise ValueError
    end.

End Float.

Abbreviation float := spec_float.

(** ** Cells, time stamps and the library interface *)

Record Timestamp : Type := {
  year : Z; month : Z; day : Z; hour : Z; minute : Z; second : Z
}.

(** A date value: a [Timestamp], or [None] for [pd.NaT]. *)
Abbreviation datetime := (option Timestamp).
Abbreviation NaT := (@None Timestamp).

(** The value of one cell of the uploaded table.  A missing cell is the
    float NaN, or [CNaT] in a date column. *)
Inductive cell : Type :=
  | CNaT
  | CInt (z : Z)
  | CFloat (f : float)
  | CStr (s : string)
  | CStamp (t : Timestamp).

(** What the program takes from pandas and from the Python run time without
    defining it: the two parsers and the text of floats and time stamps. *)
Class Library : Type := {
  (** [pd.to_datetime(s, format=fmt, dayfirst=True, errors="raise")];
      [fmt = None] is the call without a format. *)
  pd_to_datetime : option string -> string -> result datetime;
  (** [pd.to_numeric(s, errors="coerce")] *)
  pd_to_numeric : string -> result float;
  (** [str(x)] for a finite float [x] *)
  repr_float : float -> string;
  (** [str(t)] for a time stamp [t] *)
  repr_timestamp : Timestamp -> string
}.

(** [pd.isna(x)] *)
Definition isna (x : cell) : bool :=
  match x with
  | CNaT => true
  | CFloat f => Float.isnan f
  | _ => false
  end.

Section WithLibrary.

Context {lib : Library}.

(** [str(x)] *)
Definition str (x : cell) : string :=
  match x with
  | CNaT => "NaT"
  | CInt z => pretty z
  | CFloat S754_nan => "nan"
  | CFloat (S754_infinity false) => "inf"
  | CFloat (S754_infinity true) => "-inf"
  | CFloat f => repr_float f
  | CStr s => s
  | CStamp t => repr_timestamp t
  end.

(** [series.apply(f)] for an [f] that may raise. *)
Fixpoint apply {A B : Type} (f : A -> result B) (series : list A)
  : result (list B) :=
  match series with
  | [] => Ok []
  | x :: series' =>
      y ← f x;
      ys ← apply f series';
      Ok (y :: ys)
  end.

(** *** [_to_datetime] *)

Definition date_formats : list (option string) :=
  [None; Some "%d/%m/%Y"; Some "%Y-%m-%d"; Some "%d-%m-%Y"; Some "%m/%d/%Y";
   Some "%d/%m/%Y %H:%M:%S"; Some "%Y-%m-%d %H:%M:%S"].

(** The [for fmt in [...]] loop of [parse_one]: the first format that does
    not raise returns; after the last one the function returns [pd.NaT]. *)
Fixpoint try_formats (s : string) (fmts : list (option string))
  : result datetime :=
  match fmts with
  | [] => Ok NaT
  | fmt :: fmts' => try_except (pd_to_datetime fmt s) (try_formats s fmts')
  end.

Definition parse_one (x : cell) : result datetime :=
  if isna x then Ok NaT
  else match x with
       | CStamp t => Ok (Some t)
       | _ => try_formats (Str.strip (str x)) date_formats
       end.

Definition _to_datetime (series : list cell) : result (list datetime) :=
  apply parse_one series.

(** *** [_to_number] *)

(** [re.search(r"\d+,\d{3}", s)]: some digit is followed by a comma and
    three digits. *)
Definition thousands_at (s : string) : bool :=
  match s with
  | String a (String co (String b (String c (String d _)))) =>
      Str.isdigit a && Ascii.eqb co "," && Str.isdigit b && Str.isdigit c
      && Str.isdigit d
  | _ => false
  end.

Fixpoint search_thousands (s : string) : bool :=
  thousands_at s ||
  match s with
  | EmptyString => false
  | String _ s' => search_thousands s'
  end.

(** The text handed to [float] by [parse_num]. *)
Definition normalize_number_text (s : string) : string :=
  let s := Str.remove_char " " s in
  if search_thousands s && negb (Str.contains "." s)
  then Str.remove_char "," s
  else Str.replace_char "," "." (Str.remove_char "." s).

Definition parse_num (x : cell) : result float :=
  if isna x then Ok Float.zero
  else match x with
       | CInt z => Ok (Float.of_int z)
       | CFloat f => Ok f
       | _ =>
           let s := normalize_number_text (str x) in
           try_except (Float.of_string s)
             (try_except (pd_to_numeric s) (Ok Float.zero))
       end.

(** [series.fillna(0.0)] *)
Definition fillna_zero (series : list float) : list float :=
  map (fun v => if Float.isnan v then Float.zero else v) series.

Definition _to_number (series : list cell) : result (list float) :=
  vs ← apply parse_num series;
  Ok (fillna_zero vs).

(** ** Frames *)

(** The uploaded table: column labels and, for every row, its cells in the
    order of the labels. *)
Record DataFrame : Type := {
  columns : list string;
  data : list (list cell)
}.

(** [len(df)] *)
Definition len (df : DataFrame) : nat := length (data df).

Fixpoint position (c : string) (labels : list string) : option nat :=
  match labels with
  | [] => None
  | l :: labels' =>
      if String.eqb l c then Some 0 else S <$> position c labels'
  end.

(** [df[c]]: the column labelled [c]; [KeyError] when there is none. *)
Definition getitem (df : DataFrame) (c : string) : result (list cell) :=
  match position c (columns df) with
  | Some k => Ok (map (fun row => nth k row (CFloat Float.nan)) (data df))
  | None => Raise KeyError
  end.

(** [df[c]] for a label that passed the truth test of an [if]. *)
Definition getcol (df : DataFrame) (c : option string)
  : result (list cell) :=
  match c with
  | Some c => getitem df c
  | None => Raise KeyError
  end.

(** Whether the label names more than one column: [df[c]] is then a frame
    of those columns, and [getitem] gives the first of them. *)
Definition several (df : DataFrame) (c : string) : bool :=
  (1 <? length (List.filter (String.eqb c) (columns df)))%nat.

Definition several_col (df : DataFrame) (c : option string) : bool :=
  match c with
  | Some c => several df c
  | None => false
  end.

(** [df[c].astype(str).str]: a frame has no accessor [str]. *)
Definition text_column (df : DataFrame) (c : string) : result (list cell) :=
  if several df c then Raise AttributeError else getitem df c.

(** [f(df[c])] for [f = _to_number] or [f = _to_datetime].  On a frame,
    [apply] hands [f]'s inner function a whole column, and its first test,
    [if pd.isna(x)], raises [ValueError] on a series; on a frame without
    rows [apply] calls nothing and returns the empty frame, of which [[]]
    stands for the rows here. *)
Definition apply_to_column {B : Type} (f : list cell -> result (list B))
    (df : DataFrame) (c : option string) : result (list B) :=
  if several_col df c then
    if (len df =? 0)%nat then Ok [] else Raise ValueError
  else getcol df c ≫= f.

(** ** Direction and amount *)

Inductive direction : Type :=
  | dir_in
  | dir_out
  | dir_zero.

Definition direction_eqb (a b : direction) : bool :=
  match a, b with
  | dir_in, dir_in | dir_out, dir_out | dir_zero, dir_zero => true
  | _, _ => false
  end.

Definition in_keywords : list string :=
  ["credito"; "cr"; "ingreso"; "abono"; "deposito"; "dep"; "acred"].

Definition out_keywords : list string :=
  ["debito"; "db"; "egreso"; "pago"; "transferencia_saliente"; "extraccion";
   "cheque"].

(** The lambda applied to the lower-cased type text. *)
Definition type_direction (t : string) : direction :=
  if Str.any_in in_keywords t then dir_in
  else if Str.any_in out_keywords t then dir_out
  else dir_zero.

(** The lambda applied to the amount. *)
Definition sign_based (v : float) : direction :=
  if Float.ltb Float.zero v then dir_in
  else if Float.ltb v Float.zero then dir_out
  else dir_zero.

(** [credito - debito] on two series over the same index. *)
Fixpoint series_sub (a b : list float) : list float :=
  match a, b with
  | x :: a', y :: b' => Float.sub x y :: series_sub a' b'
  | _, _ => []
  end.

(** [direction.mask(direction == "zero", sign_based)] on two series over the
    same index. *)
Fixpoint mask_zero (d s : list direction) : list direction :=
  match d, s with
  | x :: d', y :: s' =>
      (if direction_eqb x dir_zero then y else x) :: mask_zero d' s'
  | _, _ => []
  end.

(** Whether [importe] is a frame when [sign_based] is computed: the table
    has no rows and a label that the amount is read from names several
    columns. *)
Definition amount_is_frame (df : DataFrame)
    (col_importe col_credito col_debito : option string) : bool :=
  (len df =? 0)%nat
  && (if truthy col_credito && truthy col_debito
      then several_col df col_credito || several_col df col_debito
      else several_col df col_importe).

Definition detect_direction_and_amount (df : DataFrame)
    (col_importe col_credito col_debito col_tipo : option string)
  : result (list float * list direction) :=
  importe ←
    (if truthy col_credito && truthy col_debito then
       credito ← apply_to_column _to_number df col_credito;
       debito ← apply_to_column _to_number df col_debito;
       Ok (series_sub credito debito)
     else
       match col_importe with
       | Some c => apply_to_column _to_number df (Some c)
       | None => Ok (repeat Float.zero (len df))
       end);
  direction ←
    (if truthy col_tipo then
       tipos ← (if several_col df col_tipo then Raise AttributeError
                else getcol df col_tipo);
       Ok (map (fun x => type_direction (Str.lower (str x))) tipos)
     else Ok (repeat dir_zero (len df)));
  let sign := map sign_based importe in
  (* [direction.mask(cond, sign_based)] does not align a series with a
     frame *)
  if amount_is_frame df col_importe col_credito col_debito
  then Raise NotImplementedError
  else Ok (importe, mask_zero direction sign).

(** ** Keyword rules *)

(** The two entries of [st.session_state] that the classifier reads. *)
Record session_state : Type := {
  kw_comisiones : option (list string);
  kw_impuestos : option (list string)
}.

(** The defaults, with the characters that the source file holds. *)
Definition default_kw_comisiones : list string :=
  ["comision"; "comisi" ++ String "195" (String "179" "n");
   "gasto de mantenimiento"; "cargo"; "tarifa"; "servicio bancario";
   "mantenimiento"; "seguro de cuenta"].

Definition default_kw_impuestos : list string :=
  ["impuesto"; "iva"; "i.v.a"; "retencion";
   "retenci" ++ String "195" (String "179" "n"); "perc"; "percepcion";
   "impuesto debitos y creditos"; "impuesto a los debitos";
   "impuesto al cheque"; "ley 25413"; "idc"].

(** [st.session_state.get(key, default)] for the two keys. *)
Definition fee_keywords (st : session_state) : list string :=
  default default_kw_comisiones (kw_comisiones st).

Definition tax_keywords (st : session_state) : list string :=
  default default_kw_impuestos (kw_impuestos st).

(** The series [detalle] of [categorize_rows]. *)
Definition detalle_text (df : DataFrame) (detalle_col : string)
  : result (list string) :=
  cells ← text_column df detalle_col;
  Ok (map (fun x => Str.lower (str x)) cells).

Definition categorize_rows (st : session_state) (df : DataFrame)
    (detalle_col : string) : result (list bool * list bool) :=
  detalle ← detalle_text df detalle_col;
  let is_comision := map (Str.any_in (fee_keywords st)) detalle in
  let is_impuesto := map (Str.any_in (tax_keywords st)) detalle in
  Ok (is_comision, is_impuesto).

(** ** The five sheets *)

(** A row of the frame [base]; [idx] is its index label. *)
Record base_row : Type := {
  idx : nat;
  fecha : datetime;
  referencia : string;
  nombre : string;
  cuit : string;
  detalle : string;
  importe : float
}.

(** A row of [remaining]: its index label, its cells of the columns of
    [base], and its cell of the column ["dir"].  The cells of [base] are all
    missing ([None]) in a row that the assignment of ["dir"] added; the
    cell of ["dir"] is missing where the direction series has no element
    with the row's label. *)
Record remaining_row : Type := {
  label : nat;
  row : option base_row;
  dir : option direction
}.

(** Rows of sheets 1 and 2.  A text cell is [None] where the value is
    missing (NaN), the date is [NaT] and the amount NaN there. *)
Record payment_row : Type := {
  p_idx : nat;
  p_fecha : datetime;
  p_referencia : option string;
  p_nombre : option string;
  p_cuit : option string;
  p_importe : float
}.

(** Rows of sheets 3, 4 and 5. *)
Record debit_row : Type := {
  d_idx : nat;
  d_fecha : datetime;
  d_referencia : option string;
  d_detalle : string;
  d_importe : float
}.

Record sheets : Type := {
  sh1 : list payment_row;
  sh2 : list payment_row;
  sh3 : list debit_row;
  sh4 : list debit_row;
  sh5 : list debit_row
}.

(** Row [i] of [pd.DataFrame({...})] from six series; a series without
    element [i] leaves a missing value there. *)
Definition frame_row (fecha_out : list datetime)
    (ref_out nombre_out cuit_out detalle_out : list string)
    (importe_out : list float) (i : nat) : base_row :=
  {| idx := i;
     fecha := default NaT (fecha_out !! i);
     referencia := default "nan" (ref_out !! i);
     nombre := default "nan" (nombre_out !! i);
     cuit := default "nan" (cuit_out !! i);
     detalle := default "nan" (detalle_out !! i);
     importe := default Float.nan (importe_out !! i) |}.

(** [pd.DataFrame({...})] from six series indexed like [df]; [n] is
    [len(df)]. *)
Definition frame (n : nat) (fecha_out : list datetime)
    (ref_out nombre_out cuit_out detalle_out : list string)
    (importe_out : list float) : list base_row :=
  map (frame_row fecha_out ref_out nombre_out cuit_out detalle_out
         importe_out) (seq 0 n).

(** [a | b] and [~a] on boolean series over the same index. *)
Definition series_or (a b : list bool) : list bool := zip_with orb a b.
Definition series_not (a : list bool) : list bool := map negb a.

(** [base[mask]]: the rows whose label the mask maps to [True]. *)
Definition select (mask : list bool) (rows : list base_row) : list base_row :=
  List.filter (fun r => default false (mask !! idx r)) rows.

(** [remaining["dir"] = direction_series].  On a frame with rows the
    series is aligned on the index of the frame.  A frame without rows
    takes the index of the series instead: it gets one row per element of
    the series, with every other cell missing. *)
Definition assign_dir (direction_series : list direction)
    (rows : list base_row) : list remaining_row :=
  match rows with
  | [] =>
      imap (fun i d => {| label := i; row := None; dir := Some d |})
        direction_series
  | _ =>
      map (fun r => {| label := idx r; row := Some r;
                       dir := direction_series !! idx r |}) rows
  end.

(** [remaining["dir"] == d] *)
Definition dir_is (d : direction) (r : remaining_row) : bool :=
  match dir r with
  | Some d' => direction_eqb d' d
  | None => false
  end.

(** [(nombre.str.strip() == "") & (cuit.str.strip() == "")]; a missing
    text is not equal to [""]. *)
Definition blank_counterparty (r : remaining_row) : bool :=
  match row r with
  | Some b =>
      String.eqb (Str.strip (nombre b)) ""
      && String.eqb (Str.strip (cuit b)) ""
  | None => false
  end.

Definition to_payment (r : remaining_row) : payment_row :=
  {| p_idx := label r; p_fecha := row r ≫= fecha;
     p_referencia := referencia <$> row r; p_nombre := nombre <$> row r;
     p_cuit := cuit <$> row r;
     p_importe := default Float.nan (importe <$> row r) |}.

Definition to_debit (r : base_row) : debit_row :=
  {| d_idx := idx r; d_fecha := fecha r; d_referencia := Some (referencia r);
     d_detalle := detalle r; d_importe := importe r |}.

Definition to_unidentified (r : remaining_row) : debit_row :=
  {| d_idx := label r; d_fecha := row r ≫= fecha;
     d_referencia := referencia <$> row r;
     d_detalle := "Sin Identificacion";
     d_importe := default Float.nan (importe <$> row r) |}.

(** *** Sorting *)

Definition timestamp_compare (a b : Timestamp) : comparison :=
  match (year a ?= year b)%Z with
  | Eq =>
      match (month a ?= month b)%Z with
      | Eq =>
          match (day a ?= day b)%Z with
          | Eq =>
              match (hour a ?= hour b)%Z with
              | Eq =>
                  match (minute a ?= minute b)%Z with
                  | Eq => (second a ?= second b)%Z
                  | c => c
                  end
              | c => c
              end
          | c => c
          end
      | c => c
      end
  | c => c
  end.

Definition string_le (a b : string) : bool :=
  match String.compare a b with
  | Gt => false
  | _ => true
  end.

(** The order of the references, a missing one last. *)
Definition text_le (a b : option string) : bool :=
  match a, b with
  | Some x, Some y => string_le x y
  | Some _, None => true
  | None, Some _ => false
  | None, None => true
  end.

(** The order of [sort_values(by=[date, "referencia"], na_position="last")]
    on the pair of sort keys. *)
Definition key_le (a b : datetime * option string) : bool :=
  match fst a, fst b with
  | Some ta, Some tb =>
      match timestamp_compare ta tb with
      | Lt => true
      | Eq => text_le (snd a) (snd b)
      | Gt => false
      end
  | Some _, None => true
  | None, Some _ => false
  | None, None => text_le (snd a) (snd b)
  end.

Fixpoint insert_by {A : Type} (key : A -> datetime * option string) (x : A)
    (l : list A) : list A :=
  match l with
  | [] => [x]
  | y :: l' =>
      if key_le (key x) (key y) then x :: l else y :: insert_by key x l'
  end.

(** A stable sort: an element goes in front of the elements behind it that
    are not smaller. *)
Definition sort_values {A : Type} (key : A -> datetime * option string)
    (l : list A) : list A :=
  foldr (insert_by key) [] l.

Definition payment_key (r : payment_row) : datetime * option string :=
  (p_fecha r, p_referencia r).

Definition debit_key (r : debit_row) : datetime * option string :=
  (d_fecha r, d_referencia r).

(** *** [build_output_sheets] *)

(** [df[c] if c else pd.Series([""] * len(df))] *)
Definition column_or_blank (df : DataFrame) (c : option string)
  : result (list cell) :=
  if truthy c then getcol df c else Ok (repeat (CStr "") (len df)).

(** [a if a else k] for a column name [a]. *)
Definition or_else (a : option string) (k : result string) : result string :=
  if truthy a then
    match a with
    | Some s => Ok s
    | None => k
    end
  else k.

(** [detalle_col if detalle_col else ref_col if ref_col else df.columns[0]] *)
Definition classification_column (df : DataFrame)
    (detalle_col ref_col : option string) : result string :=
  or_else detalle_col
    (or_else ref_col
       match columns df with
       | c :: _ => Ok c
       | [] => Raise IndexError
       end).

(** The part of [build_output_sheets] that follows the construction of
    [base]: the five selections, their columns and their order. *)
Definition split_sheets (base : list base_row)
    (is_comision is_impuesto : list bool)
    (direction_series : list direction) : sheets :=
  let remaining :=
    assign_dir direction_series
      (select (series_not (series_or is_comision is_impuesto)) base) in
  let s1 := map to_payment (List.filter (dir_is dir_in) remaining) in
  let s2 := map to_payment (List.filter (dir_is dir_out) remaining) in
  let s3 := map to_debit (select is_comision base) in
  let s4 := map to_debit (select is_impuesto base) in
  let s5 :=
    map to_unidentified
      (List.filter (fun r => dir_is dir_zero r || blank_counterparty r)
         remaining) in
  {| sh1 := sort_values payment_key s1;
     sh2 := sort_values payment_key s2;
     sh3 := sort_values debit_key s3;
     sh4 := sort_values debit_key s4;
     sh5 := sort_values debit_key s5 |}.

(** Whether a series handed to [pd.DataFrame({...})] is a frame: its
    label passed the truth test and names several columns. *)
Definition is_frame (df : DataFrame) (c : option string) : bool :=
  truthy c && several_col df c.

Definition build_output_sheets (st : session_state) (df : DataFrame)
    (fecha_col ref_col nombre_col cuit_col detalle_col : option string)
    (importe_series : list float) (direction_series : list direction)
  : result sheets :=
  fecha_out ←
    (if truthy fecha_col then apply_to_column _to_datetime df fecha_col
     else Ok (repeat NaT (len df)));
  ref_out ← column_or_blank df ref_col;
  nombre_out ← column_or_blank df nombre_col;
  cuit_out ← column_or_blank df cuit_col;
  detalle_out ← column_or_blank df detalle_col;
  let importe_out := importe_series in
  key ← classification_column df detalle_col ref_col;
  '(is_comision, is_impuesto) ← categorize_rows st df key;
  (* [pd.DataFrame({...})] takes no frame for a column *)
  if is_frame df fecha_col || is_frame df ref_col || is_frame df nombre_col
     || is_frame df cuit_col || is_frame df detalle_col
  then Raise ValueError
  else
    let base :=
      frame (len df) fecha_out (map str ref_out) (map str nombre_out)
        (map str cuit_out) (map str detalle_out) importe_out in
    (* [base[is_comision]]: on a table without rows the mask is an empty
       series that is not boolean and is read as a list of no column
       labels; the selection of the four columns that follows finds none
       of them *)
    if (len df =? 0)%nat then Raise KeyError
    else Ok (split_sheets base is_comision is_impuesto direction_series).

(** *** [process_dataframe] *)

Definition process_dataframe (st : session_state) (df : DataFrame)
  : result sheets :=
  let df := {| columns := map Str.strip (columns df); data := data df |} in
  let g := guess_columns (columns df) in
  '(importe, direction) ←
    detect_direction_and_amount df (importe_col g) (credito_col g)
      (debito_col g) (tipo_col g);
  build_output_sheets st df (fecha_col g) (ref_col g) (nombre_col g)
    (cuit_col g) (detalle_col g) importe direction.

End WithLibrary.

(** ** A reference library

    An executable rendering of the library interface: Python's shortest
    round-trip text of floats, ISO text of time stamps, [strptime] for the
    directives of the six patterns, the day-first reading of dates written
    as three numbers for the call without a format, and a numeric coercion
    that accepts what [float] accepts. *)

Module Reference.

(** *** Text of floats *)

(** [scaled_floor num den q] is the integer part of [num / den / 10 ^ q]. *)
Definition scaled_floor (num den q : Z) : Z :=
  if (0 <=? q)%Z then (num / (den * 10 ^ q))%Z
  else (num * 10 ^ (- q) / den)%Z.

(** The exponent [k] with [10 ^ k <= num / den < 10 ^ (k + 1)], from an
    estimate that is at most three below it. *)
Fixpoint adjust_log10 (fuel : nat) (num den k : Z) : Z :=
  match fuel with
  | O => k
  | S fuel' =>
      if (1 <=? scaled_floor num den (k + 1))%Z
      then adjust_log10 fuel' num den (k + 1)
      else k
  end.

Definition floor_log10 (num den : Z) : Z :=
  let est := ((Z.log2 num - Z.log2 den - 1) * 30102 / 100000 - 1)%Z in
  adjust_log10 8 num den est.

Fixpoint strip_zeros (fuel : nat) (d q : Z) : Z * Z :=
  match fuel with
  | O => (d, q)
  | S fuel' =>
      if (d mod 10 =? 0)%Z then strip_zeros fuel' (d / 10)%Z (q + 1)%Z
      else (d, q)
  end.

(** The shortest decimal [d * 10 ^ q] that [float] reads back as [x], with
    [n] significant digits tried in turn. *)
Fixpoint shortest (fuel : nat) (n : Z) (x : float) (num den k : Z) : Z * Z :=
  match fuel with
  | O => (0, 0)%Z
  | S fuel' =>
      let q := (k - n + 1)%Z in
      let lo := scaled_floor num den q in
      let hi := (lo + 1)%Z in
      let ok d := match x, Float.of_decimal false d q with
                  | S754_finite _ m e, S754_finite _ m' e' =>
                      Pos.eqb m m' && Z.eqb e e'
                  | _, _ => false
                  end in
      (* twice the distance of the value from [lo], against one unit *)
      let closer_lo :=
        if (0 <=? q)%Z
        then (2 * (num - lo * (den * 10 ^ q)) <=? den * 10 ^ q)%Z
        else (2 * (num * 10 ^ (- q) - lo * den) <=? den)%Z in
      match ok lo, ok hi with
      | true, true => if closer_lo then (lo, q) else (hi, q)
      | true, false => (lo, q)
      | false, true => (hi, q)
      | false, false => shortest fuel' (n + 1)%Z x num den k
      end
  end.

Fixpoint zeros (n : nat) : string :=
  match n with
  | O => ""
  | S n' => String "0" (zeros n')
  end.

Definition take (n : nat) (s : string) : string := String.substring 0 n s.
Definition drop (n : nat) (s : string) : string :=
  String.substring n (String.length s - n) s.

Definition repr_finite (x : float) : string :=
  match x with
  | S754_zero s => if s then "-0.0" else "0.0"
  | S754_finite s m e =>
      let num := if (0 <=? e)%Z then (Zpos m * 2 ^ e)%Z else Zpos m in
      let den := if (0 <=? e)%Z then 1%Z else (2 ^ (- e))%Z in
      let k := floor_log10 num den in
      let '(d, q) := shortest 17 1 x num den k in
      let '(d, q) := strip_zeros 20 d q in
      let ds : string := pretty d in
      let nd := Z.of_nat (String.length ds) in
      let decpt := (nd + q)%Z in
      let body :=
        if (decpt <=? -4)%Z || (16 <? decpt)%Z then
          let ex := (decpt - 1)%Z in
          let exs : string := pretty (Z.abs ex) in
          let exs := if (Z.abs ex <? 10)%Z then "0" ++ exs else exs in
          take 1 ds ++ (if (1 <? nd)%Z then "." ++ drop 1 ds else "")
          ++ "e" ++ (if (ex <? 0)%Z then "-" else "+") ++ exs
        else if (decpt <=? 0)%Z then
          "0." ++ zeros (Z.to_nat (- decpt)) ++ ds
        else if (nd <=? decpt)%Z then
          ds ++ zeros (Z.to_nat (decpt - nd)) ++ ".0"
        else take (Z.to_nat decpt) ds ++ "." ++ drop (Z.to_nat decpt) ds in
      if s then "-" ++ body else body
  | S754_infinity s => if s then "-inf" else "inf"
  | S754_nan => "nan"
  end.

(** *** Text of time stamps *)

Definition pad (w : nat) (z : Z) : string :=
  let t : string := pretty z in
  zeros (w - String.length t) ++ t.

(** [str(t)]: the ISO form with a space between date and time. *)
Definition repr_stamp (t : Timestamp) : string :=
  pad 4 (year t) ++ "-" ++ pad 2 (month t) ++ "-" ++ pad 2 (day t) ++ " "
  ++ pad 2 (hour t) ++ ":" ++ pad 2 (minute t) ++ ":" ++ pad 2 (second t).

(** *** [strptime] *)

Inductive directive : Type :=
  | Dday | Dmonth | Dyear | Dhour | Dminute | Dsecond
  | Dspace
  | Dlit (c : ascii)
  | Dbad.

Fixpoint directives (fmt : string) : list directive :=
  match fmt with
  | EmptyString => []
  | String c fmt' =>
      if Ascii.eqb c "%" then
        match fmt' with
        | String k fmt'' =>
            (if Ascii.eqb k "d" then Dday
             else if Ascii.eqb k "m" then Dmonth
             else if Ascii.eqb k "Y" then Dyear
             else if Ascii.eqb k "H" then Dhour
             else if Ascii.eqb k "M" then Dminute
             else if Ascii.eqb k "S" then Dsecond
             else Dbad) :: directives fmt''
        | EmptyString => [Dbad]
        end
      else if Str.isspace c then Dspace :: directives fmt'
      else Dlit c :: directives fmt'
  end.

(** Up to [w] leading digits of [s], their value and the rest; [None]
    without a digit. *)
Fixpoint digits_upto (w : nat) (acc : option Z) (s : string)
  : option Z * string :=
  match w, s with
  | S w', String c s' =>
      if Str.isdigit c
      then digits_upto w' (Some (10 * default 0 acc + Float.digit_val c))%Z s'
      else (acc, s)
  | _, _ => (acc, s)
  end.

Definition field (w : nat) (exact : bool) (lo hi : Z) (s : string)
  : option (Z * string) :=
  match digits_upto w None s with
  | (Some v, rest) =>
      let used := (String.length s - String.length rest)%nat in
      if (lo <=? v)%Z && (v <=? hi)%Z && (negb exact || (used =? w)%nat)
      then Some (v, rest)
      else None
  | (None, _) => None
  end.

Definition set_field (d : directive) (v : Z) (t : Timestamp) : Timestamp :=
  match d with
  | Dday => {| year := year t; month := month t; day := v; hour := hour t;
               minute := minute t; second := second t |}
  | Dmonth => {| year := year t; month := v; day := day t; hour := hour t;
                 minute := minute t; second := second t |}
  | Dyear => {| year := v; month := month t; day := day t; hour := hour t;
                minute := minute t; second := second t |}
  | Dhour => {| year := year t; month := month t; day := day t; hour := v;
                minute := minute t; second := second t |}
  | Dminute => {| year := year t; month := month t; day := day t;
                  hour := hour t; minute := v; second := second t |}
  | Dsecond => {| year := year t; month := month t; day := day t;
                  hour := hour t; minute := minute t; second := v |}
  | _ => t
  end.

Fixpoint match_directives (ds : list directive) (s : string) (t : Timestamp)
  : option Timestamp :=
  match ds with
  | [] => if String.eqb s "" then Some t else None
  | d :: ds' =>
      let numeric w exact lo hi :=
        match field w exact lo hi s with
        | Some (v, rest) => match_directives ds' rest (set_field d v t)
        | None => None
        end in
      match d with
      | Dday => numeric 2%nat false 1%Z 31%Z
      | Dmonth => numeric 2%nat false 1%Z 12%Z
      | Dyear => numeric 4%nat true 0%Z 9999%Z
      | Dhour => numeric 2%nat false 0%Z 23%Z
      | Dminute => numeric 2%nat false 0%Z 59%Z
      | Dsecond => numeric 2%nat false 0%Z 59%Z
      | Dspace =>
          match s with
          | String c s' =>
              if Str.isspace c
              then match_directives ds' (Str.lstrip_with Str.isspace s') t
              else None
          | EmptyString => None
          end
      | Dlit c =>
          match s with
          | String c' s' =>
              if Ascii.eqb c c' then match_directives ds' s' t else None
          | EmptyString => None
          end
      | Dbad => None
      end
  end.

Definition leap (y : Z) : bool :=
  ((y mod 4 =? 0) && negb (y mod 100 =? 0) || (y mod 400 =? 0))%Z.

Definition days_in_month (y m : Z) : Z :=
  if (m =? 2)%Z then (if leap y then 29 else 28)%Z
  else if ((m =? 4) || (m =? 6) || (m =? 9) || (m =? 11))%Z then 30%Z
  else 31%Z.

(** The bounds of a nanosecond time stamp. *)
Definition stamp_min : Timestamp :=
  {| year := 1677; month := 9; day := 21; hour := 0; minute := 12;
     second := 44 |}.
Definition stamp_max : Timestamp :=
  {| year := 2262; month := 4; day := 11; hour := 23; minute := 47;
     second := 16 |}.

Definition valid_stamp (t : Timestamp) : bool :=
  (day t <=? days_in_month (year t) (month t))%Z
  && match timestamp_compare stamp_min t with Gt => false | _ => true end
  && match timestamp_compare t stamp_max with Gt => false | _ => true end.

Definition is_nat_string (s : string) : bool :=
  existsb (String.eqb s) [""; "NaT"; "nat"; "NAT"; "nan"; "NaN"; "NAN"].

Definition strptime (fmt s : string) : result datetime :=
  if is_nat_string s then Ok NaT
  else
    let epoch := {| year := 1900; month := 1; day := 1; hour := 0;
                    minute := 0; second := 0 |} in
    match match_directives (directives fmt) s epoch with
    | Some t => if valid_stamp t then Ok (Some t) else Raise ValueError
    | None => Raise ValueError
    end.

(** *** The call without a format

    [pd.to_datetime(s, dayfirst=True)] on a date written as three numbers
    with the separator [-] or [/], which may be followed by a time of day
    [H:M] or [H:M:S].  The number of more than two digits is the year.
    With the year first, the day is read before the month when the last
    number can be a month ([2024-01-05] is 1 May 2024); otherwise the day
    is read first unless only the first number can be a month.  A text of
    another shape (a month name, a year of two digits, fewer numbers, a
    time zone), which the library may read, is outside this rendering and
    raises here. *)

(** The leading digits of [s]: their value, how many they are, the rest. *)
Definition number (s : string) : option (Z * nat * string) :=
  match digits_upto (String.length s) None s with
  | (Some v, rest) =>
      Some (v, (String.length s - String.length rest)%nat, rest)
  | (None, _) => None
  end.

Definition is_date_sep (c : ascii) : bool :=
  Ascii.eqb c "-" || Ascii.eqb c "/".

Definition three_numbers (s : string)
  : option ((Z * nat) * (Z * nat) * (Z * nat) * string) :=
  match number s with
  | Some (a, la, String sep s1) =>
      if is_date_sep sep then
        match number s1 with
        | Some (b, lb, String sep' s2) =>
            if Ascii.eqb sep sep' then
              match number s2 with
              | Some (c, lc, rest) => Some ((a, la), (b, lb), (c, lc), rest)
              | None => None
              end
            else None
        | _ => None
        end
      else None
  | _ => None
  end.

(** Year, month and day of the three numbers, each with its number of
    digits. *)
Definition resolve_ymd (a b c : Z * nat) : option (Z * Z * Z) :=
  let is_year (x : Z * nat) := (2 <? snd x)%nat in
  match is_year a, is_year b, is_year c with
  | true, false, false | false, true, false | false, false, true =>
      if (31 <? fst a)%Z || is_year a then
        if (fst c <=? 12)%Z then Some (fst a, fst c, fst b)
        else Some (fst a, fst b, fst c)
      else if (12 <? fst a)%Z || (fst b <=? 12)%Z
           then Some (fst c, fst b, fst a)
           else Some (fst c, fst a, fst b)
  | _, _, _ => None
  end.

Definition time_of_day (rest : string) (t : Timestamp) : option Timestamp :=
  if String.eqb rest "" then Some t
  else match match_directives (directives " %H:%M:%S") rest t with
       | Some t' => Some t'
       | None => match_directives (directives " %H:%M") rest t
       end.

Definition parse_plain (s : string) : result datetime :=
  if is_nat_string s then Ok NaT
  else
    match three_numbers s with
    | Some (a, b, c, rest) =>
        match resolve_ymd a b c with
        | Some (y, m, d) =>
            match time_of_day rest
                    {| year := y; month := m; day := d; hour := 0;
                       minute := 0; second := 0 |} with
            | Some t =>
                if (1 <=? m)%Z && (m <=? 12)%Z && (1 <=? d)%Z
                   && valid_stamp t
                then Ok (Some t) else Raise ValueError
            | None => Raise ValueError
            end
        | None => Raise ValueError
        end
    | None => Raise ValueError
    end.

Definition to_datetime (fmt : option string) (s : string) : result datetime :=
  match fmt with
  | Some f => strptime f s
  | None => parse_plain s
  end.

(** What [float] rejects is coerced to NaN. *)
Definition to_numeric (s : string) : result float :=
  try_except (Float.of_string s) (Ok Float.nan).

End Reference.

#[global] Instance reference_library : Library := {|
  pd_to_datetime := Reference.to_datetime;
  pd_to_numeric := Reference.to_numeric;
  repr_float := Reference.repr_finite;
  repr_timestamp := Reference.repr_stamp
|}.

(** ** Notions used by the statements *)

(** How many rows of a sheet carry the index label [i]. *)
Definition occ {A : Type} (ix : A -> nat) (i : nat) (l : list A) : nat :=
  length (List.filter (fun r => (ix r =? i)%nat) l).

(** In how many places of the five sheets the input row [i] appears. *)
Definition appearances (i : nat) (s : sheets) : nat :=
  occ p_idx i (sh1 s) + occ p_idx i (sh2 s) + occ d_idx i (sh3 s)
  + occ d_idx i (sh4 s) + occ d_idx i (sh5 s).

(** The sum of the five row counts. *)
Definition rows_total (s : sheets) : nat :=
  length (sh1 s) + length (sh2 s) + length (sh3 s) + length (sh4 s)
  + length (sh5 s).

Definition b2n (b : bool) : nat := if b then 1 else 0.

(** [f 0 + ... + f (n - 1)] *)
Fixpoint sum_upto (f : nat -> nat) (n : nat) : nat :=
  match n with
  | O => 0
  | S n' => sum_upto f n' + f n'
  end.

(** The direction series has the value [d] at the label [i]. *)
Definition dir_at (dirs : list direction) (i : nat) (d : direction) : bool :=
  match dirs !! i with
  | Some d' => direction_eqb d' d
  | None => false
  end.

(** Both texts are empty after [strip]. *)
Definition blank (name tax_id : string) : bool :=
  String.eqb (Str.strip name) "" && String.eqb (Str.strip tax_id) "".

(** Every description holds a fee keyword or a tax keyword, so that no row
    of the table is left for the direction split. *)
Definition every_row_matches (st : session_state) (texts : list string)
  : bool :=
  forallb (fun t => Str.any_in (fee_keywords st) t
                    || Str.any_in (tax_keywords st) t) texts.

(** A row of sheet 1 or 2 that holds no input: every cell is missing. *)
Definition added_payment (r : payment_row) : Prop :=
  p_fecha r = NaT /\ p_referencia r = None /\ p_nombre r = None
  /\ p_cuit r = None /\ p_importe r = Float.nan.

(** A row of sheet 5 that holds no input. *)
Definition added_debit (r : debit_row) : Prop :=
  d_fecha r = NaT /\ d_referencia r = None /\ d_importe r = Float.nan.

(** The headers with a given slug, in input order. *)
Definition headers_with_slug (columns : list string) (k : string)
  : list string :=
  List.filter (fun c => String.eqb (_slug c) k) columns.

(** The resolution rule as the code has it: the candidates are tried in
    priority order, and for the first one that is the slug of some header
    the last such header is returned. *)
Fixpoint last_header_by_priority (columns cands : list string)
  : option string :=
  match cands with
  | [] => None
  | c :: cands' =>
      match last (headers_with_slug columns c) with
      | Some h => Some h
      | None => last_header_by_priority columns cands'
      end
  end.

(** The resolution rule in the words of the specification: the candidates
    are tried in priority order, and for the first one that is the slug of
    some header the first such header is returned. *)
Fixpoint first_header_by_priority (columns cands : list string)
  : option string :=
  match cands with
  | [] => None
  | c :: cands' =>
      match head (headers_with_slug columns c) with
      | Some h => Some h
      | None => first_header_by_priority columns cands'
      end
  end.

Definition all_roles : list role :=
  [Fecha; Referencia; Nombre; Cuit; Detalle; Importe; Credito; Debito; Tipo].

(** No header has the slug of a candidate of any role. *)
Definition no_role_resolves (columns : list string) : bool :=
  forallb (fun r =>
             match find (slug_to_orig columns) (candidates r) with
             | Some _ => false
             | None => true
             end) all_roles.

(** The frame as [process_dataframe] rebinds it: labels stripped. *)
Definition stripped (df : DataFrame) : DataFrame :=
  {| columns := map Str.strip (columns df); data := data df |}.

(** A column name that is absent or a label of the frame. *)
Definition known (df : DataFrame) (c : option string) : Prop :=
  forall h, c = Some h -> In h (columns df).

Definition is_raise {A : Type} (r : result A) : Prop :=
  match r with
  | Ok _ => False
  | Raise _ => True
  end.

Definition jan31_2024 : Timestamp :=
  {| year := 2024; month := 1; day := 31; hour := 0; minute := 0;
     second := 0 |}.

(** The floats of the locale examples, with their binary64 mantissas. *)
Definition f_1234_56 : float := S754_finite false 5429652300748554 (-42).
Definition f_1_23456 : float := S754_finite false 5559963955966520 (-52).
Definition f_1234567 : float := S754_finite false 5302424889720832 (-32).
Definition f_150 : float := S754_finite false 5277655813324800 (-45).
Definition f_minus_50 : float := S754_finite true 7036874417766400 (-47).

(** *** Tables of the examples *)

Definition empty_session : session_state :=
  {| kw_comisiones := None; kw_impuestos := None |}.

(** One row whose description holds a fee keyword and a tax keyword. *)
Definition df_fee_and_tax : DataFrame :=
  {| columns := ["detalle"; "importe"; "nombre"; "cuit"];
     data := [[CStr "Comision IVA"; CStr "-50,00"; CStr "Banco";
               CStr "30-1-1"]] |}.

(** One incoming payment of 150.00 in a table without name and tax id
    columns. *)
Definition df_no_counterparty : DataFrame :=
  {| columns := ["detalle"; "importe"];
     data := [[CStr "Pago factura 123"; CStr "150,00"]] |}.

(** Two headers with the slug [fecha]. *)
Definition headers_same_slug : list string := ["Fecha"; "fecha"; "Monto"].


(** A table without a resolved column whose only row holds a keyword. *)
Definition df_unresolved_tax : DataFrame :=
  {| columns := ["x"; "y"]; data := [[CStr "IVA 21%"; CStr "10"]] |}.

(** Credit and debit are both infinite. *)
Definition df_infinite : DataFrame :=
  {| columns := ["credito"; "debito"];
     data := [[CStr "inf"; CStr "inf"]] |}.

(** A type column that contradicts the sign of the amount. *)
Definition df_typed : DataFrame :=
  {| columns := ["tipo"; "importe"];
     data := [[CStr "Credito"; CStr "-10,00"]; [CStr "DEBITO"; CStr "5"];
              [CStr "otro"; CStr "-7"]; [CStr "otro"; CStr "0"]] |}.

(** ** The keyword boxes of the page *)

(** [s.split(sep)] for a one-character [sep]. *)
Fixpoint split_on (sep : ascii) (s : string) : list string :=
  match s with
  | EmptyString => [EmptyString]
  | String c s' =>
      if Ascii.eqb c sep then EmptyString :: split_on sep s'
      else
        match split_on sep s' with
        | piece :: pieces => String c piece :: pieces
        | [] => [String c EmptyString]
        end
  end.

(** [[k.strip().lower() for k in text.split(",") if k.strip()]] *)
Definition parse_keywords (text : string) : list string :=
  map (fun k => Str.lower (Str.strip k))
    (List.filter (fun k => negb (String.eqb (Str.strip k) ""))
       (split_on "," text)).

(** The session state after the page stored the two boxes. *)
Definition store_keywords (fee_text tax_text : string) : session_state :=
  {| kw_comisiones := Some (parse_keywords fee_text);
     kw_impuestos := Some (parse_keywords tax_text) |}.

(** ** The report *)

(** A frame as [autosize_and_formats] reads it: the column labels, for
    each column the texts [astype(str)] of its values ([nan] for a missing
    text), and [len(df)]. *)
Record text_frame : Type := {
  labels : list string;
  texts : list (list string);
  height : nat
}.

(** The three formats that the writer adds to the workbook: bold,
    [dd/mm/yyyy] and [#,##0.00]. *)
Inductive cell_format : Type :=
  | Bold
  | DateFormat
  | MoneyFormat.

(** The calls made on the worksheet. *)
Inductive sheet_call : Type :=
  | Write (r c : nat) (text : string) (fmt : cell_format)
  | SetColumn (first last : nat) (width : nat) (fmt : option cell_format)
  | Autofilter (r1 c1 r2 : nat) (c2 : Z).

(** [max([len(str(col))] + [len(str(x)) for x in values.head(1000)])] *)
Definition max_len (label : string) (values : list string) : nat :=
  foldr Nat.max 0
    (String.length label :: map String.length (firstn 1000 values)).

(** The loop over [date_cols] (or [money_cols]): a column of the frame
    with one of the names gets the width and the format. *)
Definition format_columns (df : text_frame) (names : list string)
    (width : nat) (fmt : cell_format) : list sheet_call :=
  flat_map (fun name =>
              match position name (labels df) with
              | Some col_idx => [SetColumn col_idx col_idx width (Some fmt)]
              | None => []
              end) names.

(** [df[col].astype(str)] for a label of the frame. *)
Definition column_texts (df : text_frame) (col : string) : list string :=
  default [] (position col (labels df) ≫= fun k => texts df !! k).

Definition autosize_and_formats (df : text_frame)
    (date_cols money_cols : list string) : list sheet_call :=
  (imap (fun col_num col_name => Write 0 col_num col_name Bold) (labels df)
   ++ imap (fun idx col =>
              SetColumn idx idx
                (Nat.min (max_len col (column_texts df col) + 2) 60)
                None) (labels df)
   ++ [Autofilter 0 0 (Nat.max (height df) 1)
         (Z.of_nat (length (labels df)) - 1)]
   ++ format_columns df date_cols 12 DateFormat
   ++ format_columns df money_cols 14 MoneyFormat)%list.

(** What [set_column] calls leave on a column: the width and format of the
    last call that covers it. *)
Definition column_after (calls : list sheet_call) (c : nat)
  : option (nat * option cell_format) :=
  foldl (fun st call =>
           match call with
           | SetColumn a b w f =>
               if (a <=? c)%nat && (c <=? b)%nat then Some (w, f) else st
           | _ => st
           end) None calls.

Section Report.

Context {lib : Library}.

(** The text that [astype(str)] gives a value of the date column. *)
Variable date_text : datetime -> string.

(** The frame of sheet 1 or 2 under the given column labels. *)
Definition payment_frame (names : list string) (rows : list payment_row)
  : text_frame :=
  {| labels := names;
     texts := [map (fun r => date_text (p_fecha r)) rows;
               map (fun r => default "nan" (p_referencia r)) rows;
               map (fun r => default "nan" (p_nombre r)) rows;
               map (fun r => default "nan" (p_cuit r)) rows;
               map (fun r => str (CFloat (p_importe r))) rows];
     height := length rows |}.

(** The frame of sheet 3, 4 or 5. *)
Definition debit_frame (rows : list debit_row) : text_frame :=
  {| labels := ["fecha_del_debito"; "referencia"; "detalle";
                "importe_debitado"];
     texts := [map (fun r => date_text (d_fecha r)) rows;
               map (fun r => default "nan" (d_referencia r)) rows;
               map d_detalle rows;
               map (fun r => str (CFloat (d_importe r))) rows];
     height := length rows |}.

(** The five frames that [build_output_sheets] returns, with the labels
    of its renames. *)
Definition sheet_frames (s : sheets) : list text_frame :=
  [payment_frame ["fecha_de_recepcion"; "referencia"; "nombre_del_pagador";
                  "cuit_del_pagador"; "importe_recibido"] (sh1 s);
   payment_frame ["fecha_de_pago"; "referencia"; "nombre_del_proveedor";
                  "cuit_del_proveedor"; "importe_pagado"] (sh2 s);
   debit_frame (sh3 s); debit_frame (sh4 s); debit_frame (sh5 s)].

End Report.

Definition sheet_names : list string :=
  ["1 - Pagos recibidos"; "2 - Pagos realizados"; "3 - Comisiones bancarias";
   "4 - Impuestos y IVA"; "5 - No identificados"].

Definition sheet_date_cols : list (list string) :=
  [["fecha_de_recepcion"]; ["fecha_de_pago"]; ["fecha_del_debito"];
   ["fecha_del_debito"]; ["fecha_del_debito"]].

Definition sheet_money_cols : list (list string) :=
  [["importe_recibido"]; ["importe_pagado"]; ["importe_debitado"];
   ["importe_debitado"]; ["importe_debitado"]].

(** One sheet of the workbook: its name, the frame written to it and the
    calls made on it. *)
Record written_sheet : Type := {
  sheet_name : string;
  written : text_frame;
  calls : list sheet_call
}.

Fixpoint zip4 (dfs : list text_frame) (names : list string)
    (dcs mcs : list (list string)) : list written_sheet :=
  match dfs, names, dcs, mcs with
  | df :: dfs', name :: names', dc :: dcs', mc :: mcs' =>
      {| sheet_name := name; written := df;
         calls := autosize_and_formats df dc mc |}
      :: zip4 dfs' names' dcs' mcs'
  | _, _, _, _ => []
  end.

(** The loop of [to_excel_bytes]: what is written to the workbook before
    it is serialised. *)
Definition to_excel_bytes (dfs : list text_frame) : list written_sheet :=
  zip4 dfs sheet_names sheet_date_cols sheet_money_cols.

(** ** The standalone script [app.py]

    The script runs on the uploaded table from the normalisation of the
    column labels to the five frames that it writes to the workbook. *)

Module App.

(** How a run ends that writes no report: [st.stop()] after the error
    message, or an exception that nothing catches.  [RaiseOther] is the
    exception of a run in which several labels normalise to [importe] or
    to [tipo], so that [df["importe"] > 0] or [df["tipo"] == v] is a frame
    where the script indexes with a series; its class is left open. *)
Inductive halt : Type :=
  | StStop
  | RaiseAttributeError
  | RaiseTypeError
  | RaiseKeyError
  | RaiseOther.

(** The table as the reader hands it to line 38.  A label is a text, or
    the value of a header cell that holds a number or a date. *)
Record upload : Type := {
  u_labels : list cell;
  u_rows : list (list cell)
}.

(** The labels on which [c.strip()] exists. *)
Definition label_text (c : cell) : option string :=
  match c with
  | CStr s => Some s
  | _ => None
  end.

(** [c.strip().lower().replace(" ", "_")] *)
Definition normalize (c : string) : string :=
  Str.replace_char " " "_" (Str.lower (Str.strip c)).

(** [c in df.columns] *)
Definition has_column (c : string) (df : DataFrame) : bool :=
  existsb (String.eqb c) (columns df).

(** The places of the label [c] among the labels, counted from [k]. *)
Fixpoint positions_from (k : nat) (c : string) (labels : list string)
  : list nat :=
  match labels with
  | [] => []
  | l :: labels' =>
      ((if String.eqb l c then [k] else [])
       ++ positions_from (S k) c labels')%list
  end.

(** The columns that the label [c] selects in [df[[..., c, ...]]]: every
    column with that label, in the order of the table. *)
Definition columns_named (df : DataFrame) (c : string)
  : list (list cell) :=
  map (fun k => map (fun row => nth k row (CFloat Float.nan)) (data df))
    (positions_from 0 c (columns df)).

Definition comisiones_kw : list string :=
  ["comision"; "cargo"; "mantenimiento"; "tarifa"; "servicio bancario"].

Definition impuestos_kw : list string :=
  ["impuesto"; "iva"; "retencion"; "retenci" ++ String "243" "n"; "perc";
   "percepcion"; "ley 25.413"; "cheque"].

Definition es_comision (txt : string) : bool := Str.any_in comisiones_kw txt.
Definition es_impuesto (txt : string) : bool := Str.any_in impuestos_kw txt.

(** [x > 0] on one value of the amount column.  It is [None] where the
    comparison with an integer raises [TypeError]: on a text and on the
    values of a date column. *)
Definition gt_zero (x : cell) : option bool :=
  match x with
  | CInt z => Some (0 <? z)%Z
  | CFloat v => Some (Float.ltb Float.zero v)
  | _ => None
  end.

(** [x < 0] *)
Definition lt_zero (x : cell) : option bool :=
  match x with
  | CInt z => Some (z <? 0)%Z
  | CFloat v => Some (Float.ltb v Float.zero)
  | _ => None
  end.

(** [df.loc[mask, "tipo"] = v] on two series over the same index. *)
Fixpoint assign (mask : list bool) (v : string) (tipo : list string)
  : list string :=
  match mask, tipo with
  | m :: mask', t :: tipo' => (if m then v else t) :: assign mask' v tipo'
  | _, _ => []
  end.

(** One row of the table after line 55, with its index label and the
    columns that the script reads; [m_fecha] and [m_referencia] hold one
    cell for every column with that label. *)
Record movement : Type := {
  m_idx : nat;
  m_fecha : list cell;
  m_referencia : list cell;
  m_concepto : string;
  m_importe : cell;
  m_tipo : string
}.

Definition movements (n : nat) (fecha referencia : list (list cell))
    (concepto : list string) (importe : list cell) (tipo : list string)
  : list movement :=
  map (fun j =>
         let at_row (col : list cell) :=
           default (CFloat Float.nan) (col !! j) in
         {| m_idx := j;
            m_fecha := map at_row fecha;
            m_referencia := map at_row referencia;
            m_concepto := default "nan" (concepto !! j);
            m_importe := default (CFloat Float.nan) (importe !! j);
            m_tipo := default "nan" (tipo !! j) |})
    (seq 0 n).

(** [df[df["tipo"] == v]] *)
Definition with_tipo (v : string) (rows : list movement) : list movement :=
  List.filter (fun m => String.eqb (m_tipo m) v) rows.

(** A frame of the report: the column labels and, for every row, the index
    label and the cells in the order of the labels. *)
Record sheet : Type := {
  header : list string;
  body : list (nat * list cell)
}.

(** The selection [["fecha", "referencia", "concepto", "importe"]] followed
    by the empty tax id column. *)
Definition payment (m : movement) : nat * list cell :=
  (m_idx m,
   (m_fecha m ++ m_referencia m
    ++ [CStr (m_concepto m); m_importe m; CStr ""])%list).

Definition debit (m : movement) : nat * list cell :=
  (m_idx m,
   (m_fecha m ++ m_referencia m
    ++ [CStr (m_concepto m); m_importe m])%list).

(** The selection [["fecha", "referencia", "importe"]] followed by the
    fixed description. *)
Definition unidentified (m : movement) : nat * list cell :=
  (m_idx m,
   (m_fecha m ++ m_referencia m
    ++ [m_importe m; CStr "Sin Identificacion"])%list).

Record report : Type := {
  pagos_recibidos : sheet;
  pagos_realizados : sheet;
  comisiones : sheet;
  impuestos : sheet;
  sin_identificar : sheet
}.

(** The labels after [rename]: every column of the selection with the
    label [fecha] gets the new label [f], and so on. *)
Definition renamed (k l : nat) (f : string) (rest : list string)
  : list string :=
  (repeat f k ++ repeat "referencia" l ++ rest)%list.

Definition debit_header (k l : nat) : list string :=
  renamed k l "fecha_del_debito" ["detalle"; "importe_debitado"].

(** The five frames, for a table with [k] columns labelled [fecha] and
    [l] columns labelled [referencia]. *)
Definition build_report (k l : nat) (rows : list movement) : report :=
  {| pagos_recibidos :=
       {| header := renamed k l "fecha_de_recepcion"
                      ["nombre_del_pagador"; "importe_recibido";
                       "cuit_del_pagador"];
          body := map payment (with_tipo "Pago Recibido" rows) |};
     pagos_realizados :=
       {| header := renamed k l "fecha_de_pago"
                      ["nombre_del_proveedor"; "importe_pagado";
                       "cuit_del_proveedor"];
          body := map payment (with_tipo "Pago Realizado" rows) |};
     comisiones :=
       {| header := debit_header k l;
          body := map debit (with_tipo "Comision" rows) |};
     impuestos :=
       {| header := debit_header k l;
          body := map debit (with_tipo "Impuesto" rows) |};
     sin_identificar :=
       {| header := renamed k l "fecha_del_debito"
                      ["importe_debitado"; "detalle"];
          body := map unidentified (with_tipo "Sin Identificacion" rows) |}
  |}.

Section Script.

Context {lib : Library}.

(** [df["concepto"].astype(str).str.lower().str.strip()] *)
Definition concepto_text (x : cell) : string := Str.strip (Str.lower (str x)).

(** The column [tipo] after lines 51 to 53. *)
Definition tipo_by_keyword (n : nat) (concepto : list string) : list string :=
  let tipo := repeat "Sin Identificacion" n in
  let tipo := assign (map es_comision concepto) "Comision" tipo in
  assign (map es_impuesto concepto) "Impuesto" tipo.

(** Lines 38 to 86 of the script on a table whose labels are texts.
    Where several labels normalise to [concepto], [df["concepto"]] is a
    frame, which has no [.str]. *)
Definition run (uploaded : DataFrame) : halt + report :=
  let df := {| columns := map normalize (columns uploaded);
               data := data uploaded |} in
  if negb (has_column "concepto" df) || negb (has_column "importe" df)
  then inl StStop
  else if several df "concepto" then inl RaiseAttributeError
  else
    match getitem df "concepto", getitem df "importe" with
    | Ok cells, Ok importe =>
        let concepto := map concepto_text cells in
        let tipo := tipo_by_keyword (len df) concepto in
        if several df "importe" then inl RaiseOther
        else
          match mapM gt_zero importe with
          | None => inl RaiseTypeError
          | Some positive =>
              let tipo := assign positive "Pago Recibido" tipo in
              match mapM lt_zero importe with
              | None => inl RaiseTypeError
              | Some negative =>
                  let tipo := assign negative "Pago Realizado" tipo in
                  if several df "tipo" then inl RaiseOther
                  else if negb (has_column "fecha" df)
                          || negb (has_column "referencia" df)
                  then inl RaiseKeyError
                  else
                    let fecha := columns_named df "fecha" in
                    let referencia := columns_named df "referencia" in
                    inr (build_report (length fecha) (length referencia)
                           (movements (len df) fecha referencia concepto
                              importe tipo))
              end
          end
    | _, _ => inl RaiseKeyError
    end.

(** The script from line 38 on: [c.strip()] raises on a label that is not
    a text. *)
Definition script (u : upload) : halt + report :=
  match mapM label_text (u_labels u) with
  | Some labels => run {| columns := labels; data := u_rows u |}
  | None => inl RaiseAttributeError
  end.

End Script.

(** How many rows of a frame carry the index label [i]. *)
Definition count (i : nat) (s : sheet) : nat := occ fst i (body s).

(** In how many places of the five frames the input row [i] appears. *)
Definition appearances (i : nat) (r : report) : nat :=
  count i (pagos_recibidos r) + count i (pagos_realizados r)
  + count i (comisiones r) + count i (impuestos r)
  + count i (sin_identificar r).

(** The sum of the five row counts. *)
Definition rows_total (r : report) : nat :=
  length (body (pagos_recibidos r)) + length (body (pagos_realizados r))
  + length (body (comisiones r)) + length (body (impuestos r))
  + length (body (sin_identificar r)).

(** The table under the labels that the script gives its columns. *)
Definition normalized (df : DataFrame) : DataFrame :=
  {| columns := map normalize (columns df); data := data df |}.

(** Whether every value of the amount column can be compared to 0. *)
Definition numeric (x : cell) : bool :=
  match x with
  | CInt _ | CFloat _ => true
  | _ => false
  end.

(** [c in df.columns] and the amounts can be compared to 0. *)
Definition amounts_numeric (df : DataFrame) : bool :=
  match getitem (normalized df) "importe" with
  | Ok amounts => forallb numeric amounts
  | Raise _ => false
  end.

(** A commission with a negative amount, a tax with a zero amount that
    also names a charge, a commission without amount, a deposit and a
    movement without amount or keyword. *)
Definition df_movements : DataFrame :=
  {| columns := ["Fecha"; " Referencia"; "CONCEPTO "; "Importe"];
     data := [[CStr "02/01/2024"; CInt 1; CStr "Comision mantenimiento";
               CFloat f_minus_50];
              [CStr "03/01/2024"; CInt 2; CStr " IVA cargo "; CInt 0];
              [CStr "03/01/2024"; CInt 3; CStr "Cargo mensual";
               CFloat Float.nan];
              [CStr "04/01/2024"; CInt 4; CStr "Deposito"; CFloat f_150];
              [CStr "05/01/2024"; CInt 5; CStr "varios"; CInt 0]] |}.

(** The same table without the date column. *)
Definition df_no_fecha : DataFrame :=
  {| columns := ["Referencia"; "Concepto"; "Importe"];
     data := [[CInt 1; CStr "Deposito"; CInt 10]] |}.

(** Two labels that normalise to [concepto]. *)
Definition df_concepto_twice : DataFrame :=
  {| columns := ["Fecha"; "Referencia"; "Concepto"; "concepto"; "Importe"];
     data := [[CStr "02/01/2024"; CInt 1; CStr "Deposito"; CStr "varios";
               CInt 10]] |}.

(** A header row whose second cell holds the number 2024. *)
Definition upload_number_label : upload :=
  {| u_labels := [CStr "Concepto"; CInt 2024; CStr "Importe"];
     u_rows := [[CStr "Deposito"; CInt 1; CInt 10]] |}.

End App.

(** ** Notions used by the further properties *)

#[global] Instance Timestamp_eq_dec : EqDecision Timestamp.
Proof. solve_decision. Defined.

(** [a] may stand before [b] in a sheet sorted on [key]. *)
Definition in_order {A : Type} (key : A -> datetime * option string)
    (a b : A) : Prop :=
  key_le (key a) (key b) = true.

(** The row has the date and the reference [k]. *)
Definition same_key {A : Type} (key : A -> datetime * option string)
    (k : datetime * option string) (a : A) : bool :=
  bool_decide (key a = k).

(** The index labels of the rows grow strictly along the list. *)
Definition increasing {A : Type} (ix : A -> nat) (l : list A) : Prop :=
  StronglySorted lt (map ix l).

(** *** Slug form *)

Fixpoint all_chars (p : ascii -> bool) (s : string) : bool :=
  match s with
  | EmptyString => true
  | String c s' => p c && all_chars p s'
  end.

Definition first_is (p : ascii -> bool) (s : string) : bool :=
  match s with
  | EmptyString => false
  | String c _ => p c
  end.

Fixpoint last_is (p : ascii -> bool) (s : string) : bool :=
  match s with
  | EmptyString => false
  | String c EmptyString => p c
  | String _ s' => last_is p s'
  end.

(** No two neighbours both satisfy [p]. *)
Fixpoint no_run (p : ascii -> bool) (s : string) : bool :=
  match s with
  | EmptyString => true
  | String c s' => negb (p c && first_is p s') && no_run p s'
  end.

Definition underscore : ascii -> bool := Ascii.eqb "_".

(** An ASCII character, and one that is not an upper-case letter. *)
Definition ascii7 (c : ascii) : bool := (Str.code c <? 128)%N.
Definition lowered (c : ascii) : bool := ascii7 c && negb (Str.isupper_ascii c).

(** A lower-case letter, a digit or an underscore. *)
Definition slug_char (c : ascii) : bool :=
  Str.islower_ascii c || Str.isdigit c || underscore c.

(** Words of lower-case letters and digits, joined by single
    underscores. *)
Definition is_slug (s : string) : bool :=
  all_chars slug_char s && negb (first_is underscore s)
  && negb (last_is underscore s) && no_run underscore s.

(** A table with a credit column and neither a debit nor an amount
    column. *)
Definition df_credit_only : DataFrame :=
  {| columns := ["detalle"; "credito"; "tipo"];
     data := [[CStr "Venta"; CStr "100,00"; CStr "credito"]] |}.

(** Four payments with dates, two of them with the same date and
    reference, one without a date. *)
Definition df_dated : DataFrame :=
  {| columns := ["fecha"; "referencia"; "nombre"; "cuit"; "importe"];
     data := [[CStr "02/01/2024"; CStr "B"; CStr "Ana"; CStr "20-1"; CStr "10"];
              [CStr ""; CStr "A"; CStr "Luis"; CStr "20-2"; CStr "20"];
              [CStr "01/01/2024"; CStr "C"; CStr "Eva"; CStr "20-3"; CStr "30"];
              [CStr "02/01/2024"; CStr "B"; CStr "Juan"; CStr "20-4";
               CStr "40"]] |}.

(** A frame of two columns and one row, with the amount column named
    among the date columns too. *)
Definition tf_two_columns : text_frame :=
  {| labels := ["referencia"; "importe"];
     texts := [["A-1"]; ["10.0"]];
     height := 1 |}.

(** *** Keyword lists *)

(** [sep.join(l)] for a one-character [sep]. *)
Fixpoint join_with (sep : ascii) (l : list string) : string :=
  match l with
  | [] => EmptyString
  | [k] => k
  | k :: l' => k ++ String sep (join_with sep l')
  end.

Definition not_comma (c : ascii) : bool := negb (Ascii.eqb c ",").

(** A keyword as the page stores it: not empty, without comma, without
    white space at either end, and equal to its lower-case form. *)
Definition clean_keyword (k : string) : bool :=
  negb (String.eqb k "") && all_chars not_comma k
  && negb (first_is Str.isspace k) && negb (last_is Str.isspace k)
  && String.eqb (Str.lower k) k.

(** * Properties *)

(** ** Column resolution *)

Lemma slug_fold_lookup (cols : list string) (m : gmap string string)
    (k : string) :
  foldl (fun m c => <[_slug c := c]> m) m cols !! k =
  match last (headers_with_slug cols k) with
  | Some h => Some h
  | None => m !! k
  end.
Proof.
  revert m. induction cols as [|c cols IH]; intros m; simpl; [done|].
  rewrite IH. unfold headers_with_slug. simpl.
  destruct (String.eqb_spec (_slug c) k) as [Heq|Hne].
  - rewrite last_cons. subst k.
    destruct (last _); [done|]. by rewrite lookup_insert_eq.
  - destruct (last _); [done|]. by rewrite lookup_insert_ne.
Qed.

Lemma find_by_priority (cols cands : list string) :
  find (slug_to_orig cols) cands = last_header_by_priority cols cands.
Proof.
  induction cands as [|c cands IH]; simpl; [done|].
  unfold slug_to_orig at 1. rewrite slug_fold_lookup, lookup_empty.
  destruct (last _); [done|]. exact IH.
Qed.

Lemma last_header_in (cols cands : list string) (h : string) :
  last_header_by_priority cols cands = Some h ->
  In h cols /\ In (_slug h) cands.
Proof.
  induction cands as [|c cands IH]; simpl; [discriminate|].
  destruct (last (headers_with_slug cols c)) as [h'|] eqn:E.
  - intros [= ->]. apply last_Some_elem_of, list_elem_of_In in E.
    unfold headers_with_slug in E. apply filter_In in E as [Hin Hs].
    apply String.eqb_eq in Hs. auto.
  - intros H. destruct (IH H). auto.
Qed.

Lemma slug_empty : _slug "" = "".
Proof. reflexivity. Qed.

Lemma resolved_reference_truthy (cols : list string) (h : string) :
  last_header_by_priority cols (candidates Referencia) = Some h ->
  truthy (Some h) = true.
Proof.
  intros H. apply last_header_in in H as [_ H].
  unfold truthy. destruct (String.eqb_spec h "") as [->|]; [|done].
  rewrite slug_empty in H. simpl in H. intuition discriminate.
Qed.

(** C7 (as amended).  For every header list and every role, the column
    that [guess_columns] returns is found by trying the role's candidate
    slugs in priority order; for the first candidate that is the slug of
    some header it is the last header, in input order, with that slug.
    When no header has the slug of a candidate the role is unresolved,
    except for the description role, which falls back to the reference
    column and then to the first header. *)
Theorem guess_columns_last_header_by_priority (cols : list string) (r : role) :
  role_col (guess_columns cols) r =
  match last_header_by_priority cols (candidates r) with
  | Some h => Some h
  | None =>
      match r with
      | Detalle =>
          match last_header_by_priority cols (candidates Referencia) with
          | Some h => Some h
          | None => head cols
          end
      | _ => None
      end
  end.
Proof.
  destruct r; unfold guess_columns, role_col; cbn [fecha_col ref_col
    nombre_col cuit_col detalle_col importe_col credito_col debito_col
    tipo_col]; rewrite ?find_by_priority;
    try (destruct (last_header_by_priority cols _); reflexivity).
  destruct (last_header_by_priority cols (candidates Detalle)); [done|].
  destruct (last_header_by_priority cols (candidates Referencia)) eqn:E.
  - by rewrite (resolved_reference_truthy _ _ E).
  - reflexivity.
Qed.

(** C7, counterexample.  With the headers [Fecha], [fecha], [Monto] the
    date role resolves to the second header, not to the first header whose
    slug is a candidate. *)
Lemma guess_columns_not_first_header :
  role_col (guess_columns headers_same_slug) Fecha = Some "fecha"
  /\ first_header_by_priority headers_same_slug (candidates Fecha)
     = Some "Fecha"
  /\ role_col (guess_columns headers_same_slug) Fecha
     <> first_header_by_priority headers_same_slug (candidates Fecha).
Proof. vm_compute. repeat split; congruence. Qed.

Section Parsing.

Context {lib : Library}.

(** ** Series *)

Lemma apply_lookup {A B : Type} (f : A -> result B) (series : list A)
    (out : list B) :
  apply f series = Ok out ->
  length out = length series
  /\ forall i x, series !! i = Some x ->
       exists y, out !! i = Some y /\ f x = Ok y.
Proof.
  revert out. induction series as [|x series IH]; intros out; simpl.
  - intros [= <-]. split; [done|]. intros i x Hx. by destruct i.
  - destruct (f x) as [y|] eqn:Ef; simpl; [|discriminate].
    destruct (apply f series) as [ys|] eqn:Ea; simpl; [|discriminate].
    intros [= <-]. destruct (IH ys eq_refl) as [Hlen Hall].
    split; [simpl; congruence|].
    intros [|i] x' Hx'; simpl in *.
    + injection Hx' as <-. eauto.
    + eauto.
Qed.

Lemma apply_total {A B : Type} (f : A -> result B) (series : list A) :
  (forall x, exists y, f x = Ok y) ->
  exists out, apply f series = Ok out.
Proof.
  intros Hf. induction series as [|x series [ys IH]]; simpl; [eauto|].
  destruct (Hf x) as [y ->]. rewrite IH. simpl. eauto.
Qed.

(** ** Dates *)

Lemma try_formats_first (s : string) (pre post : list (option string))
    (fmt : option string) (t : datetime) :
  (forall f, In f pre -> is_raise (pd_to_datetime f s)) ->
  pd_to_datetime fmt s = Ok t ->
  try_formats s (pre ++ fmt :: post) = Ok t.
Proof.
  intros Hpre Hfmt. induction pre as [|f pre IH]; simpl.
  - by rewrite Hfmt.
  - assert (Hf := Hpre f (or_introl eq_refl)).
    destruct (pd_to_datetime f s); [done|]. simpl.
    apply IH. intros g Hg. apply Hpre. by right.
Qed.

Lemma try_formats_all_raise (s : string) (fmts : list (option string)) :
  (forall f, In f fmts -> is_raise (pd_to_datetime f s)) ->
  try_formats s fmts = Ok NaT.
Proof.
  induction fmts as [|f fmts IH]; intros H; simpl; [done|].
  assert (Hf := H f (or_introl eq_refl)).
  destruct (pd_to_datetime f s); [done|]. simpl.
  apply IH. intros g Hg. apply H. by right.
Qed.

Lemma try_formats_total (s : string) (fmts : list (option string)) :
  exists t, try_formats s fmts = Ok t.
Proof.
  induction fmts as [|f fmts [t IH]]; simpl; [eauto|].
  destruct (pd_to_datetime f s); simpl; eauto.
Qed.

Lemma parse_one_total (x : cell) : exists t, parse_one x = Ok t.
Proof.
  unfold parse_one. destruct (isna x); [eauto|].
  destruct x; eauto using try_formats_total.
Qed.

Lemma parse_one_text (s : string) :
  parse_one (CStr s) = try_formats (Str.strip s) date_formats.
Proof. reflexivity. Qed.

Lemma parse_one_other (x : cell) :
  isna x = false -> (forall ts, x <> CStamp ts) ->
  parse_one x = try_formats (Str.strip (str x)) date_formats.
Proof.
  intros Hna Hts. unfold parse_one. rewrite Hna.
  destruct x; try reflexivity. by destruct (Hts t).
Qed.

(** C5.  [_to_datetime] returns one date per cell of the series, and for
    every cell: a missing cell gives the null date; a time stamp is kept;
    for any other cell the stripped text of the cell is tried against the
    seven patterns in the fixed order (the call without a format first,
    then day/month/year with slashes, year-month-day, day-month-year with
    dashes, month/day/year, and the two patterns with a time of day), every
    call reading the day first; the first pattern that does not raise
    gives the date, and a text on which every pattern raises gives the
    null date.  When the library reads [31/01/2024] day first, the date of
    that text is 31 January 2024. *)
Theorem to_datetime_first_pattern_wins
    (Hdmy : pd_to_datetime (Some "%d/%m/%Y") "31/01/2024"
            = Ok (Some jan31_2024))
    (Hplain : forall t, pd_to_datetime None "31/01/2024" = Ok t ->
                        t = Some jan31_2024) :
  let patterns :=
    [None; Some "%d/%m/%Y"; Some "%Y-%m-%d"; Some "%d-%m-%Y";
     Some "%m/%d/%Y"; Some "%d/%m/%Y %H:%M:%S"; Some "%Y-%m-%d %H:%M:%S"] in
  (forall series, exists ds,
     _to_datetime series = Ok ds /\ length ds = length series
     /\ forall i x, series !! i = Some x ->
          exists t, ds !! i = Some t
          /\ (isna x = true -> t = NaT)
          /\ (forall ts, x = CStamp ts -> t = Some ts)
          /\ (isna x = false -> (forall ts, x <> CStamp ts) ->
              (forall pre fmt post t',
                 patterns = (pre ++ fmt :: post)%list ->
                 (forall f, In f pre ->
                    is_raise (pd_to_datetime f (Str.strip (str x)))) ->
                 pd_to_datetime fmt (Str.strip (str x)) = Ok t' ->
                 t = t')
              /\ ((forall f, In f patterns ->
                     is_raise (pd_to_datetime f (Str.strip (str x)))) ->
                  t = NaT)))
  /\ _to_datetime [CStr "31/01/2024"] = Ok [Some jan31_2024].
Proof.
  intros patterns. split.
  - intros series. unfold _to_datetime.
    destruct (apply_total parse_one series parse_one_total) as [ds Hds].
    exists ds. split; [done|].
    destruct (apply_lookup _ _ _ Hds) as [Hlen Hall]. split; [done|].
    intros i x Hx. destruct (Hall i x Hx) as (t & Ht & Hp).
    exists t. split; [done|]. split; [|split].
    + intros Hna. unfold parse_one in Hp. rewrite Hna in Hp. congruence.
    + intros ts ->. cbn in Hp. congruence.
    + intros Hna Hts. rewrite (parse_one_other x Hna Hts) in Hp. split.
      * intros pre fmt post t' Hfmts Hpre Hok.
        change patterns with date_formats in Hfmts. rewrite Hfmts in Hp.
        rewrite (try_formats_first _ pre post fmt t' Hpre Hok) in Hp.
        congruence.
      * intros Hall'. change patterns with date_formats in Hall'.
        rewrite (try_formats_all_raise _ _ Hall') in Hp. congruence.
  - unfold _to_datetime. cbn [apply]. rewrite parse_one_text.
    change (Str.strip "31/01/2024") with "31/01/2024". simpl.
    destruct (pd_to_datetime None "31/01/2024") as [t|] eqn:E; simpl.
    + by rewrite (Hplain t eq_refl).
    + by rewrite Hdmy.
Qed.

(** ** Numbers *)

Lemma parse_num_total (x : cell) : exists v, parse_num x = Ok v.
Proof.
  unfold parse_num. destruct (isna x); [eauto|].
  destruct x; eauto;
    destruct (Float.of_string _); simpl; eauto;
    destruct (pd_to_numeric _); simpl; eauto.
Qed.

Lemma fillna_zero_not_nan (vs : list float) :
  Forall (fun v => Float.isnan v = false) (fillna_zero vs).
Proof.
  unfold fillna_zero. apply List.Forall_forall. intros v Hv.
  apply in_map_iff in Hv as [w [<- _]]. by destruct w.
Qed.

Lemma to_number_total (series : list cell) :
  exists vs, _to_number series = Ok vs
             /\ length vs = length series
             /\ Forall (fun v => Float.isnan v = false) vs.
Proof.
  unfold _to_number.
  destruct (apply_total parse_num series parse_num_total) as [ws Hws].
  rewrite Hws. simpl. exists (fillna_zero ws). split; [done|]. split.
  - unfold fillna_zero. rewrite length_map. by apply apply_lookup in Hws as [-> _].
  - apply fillna_zero_not_nan.
Qed.

Lemma to_number_inv (series : list cell) (vs : list float) :
  _to_number series = Ok vs ->
  length vs = length series /\ Forall (fun v => Float.isnan v = false) vs.
Proof.
  intros H. destruct (to_number_total series) as [ws [Hws ?]].
  rewrite H in Hws. by injection Hws as ->.
Qed.

(** C4.  The three locale examples: [1.234,56] gives 1234.56 and
    [1,234,567] gives 1234567.0, while [1,234.56] is handed to [float] as
    [1.23456] and gives 1.23456, which is not 1234.56. *)
Theorem to_number_locale_examples :
  _to_number [CStr "1.234,56"; CStr "1,234.56"; CStr "1,234,567"]
  = Ok [f_1234_56; f_1_23456; f_1234567]
  /\ normalize_number_text "1,234.56" = "1.23456"
  /\ Float.of_string "1234.56" = Ok f_1234_56
  /\ Float.of_string "1.23456" = Ok f_1_23456
  /\ Float.of_string "1234567.0" = Ok f_1234567
  /\ Float.eqb f_1_23456 f_1234_56 = false.
Proof. vm_compute. repeat split; reflexivity. Qed.

(** C8.  Neither parser raises on any cell, so no cell aborts the run: the
    date parser returns a date or the null date, and the null date when
    every pattern raises; the number parser returns a float, and a whole
    series comes out with one float per cell, none of them NaN, a text
    that neither [float] nor the coercion reads becoming 0.0. *)
Theorem parse_failure_never_raises :
  (forall x, exists t, parse_one x = Ok t)
  /\ (forall series, exists ds,
        _to_datetime series = Ok ds /\ length ds = length series)
  /\ (forall s,
        (forall f, In f date_formats ->
                   is_raise (pd_to_datetime f (Str.strip s))) ->
        _to_datetime [CStr s] = Ok [NaT])
  /\ (forall x, exists v, parse_num x = Ok v)
  /\ (forall series, exists vs,
        _to_number series = Ok vs /\ length vs = length series
        /\ Forall (fun v => Float.isnan v = false) vs)
  /\ (forall s,
        is_raise (Float.of_string (normalize_number_text s)) ->
        is_raise (pd_to_numeric (normalize_number_text s))
        \/ pd_to_numeric (normalize_number_text s) = Ok Float.nan ->
        _to_number [CStr s] = Ok [Float.zero]).
Proof.
  split; [exact parse_one_total|]. split.
  { intros series. unfold _to_datetime.
    destruct (apply_total parse_one series parse_one_total) as [ds Hds].
    exists ds. split; [done|]. by apply apply_lookup in Hds as [-> _]. }
  split.
  { intros s H. unfold _to_datetime. cbn [apply]. rewrite parse_one_text.
    by rewrite try_formats_all_raise. }
  split; [exact parse_num_total|]. split; [exact to_number_total|].
  intros s Hf Hn. unfold _to_number, parse_num. simpl.
  destruct (Float.of_string _); [done|]. simpl.
  destruct Hn as [Hn|Hn].
  - destruct (pd_to_numeric _); [done|]. reflexivity.
  - rewrite Hn. reflexivity.
Qed.

End Parsing.

Section Direction.

Context {lib : Library}.

(** ** Direction and amount *)

Lemma bind_ok {A B : Type} (r : result A) (k : A -> result B) (b : B) :
  r ≫= k = Ok b -> exists a, r = Ok a /\ k a = Ok b.
Proof. destruct r as [a|]; [eauto|discriminate]. Qed.

Lemma getitem_length (df : DataFrame) (c : string) (cells : list cell) :
  getitem df c = Ok cells -> length cells = len df.
Proof.
  unfold getitem. destruct (position c (columns df)); [|discriminate].
  intros [= <-]. apply length_map.
Qed.

Lemma getcol_length (df : DataFrame) (c : option string)
    (cells : list cell) :
  getcol df c = Ok cells -> length cells = len df.
Proof. destruct c; simpl; [apply getitem_length|discriminate]. Qed.

Lemma series_sub_lookup (a b : list float) (i : nat) (v : float) :
  series_sub a b !! i = Some v ->
  exists x y, a !! i = Some x /\ b !! i = Some y /\ v = Float.sub x y.
Proof.
  revert b i. induction a as [|x a IH]; intros [|y b] [|i]; simpl;
    try discriminate.
  - intros [= <-]. eauto.
  - apply IH.
Qed.

Lemma series_sub_length (a b : list float) :
  length a = length b -> length (series_sub a b) = length a.
Proof.
  revert b. induction a as [|x a IH]; intros [|y b]; simpl; try done.
  intros [= H]. by rewrite IH.
Qed.

Lemma mask_zero_lookup (d s : list direction) (i : nat) (x : direction) :
  mask_zero d s !! i = Some x ->
  exists a b, d !! i = Some a /\ s !! i = Some b
              /\ x = if direction_eqb a dir_zero then b else a.
Proof.
  revert s i. induction d as [|a d IH]; intros [|b s] [|i]; simpl;
    try discriminate.
  - intros [= <-]. eauto.
  - apply IH.
Qed.

Lemma mask_zero_length (d s : list direction) :
  length d = length s -> length (mask_zero d s) = length d.
Proof.
  revert s. induction d as [|a d IH]; intros [|b s]; simpl; try done.
  intros [= H]. by rewrite IH.
Qed.

Lemma sign_based_zero (v : float) :
  sign_based v = dir_zero ->
  Float.eqb v Float.zero = true \/ v = Float.nan.
Proof. destruct v as [[]|[]| |[] m e]; simpl; auto; discriminate. Qed.

Lemma sign_based_cases (v : float) :
  (Float.ltb Float.zero v = true -> sign_based v = dir_in)
  /\ (Float.ltb Float.zero v = false -> Float.ltb v Float.zero = true ->
      sign_based v = dir_out)
  /\ (Float.ltb Float.zero v = false -> Float.ltb v Float.zero = false ->
      sign_based v = dir_zero).
Proof. unfold sign_based. repeat split; intros; by repeat case_match. Qed.

(** The amounts of a run, with what is known of them. *)
Lemma amount_inv (df : DataFrame) (ci cc cd : option string)
    (importe : list float) :
  (if truthy cc && truthy cd then
     credito ← (getcol df cc ≫= _to_number);
     debito ← (getcol df cd ≫= _to_number);
     Ok (series_sub credito debito)
   else
     match ci with
     | Some c => getitem df c ≫= _to_number
     | None => Ok (repeat Float.zero (len df))
     end) = Ok importe ->
  length importe = len df
  /\ (truthy cc && truthy cd = false ->
      Forall (fun v => Float.isnan v = false) importe)
  /\ (ci = None -> truthy cc && truthy cd = false ->
      importe = repeat Float.zero (len df)).
Proof.
  destruct (truthy cc && truthy cd) eqn:Eb.
  - intros H. apply bind_ok in H as (v1 & H1 & H).
    apply bind_ok in H as (v2 & H2 & H). injection H as <-.
    apply bind_ok in H1 as (c1 & E1 & N1), H2 as (c2 & E2 & N2).
    apply to_number_inv in N1 as [L1 _], N2 as [L2 _].
    apply getcol_length in E1, E2.
    split; [|split; intros; discriminate].
    rewrite series_sub_length; congruence.
  - destruct ci as [c|].
    + intros H. apply bind_ok in H as (cells & E & H).
      apply to_number_inv in H as [L N].
      apply getitem_length in E. split; [congruence|]. split; [done|].
      intros; discriminate.
    + intros [= <-]. split; [apply repeat_length|]. split; [|done].
      intros _. apply List.Forall_forall. intros v Hv.
      by apply repeat_spec in Hv as ->.
Qed.

Lemma apply_to_column_ok {B : Type} (f : list cell -> result (list B))
    (df : DataFrame) (c : option string) (out : list B) :
  apply_to_column f df c = Ok out ->
  (several_col df c = false /\ getcol df c ≫= f = Ok out)
  \/ (several_col df c = true /\ len df = 0 /\ out = []).
Proof.
  unfold apply_to_column. destruct (several_col df c); [|by left].
  destruct (Nat.eqb_spec (len df) 0); [|done].
  intros [= <-]. by right.
Qed.

(** A run of [detect_direction_and_amount] that returns has read every
    column as a series. *)
Lemma detect_split (df : DataFrame) (ci cc cd ct : option string)
    (importe : list float) (dirs : list direction) :
  detect_direction_and_amount df ci cc cd ct = Ok (importe, dirs) ->
  (if truthy cc && truthy cd then
     credito ← (getcol df cc ≫= _to_number);
     debito ← (getcol df cd ≫= _to_number);
     Ok (series_sub credito debito)
   else
     match ci with
     | Some c => getitem df c ≫= _to_number
     | None => Ok (repeat Float.zero (len df))
     end) = Ok importe
  /\ exists stage,
       (if truthy ct then
          tipos ← getcol df ct;
          Ok (map (fun x => type_direction (Str.lower (str x))) tipos)
        else Ok (repeat dir_zero (len df))) = Ok stage
       /\ dirs = mask_zero stage (map sign_based importe).
Proof.
  unfold detect_direction_and_amount, amount_is_frame. intros H.
  apply bind_ok in H as (imp & E & H).
  apply bind_ok in H as (stage & E0 & H).
  assert (Hstage :
    (if truthy ct then
       tipos ← getcol df ct;
       Ok (map (fun x => type_direction (Str.lower (str x))) tipos)
     else Ok (repeat dir_zero (len df))) = Ok stage).
  { destruct (truthy ct); [|done].
    destruct (several_col df ct); [done|]. exact E0. }
  destruct (truthy cc && truthy cd) eqn:Eb.
  - apply bind_ok in E as (credito & E1 & E).
    apply bind_ok in E as (debito & E2 & E). injection E as <-.
    apply apply_to_column_ok in E1 as [[S1 E1]|(S1 & L1 & ->)];
      apply apply_to_column_ok in E2 as [[S2 E2]|(S2 & L2 & ->)];
      rewrite S1, S2 in H;
      try (rewrite L1 in H; cbn in H; discriminate);
      try (rewrite L2 in H; cbn in H; discriminate).
    rewrite andb_false_r in H. injection H as <- <-.
    rewrite E1, E2. split; [done|]. by exists stage.
  - destruct ci as [c|].
    + apply apply_to_column_ok in E as [[S1 E]|(S1 & L1 & ->)].
      * rewrite S1, andb_false_r in H. injection H as <- <-.
        split; [exact E|]. by exists stage.
      * rewrite S1, L1 in H. cbn in H. discriminate.
    + cbn [several_col] in H. rewrite andb_false_r in H.
      injection H as <- <-. split; [exact E|]. by exists stage.
Qed.

(** What [detect_direction_and_amount] returns, stage by stage. *)
Lemma detect_inv (df : DataFrame) (ci cc cd ct : option string)
    (importe : list float) (dirs : list direction) :
  detect_direction_and_amount df ci cc cd ct = Ok (importe, dirs) ->
  exists stage,
    dirs = mask_zero stage (map sign_based importe)
    /\ length importe = len df
    /\ length stage = len df
    /\ (truthy cc && truthy cd = false ->
        Forall (fun v => Float.isnan v = false) importe)
    /\ (ci = None -> truthy cc && truthy cd = false ->
        importe = repeat Float.zero (len df))
    /\ (truthy ct = false -> stage = repeat dir_zero (len df))
    /\ (truthy ct = true ->
        exists tipos, getcol df ct = Ok tipos
          /\ stage = map (fun x => type_direction (Str.lower (str x))) tipos).
Proof.
  intros H. apply detect_split in H as (E & stage & E0 & ->).
  apply amount_inv in E as (Hlen & Hnan & Hzero).
  destruct (truthy ct) eqn:Et.
  - apply bind_ok in E0 as (tipos & Eg & E0).
    injection E0 as <-. eexists. repeat split; try done.
    + rewrite length_map. by apply getcol_length in Eg.
    + intros _. eauto.
  - injection E0 as <-. eexists. repeat split; try done.
    apply repeat_length.
Qed.

Lemma detect_lengths (df : DataFrame) (ci cc cd ct : option string)
    (importe : list float) (dirs : list direction) :
  detect_direction_and_amount df ci cc cd ct = Ok (importe, dirs) ->
  length importe = len df /\ length dirs = len df.
Proof.
  intros H. apply detect_inv in H as (stage & -> & Hi & Hs & _).
  split; [done|]. rewrite mask_zero_length; [done|].
  rewrite length_map. congruence.
Qed.

(** The final direction of a row from its stage-one direction. *)
Lemma detect_row (df : DataFrame) (ci cc cd ct : option string)
    (importe : list float) (dirs : list direction) (i : nat)
    (v : float) (d : direction) :
  detect_direction_and_amount df ci cc cd ct = Ok (importe, dirs) ->
  importe !! i = Some v -> dirs !! i = Some d ->
  exists a,
    d = (if direction_eqb a dir_zero then sign_based v else a)
    /\ (truthy ct = false -> a = dir_zero)
    /\ (forall tipos x, truthy ct = true -> getcol df ct = Ok tipos ->
          tipos !! i = Some x -> a = type_direction (Str.lower (str x))).
Proof.
  intros H Hv Hd. apply detect_inv in H
    as (stage & -> & _ & _ & _ & _ & Hno & Hyes).
  apply mask_zero_lookup in Hd as (a & b & Ha & Hb & ->).
  rewrite list_lookup_fmap, Hv in Hb. injection Hb as <-.
  exists a. split; [done|]. split.
  - intros Et. rewrite (Hno Et) in Ha.
    by apply list_elem_of_lookup_2, list_elem_of_In, repeat_spec in Ha as ->.
  - intros tipos x Et Hg Hx. destruct (Hyes Et) as (tipos' & Hg' & ->).
    rewrite Hg in Hg'. injection Hg' as <-.
    rewrite list_lookup_fmap, Hx in Ha. by injection Ha as <-.
Qed.

(** C6.  In the result of [detect_direction_and_amount] a row whose type
    text holds an "in" keyword has direction "in", and one whose type text
    holds an "out" keyword and no "in" keyword has direction "out",
    whatever the amount is; where the type text holds neither, and in every
    row when no type column resolved, the direction is taken from the sign
    of the amount: positive gives "in", negative "out", anything else
    "zero". *)
Theorem explicit_type_wins_over_sign (df : DataFrame)
    (ci cc cd ct : option string) (importe : list float)
    (dirs : list direction) :
  detect_direction_and_amount df ci cc cd ct = Ok (importe, dirs) ->
  length importe = len df /\ length dirs = len df
  /\ (forall tipos i x v d,
        truthy ct = true -> getcol df ct = Ok tipos ->
        tipos !! i = Some x -> importe !! i = Some v ->
        dirs !! i = Some d ->
        let t := Str.lower (str x) in
        (Str.any_in in_keywords t = true -> d = dir_in)
        /\ (Str.any_in in_keywords t = false ->
            Str.any_in out_keywords t = true -> d = dir_out)
        /\ (Str.any_in in_keywords t = false ->
            Str.any_in out_keywords t = false -> d = sign_based v))
  /\ (truthy ct = false ->
      forall i v d, importe !! i = Some v -> dirs !! i = Some d ->
                    d = sign_based v)
  /\ (forall v,
        (Float.ltb Float.zero v = true -> sign_based v = dir_in)
        /\ (Float.ltb Float.zero v = false -> Float.ltb v Float.zero = true ->
            sign_based v = dir_out)
        /\ (Float.ltb Float.zero v = false ->
            Float.ltb v Float.zero = false -> sign_based v = dir_zero)).
Proof.
  intros H. destruct (detect_lengths _ _ _ _ _ _ _ H) as [Li Ld].
  split; [done|]. split; [done|]. split; [|split].
  - intros tipos i x v d Et Hg Hx Hv Hd t.
    destruct (detect_row _ _ _ _ _ _ _ i v d H Hv Hd) as (a & -> & _ & Ha).
    rewrite (Ha tipos x Et Hg Hx). fold t. unfold type_direction.
    repeat split; intros; repeat match goal with
      | E : Str.any_in _ t = _ |- _ => rewrite E; clear E end; done.
  - intros Et i v d Hv Hd.
    destruct (detect_row _ _ _ _ _ _ _ i v d H Hv Hd) as (a & -> & Ha & _).
    by rewrite (Ha Et).
  - exact sign_based_cases.
Qed.

(** *** When a difference is not a number *)

Lemma shr_1_nonneg (mrs : shr_record) :
  (0 <= shr_m mrs)%Z -> (0 <= shr_m (shr_1 mrs))%Z.
Proof. destruct mrs as [[|[p|p|]|p] r s]; simpl; lia. Qed.

Lemma iter_shr_1_nonneg (p : positive) (mrs : shr_record) :
  (0 <= shr_m mrs)%Z -> (0 <= shr_m (SpecFloat.iter_pos shr_1 p mrs))%Z.
Proof.
  revert mrs. induction p as [p IH|p IH|]; intros mrs H; simpl.
  - by apply IH, IH, shr_1_nonneg.
  - by apply IH, IH.
  - by apply shr_1_nonneg.
Qed.

Lemma shr_fexp_nonneg (m e : Z) (l : location) :
  (0 <= m)%Z ->
  (0 <= shr_m (fst (shr_fexp Float.prec Float.emax m e l)))%Z.
Proof.
  intros H. unfold shr_fexp, shr.
  assert (H0 : (0 <= shr_m (shr_record_of_loc m l))%Z)
    by (by destruct l as [|[]]).
  destruct (_ - e)%Z; simpl; [done| |done].
  by apply iter_shr_1_nonneg.
Qed.

Lemma round_nearest_even_nonneg (m : Z) (l : location) :
  (0 <= m)%Z -> (0 <= round_nearest_even m l)%Z.
Proof.
  intros H. destruct l as [|[]]; simpl; try lia.
  destruct (Z.even m); lia.
Qed.

Lemma binary_round_aux_not_nan (sx : bool) (mx ex : Z) (lx : location) :
  (0 <= mx)%Z ->
  binary_round_aux Float.prec Float.emax sx mx ex lx <> S754_nan.
Proof.
  intros H. unfold binary_round_aux.
  pose proof (shr_fexp_nonneg mx ex lx H) as H1.
  destruct (shr_fexp Float.prec Float.emax mx ex lx) as [mrs' e'].
  simpl in H1.
  pose proof (shr_fexp_nonneg _ e' loc_Exact
                (round_nearest_even_nonneg _ (loc_of_shr_record mrs') H1))
    as H2.
  destruct (shr_fexp Float.prec Float.emax _ e' loc_Exact) as [mrs'' e''].
  simpl in H2. destruct (shr_m mrs'') as [|m|m]; [done| |lia].
  by destruct (e'' <=? _)%Z.
Qed.

Lemma binary_normalize_not_nan (m e : Z) (szero : bool) :
  binary_normalize Float.prec Float.emax m e szero <> S754_nan.
Proof.
  unfold binary_normalize, binary_round.
  destruct m as [|m|m]; [done| |];
    destruct (shl_align _ _ _) as [mz ez];
    by apply binary_round_aux_not_nan.
Qed.

(** A difference of two floats is not a number only when one of them is
    not a number or both are infinite with the same sign. *)
Lemma sub_nan (x y : float) :
  Float.sub x y = Float.nan ->
  x = Float.nan \/ y = Float.nan
  \/ exists sg, x = S754_infinity sg /\ y = S754_infinity sg.
Proof.
  unfold Float.sub, Float.nan.
  destruct x as [sx|sx| |sx mx ex], y as [sy|sy| |sy my ey]; simpl;
    auto; try discriminate.
  - by destruct sx, sy.
  - destruct sx, sy; try discriminate; eauto.
  - intros H. by apply binary_normalize_not_nan in H.
Qed.

Lemma sub_infinite (sg : bool) :
  Float.sub (S754_infinity sg) (S754_infinity sg) = Float.nan.
Proof. by destruct sg. Qed.

(** The credit and the debit series of a run that takes the amount as
    their difference. *)
Lemma detect_credit_debit (df : DataFrame) (ci cc cd ct : option string)
    (importe : list float) (dirs : list direction) :
  detect_direction_and_amount df ci cc cd ct = Ok (importe, dirs) ->
  truthy cc && truthy cd = true ->
  exists credito debito,
    apply_to_column _to_number df cc = Ok credito
    /\ apply_to_column _to_number df cd = Ok debito
    /\ importe = series_sub credito debito
    /\ Forall (fun v => Float.isnan v = false) credito
    /\ Forall (fun v => Float.isnan v = false) debito.
Proof.
  unfold detect_direction_and_amount. intros H Hb. rewrite Hb in H.
  apply bind_ok in H as (imp & E & H).
  apply bind_ok in H as (stage & _ & H).
  destruct (amount_is_frame df ci cc cd); [discriminate|].
  injection H as <- _.
  apply bind_ok in E as (credito & E1 & E).
  apply bind_ok in E as (debito & E2 & E). injection E as <-.
  exists credito, debito. do 3 (split; [done|]).
  split.
  - apply apply_to_column_ok in E1 as [[_ E1]|(_ & _ & ->)]; [|done].
    apply bind_ok in E1 as (cells & _ & E1).
    by apply to_number_inv in E1 as [_ ?].
  - apply apply_to_column_ok in E2 as [[_ E2]|(_ & _ & ->)]; [|done].
    apply bind_ok in E2 as (cells & _ & E2).
    by apply to_number_inv in E2 as [_ ?].
Qed.

(** C10 (as amended).  Every direction is one of "in", "out" and "zero".
    A row whose final direction is "zero" has an amount equal to 0.0 or an
    amount that is not a number.  The amount of a row is not a number only
    when it is the difference of a credit and a debit column and the credit
    and the debit of the row are both infinite with the same sign; in every
    other row with the final direction "zero" the amount equals 0.0.  And
    where credit and debit are infinite with the same sign, the amount is
    not a number. *)
Theorem zero_direction_amount_zero_or_nan (df : DataFrame)
    (ci cc cd ct : option string) (importe : list float)
    (dirs : list direction) :
  detect_direction_and_amount df ci cc cd ct = Ok (importe, dirs) ->
  length importe = len df /\ length dirs = len df
  /\ forall i v d,
       importe !! i = Some v -> dirs !! i = Some d ->
       (d = dir_in \/ d = dir_out \/ d = dir_zero)
       /\ (d = dir_zero -> Float.eqb v Float.zero = true \/ v = Float.nan)
       /\ (v = Float.nan ->
           truthy cc && truthy cd = true
           /\ exists credito debito sg,
                apply_to_column _to_number df cc = Ok credito
                /\ apply_to_column _to_number df cd = Ok debito
                /\ credito !! i = Some (S754_infinity sg)
                /\ debito !! i = Some (S754_infinity sg))
       /\ (forall credito debito sg,
             truthy cc && truthy cd = true ->
             apply_to_column _to_number df cc = Ok credito ->
             apply_to_column _to_number df cd = Ok debito ->
             credito !! i = Some (S754_infinity sg) ->
             debito !! i = Some (S754_infinity sg) ->
             v = Float.nan).
Proof.
  intros H. destruct (detect_lengths _ _ _ _ _ _ _ H) as [Li Ld].
  split; [done|]. split; [done|]. intros i v d Hv Hd.
  split; [destruct d; auto|].
  destruct (detect_row _ _ _ _ _ _ _ i v d H Hv Hd) as (a & Hd' & _).
  split; [|split].
  - intros ->. apply sign_based_zero.
    destruct a; simpl in Hd'; congruence.
  - intros ->. destruct (truthy cc && truthy cd) eqn:Hb.
    + split; [done|].
      destruct (detect_credit_debit _ _ _ _ _ _ _ H Hb)
        as (credito & debito & E1 & E2 & -> & N1 & N2).
      apply series_sub_lookup in Hv as (x & y & Hx & Hy & Hxy).
      symmetry in Hxy. apply sub_nan in Hxy as [->|[->|(sg & -> & ->)]].
      * rewrite List.Forall_forall in N1.
        apply list_elem_of_lookup_2, list_elem_of_In, N1 in Hx.
        discriminate.
      * rewrite List.Forall_forall in N2.
        apply list_elem_of_lookup_2, list_elem_of_In, N2 in Hy.
        discriminate.
      * by exists credito, debito, sg.
    + apply detect_inv in H as (_ & _ & _ & _ & Hnan & _).
      specialize (Hnan Hb). rewrite List.Forall_forall in Hnan.
      apply list_elem_of_lookup_2, list_elem_of_In, Hnan in Hv.
      discriminate.
  - intros credito debito sg Hb E1 E2 Hx Hy.
    destruct (detect_credit_debit _ _ _ _ _ _ _ H Hb)
      as (credito' & debito' & E1' & E2' & -> & _).
    rewrite E1 in E1'. injection E1' as <-.
    rewrite E2 in E2'. injection E2' as <-.
    apply series_sub_lookup in Hv as (x & y & Hx' & Hy' & ->).
    rewrite Hx in Hx'. injection Hx' as <-.
    rewrite Hy in Hy'. injection Hy' as <-.
    apply sub_infinite.
Qed.

End Direction.

(** ** Counting rows by index label *)

Section Counting.

Context {A : Type} (ix : A -> nat).

Lemma occ_cons (i : nat) (x : A) (l : list A) :
  occ ix i (x :: l) = b2n (ix x =? i)%nat + occ ix i l.
Proof. unfold occ. simpl. by destruct (ix x =? i)%nat. Qed.

Lemma occ_insert_by (key : A -> datetime * option string) (i : nat) (x : A)
    (l : list A) :
  occ ix i (insert_by key x l) = occ ix i (x :: l).
Proof.
  induction l as [|y l IH]; simpl; [done|].
  destruct (key_le (key x) (key y)); [done|].
  rewrite !occ_cons in *. lia.
Qed.

Lemma occ_sort_values (key : A -> datetime * option string) (i : nat) (l : list A) :
  occ ix i (sort_values key l) = occ ix i l.
Proof.
  unfold sort_values. induction l as [|x l IH]; [done|].
  cbn [foldr]. by rewrite occ_insert_by, !occ_cons, IH.
Qed.

Lemma occ_filter_filter (i : nat) (P Q : A -> bool) (l : list A) :
  occ ix i (List.filter Q (List.filter P l))
  = occ ix i (List.filter (fun r => P r && Q r) l).
Proof.
  induction l as [|x l IH]; simpl; [done|].
  destruct (P x); simpl; [|done].
  destruct (Q x); [|done]. by rewrite !occ_cons, IH.
Qed.

Lemma occ_nil_all (l : list A) : (forall i, occ ix i l = 0) -> l = [].
Proof.
  destruct l as [|x l]; [done|]. intros H. specialize (H (ix x)).
  rewrite occ_cons, Nat.eqb_refl in H. simpl in H. lia.
Qed.

End Counting.

Lemma length_insert_by {A : Type} (key : A -> datetime * option string) (x : A)
    (l : list A) :
  length (insert_by key x l) = S (length l).
Proof.
  induction l as [|y l IH]; simpl; [done|].
  destruct (key_le (key x) (key y)); simpl; by rewrite ?IH.
Qed.

Lemma length_sort_values {A : Type} (key : A -> datetime * option string)
    (l : list A) :
  length (sort_values key l) = length l.
Proof.
  unfold sort_values. induction l as [|x l IH]; [done|].
  cbn [foldr]. by rewrite length_insert_by, IH.
Qed.

Lemma in_insert_by {A : Type} (key : A -> datetime * option string) (x y : A)
    (l : list A) :
  In y (insert_by key x l) <-> y = x \/ In y l.
Proof.
  induction l as [|z l IH]; simpl; [intuition|].
  destruct (key_le (key x) (key z)); simpl; intuition.
Qed.

Lemma in_sort_values {A : Type} (key : A -> datetime * option string) (y : A)
    (l : list A) :
  In y (sort_values key l) <-> In y l.
Proof.
  unfold sort_values. induction l as [|x l IH]; [done|].
  cbn [foldr]. rewrite in_insert_by, IH. simpl. intuition.
Qed.

Lemma occ_map {A B : Type} (ixa : A -> nat) (ixb : B -> nat) (f : A -> B)
    (i : nat) (l : list A) :
  (forall a, ixb (f a) = ixa a) ->
  occ ixb i (map f l) = occ ixa i l.
Proof.
  intros H. induction l as [|x l IH]; simpl; [done|].
  by rewrite !occ_cons, H, IH.
Qed.

Lemma filter_map_comm {A B : Type} (f : A -> B) (Q : B -> bool)
    (l : list A) :
  List.filter Q (map f l) = map f (List.filter (fun a => Q (f a)) l).
Proof.
  induction l as [|x l IH]; simpl; [done|].
  destruct (Q (f x)); simpl; by rewrite IH.
Qed.

(** Rows built from the labels [a, a + 1, ...]: the label [i] is kept once
    when it is in range and passes the filter. *)
Lemma occ_filter_seq {A : Type} (ix : A -> nat) (g : nat -> A)
    (P : A -> bool) (i a n : nat) :
  (forall j, ix (g j) = j) ->
  occ ix i (List.filter P (map g (seq a n)))
  = b2n ((a <=? i)%nat && (i <? a + n)%nat && P (g i)).
Proof.
  intros Hg. revert a. induction n as [|n IH]; intros a.
  - simpl. destruct (Nat.leb_spec a i), (Nat.ltb_spec i (a + 0)); simpl;
      try done; lia.
  - cbn [seq map List.filter].
    assert (Hrest := IH (S a)).
    assert (Hhead : occ ix i (List.filter P (map g (seq (S a) n)))
                    + b2n ((a =? i)%nat && P (g i))
                    = b2n ((a <=? i)%nat && (i <? a + S n)%nat && P (g i))).
    { rewrite Hrest.
      destruct (Nat.leb_spec (S a) i), (Nat.ltb_spec i (S a + n)),
        (Nat.eqb_spec a i), (Nat.leb_spec a i), (Nat.ltb_spec i (a + S n));
        simpl; try lia; destruct (P (g i)); simpl; lia. }
    rewrite <- Hhead.
    destruct (P (g a)) eqn:Ea.
    + rewrite occ_cons, Hg.
      destruct (Nat.eqb_spec a i) as [->|Hne]; simpl; [rewrite Ea|]; simpl;
        lia.
    + destruct (Nat.eqb_spec a i) as [->|Hne]; simpl; [rewrite Ea|]; simpl;
        lia.
Qed.

(** *** Sums over the labels *)

Lemma sum_upto_add (f g : nat -> nat) (n : nat) :
  sum_upto (fun i => f i + g i) n = sum_upto f n + sum_upto g n.
Proof. induction n as [|n IH]; simpl; lia. Qed.

Lemma sum_upto_ext (f g : nat -> nat) (n : nat) :
  (forall i, i < n -> f i = g i) -> sum_upto f n = sum_upto g n.
Proof.
  induction n as [|n IH]; intros H; simpl; [done|].
  rewrite IH, H; auto.
Qed.

Lemma sum_upto_indicator (k n : nat) :
  sum_upto (fun i => b2n (k =? i)%nat) n = b2n (k <? n)%nat.
Proof.
  induction n as [|n IH]; simpl; [done|]. rewrite IH.
  destruct (Nat.eqb_spec k n), (Nat.ltb_spec k n), (Nat.ltb_spec k (S n));
    simpl; lia.
Qed.

Lemma length_sum_occ {A : Type} (ix : A -> nat) (l : list A) (n : nat) :
  (forall i, n <= i -> occ ix i l = 0) ->
  length l = sum_upto (fun i => occ ix i l) n.
Proof.
  induction l as [|x l IH]; intros H.
  - simpl. clear. induction n as [|n IH]; simpl; [done|]. by rewrite <- IH.
  - assert (Hx : ix x < n).
    { destruct (Nat.lt_ge_cases (ix x) n) as [|Hge]; [done|].
      specialize (H _ Hge). rewrite occ_cons, Nat.eqb_refl in H.
      simpl in H. lia. }
    rewrite (sum_upto_ext _ (fun i => b2n (ix x =? i)%nat + occ ix i l))
      by (intros; apply occ_cons).
    rewrite sum_upto_add, sum_upto_indicator, <- IH.
    + destruct (Nat.ltb_spec (ix x) n); simpl; lia.
    + intros i Hi. specialize (H i Hi). rewrite occ_cons in H. lia.
Qed.

(** ** The five sheets *)

Section Sheets.

Context {lib : Library}.

Lemma filter_map_nil {A B : Type} (P : B -> bool) (f : A -> B)
    (l : list A) :
  List.filter P (map f l) = [] <-> forallb (fun j => negb (P (f j))) l = true.
Proof.
  induction l as [|x l IH]; simpl; [done|].
  destruct (P (f x)); simpl; [split; discriminate|exact IH].
Qed.

Lemma occ_filter_cons {A : Type} (ix : A -> nat) (Q : A -> bool) (i : nat)
    (x : A) (l : list A) :
  occ ix i (List.filter Q (x :: l))
  = b2n (Q x && (ix x =? i)%nat) + occ ix i (List.filter Q l).
Proof.
  simpl. destruct (Q x); simpl; [|done]. apply occ_cons.
Qed.

(** Rows built by [imap]: the label [i] is kept once when the list has an
    element there and the row passes the filter. *)
Lemma occ_filter_imap_from {A B : Type} (ix : B -> nat) (h : nat -> A -> B)
    (Q : B -> bool) (i a : nat) (l : list A) :
  (forall j x, ix (h j x) = a + j) ->
  occ ix i (List.filter Q (imap h l))
  = b2n ((a <=? i)%nat
         && match l !! (i - a) with
            | Some x => Q (h (i - a) x)
            | None => false
            end).
Proof.
  revert a h. induction l as [|x l IH]; intros a h Hh.
  - cbn. by rewrite andb_false_r.
  - rewrite imap_cons, occ_filter_cons, Hh.
    rewrite (IH (S a) (h ∘ S)) by (intros j y; cbn; rewrite Hh; lia).
    replace (a + 0) with a by lia.
    destruct (Nat.eqb_spec a i) as [->|Hne].
    + replace (i - i) with 0 by lia. rewrite Nat.leb_refl.
      destruct (Nat.leb_spec (S i) i); [lia|].
      cbn. destruct (Q (h 0 x)); simpl; lia.
    + rewrite andb_false_r. cbn [b2n Nat.add].
      destruct (Nat.leb_spec (S a) i), (Nat.leb_spec a i); try lia;
        [|done].
      replace (i - a) with (S (i - S a)) by lia. done.
Qed.

Lemma occ_filter_imap {A B : Type} (ix : B -> nat) (h : nat -> A -> B)
    (Q : B -> bool) (i : nat) (l : list A) :
  (forall j x, ix (h j x) = j) ->
  occ ix i (List.filter Q (imap h l))
  = b2n match l !! i with
        | Some x => Q (h i x)
        | None => false
        end.
Proof.
  intros Hh. rewrite (occ_filter_imap_from ix h Q i 0) by done.
  by replace (i - 0) with i by lia.
Qed.

Section Split.

Variables (n : nat) (fo : list datetime) (ro no co do : list string)
  (ao : list float) (is_com is_imp : list bool) (dirs : list direction).

Let g := frame_row fo ro no co do ao.
Let s := split_sheets (frame n fo ro no co do ao) is_com is_imp dirs.
Let com (i : nat) := default false (is_com !! i).
Let imp (i : nat) := default false (is_imp !! i).
Let rest (i : nat) :=
  default false (series_not (series_or is_com is_imp) !! i).
Let kept :=
  select (series_not (series_or is_com is_imp)) (frame n fo ro no co do ao).

(** No row of [base] is left for [remaining]. *)
Let none_left := forallb (fun i => negb (rest i)) (seq 0 n).

(** The row of [remaining] for a row of [base], and the row that the
    assignment of ["dir"] adds. *)
Let kept_row (i : nat) : remaining_row :=
  {| label := i; row := Some (g i); dir := dirs !! i |}.
Let added_row (i : nat) (d : direction) : remaining_row :=
  {| label := i; row := None; dir := Some d |}.

Lemma occ_fees (i : nat) :
  occ d_idx i (sh3 s) = b2n ((i <? n)%nat && com i).
Proof.
  unfold s, split_sheets; cbn [sh3].
  rewrite occ_sort_values, (occ_map idx) by done.
  unfold select, frame. by rewrite (occ_filter_seq idx g).
Qed.

Lemma occ_taxes (i : nat) :
  occ d_idx i (sh4 s) = b2n ((i <? n)%nat && imp i).
Proof.
  unfold s, split_sheets; cbn [sh4].
  rewrite occ_sort_values, (occ_map idx) by done.
  unfold select, frame. by rewrite (occ_filter_seq idx g).
Qed.

Lemma kept_nil : kept = [] <-> none_left = true.
Proof. unfold kept, select, frame. by rewrite filter_map_nil. Qed.

Lemma assign_dir_kept :
  assign_dir dirs kept
  = if none_left then imap added_row dirs else map (fun r => kept_row (idx r)) kept.
Proof.
  destruct none_left eqn:E.
  - apply kept_nil in E. by rewrite E.
  - destruct kept as [|r l] eqn:Ek.
    + apply kept_nil in Ek. congruence.
    + unfold assign_dir, kept_row.
      apply map_ext_in. intros b Hb.
      assert (Hg : g (idx b) = b); [|by rewrite Hg].
      assert (Hin : In b kept) by (by rewrite Ek).
      unfold kept, select, frame in Hin.
      apply filter_In in Hin as [Hin _].
      by apply in_map_iff in Hin as (j & <- & _).
Qed.

Lemma remaining_rows (r : remaining_row) :
  In r (assign_dir dirs kept) ->
  if none_left
  then exists j d, dirs !! j = Some d /\ r = added_row j d
  else exists j, j < n /\ r = kept_row j.
Proof.
  rewrite assign_dir_kept. destruct none_left.
  - intros H. apply list_elem_of_In, elem_of_lookup_imap in H
      as (j & d & -> & Hd). by exists j, d.
  - intros H. apply in_map_iff in H as (b & <- & Hb).
    unfold kept, select, frame in Hb. apply filter_In in Hb as [Hb _].
    apply in_map_iff in Hb as (j & <- & Hj). apply in_seq in Hj.
    exists j. split; [lia|done].
Qed.

Lemma occ_remaining (Q : remaining_row -> bool) (i : nat) :
  occ label i (List.filter Q (assign_dir dirs kept))
  = b2n (if none_left
         then match dirs !! i with
              | Some d => Q (added_row i d)
              | None => false
              end
         else (i <? n)%nat && rest i && Q (kept_row i)).
Proof.
  rewrite assign_dir_kept. destruct none_left.
  - by rewrite (occ_filter_imap label added_row).
  - unfold kept, select, frame.
    rewrite filter_map_comm, (occ_map idx) by done.
    rewrite occ_filter_filter, (occ_filter_seq idx g) by done.
    cbn [idx g frame_row]. unfold rest. by rewrite andb_assoc.
Qed.

Lemma occ_received (i : nat) :
  occ p_idx i (sh1 s)
  = b2n ((none_left || (i <? n)%nat && rest i) && dir_at dirs i dir_in).
Proof.
  unfold s, split_sheets; cbn [sh1]. fold kept.
  rewrite occ_sort_values, (occ_map label) by done.
  rewrite occ_remaining. unfold dir_at, dir_is.
  destruct none_left; cbn; [by destruct (dirs !! i)|done].
Qed.

Lemma occ_paid (i : nat) :
  occ p_idx i (sh2 s)
  = b2n ((none_left || (i <? n)%nat && rest i) && dir_at dirs i dir_out).
Proof.
  unfold s, split_sheets; cbn [sh2]. fold kept.
  rewrite occ_sort_values, (occ_map label) by done.
  rewrite occ_remaining. unfold dir_at, dir_is.
  destruct none_left; cbn; [by destruct (dirs !! i)|done].
Qed.

Lemma occ_unidentified (i : nat) :
  occ d_idx i (sh5 s)
  = b2n (if none_left then dir_at dirs i dir_zero
         else (i <? n)%nat && rest i
              && (dir_at dirs i dir_zero
                  || blank (default "nan" (no !! i))
                       (default "nan" (co !! i)))).
Proof.
  unfold s, split_sheets; cbn [sh5]. fold kept.
  rewrite occ_sort_values, (occ_map label) by done.
  rewrite occ_remaining. unfold dir_at, dir_is, blank_counterparty.
  destruct none_left; cbn; [|done].
  destruct (dirs !! i); [|done]. by rewrite orb_false_r.
Qed.

Lemma rest_lookup (i : nat) (a b : bool) :
  is_com !! i = Some a -> is_imp !! i = Some b ->
  rest i = negb (a || b).
Proof.
  intros Ha Hb. unfold rest, series_not, series_or.
  by rewrite list_lookup_fmap, lookup_zip_with, Ha, Hb.
Qed.

Lemma in_fee_tax_sheets (r : debit_row) :
  In r (sh3 s) \/ In r (sh4 s) ->
  exists j, j < n /\ r = to_debit (g j).
Proof.
  unfold s, split_sheets; cbn [sh3 sh4].
  rewrite !in_sort_values, !in_map_iff. unfold select, frame.
  intros [(b & <- & Hb)|(b & <- & Hb)];
    apply filter_In in Hb as [Hb _];
    apply in_map_iff in Hb as (j & <- & Hb);
    apply in_seq in Hb; exists j; (split; [lia|done]).
Qed.

Lemma in_payment_sheets (r : payment_row) :
  In r (sh1 s) \/ In r (sh2 s) ->
  if none_left
  then exists j d, dirs !! j = Some d /\ r = to_payment (added_row j d)
  else exists j, j < n /\ r = to_payment (kept_row j).
Proof.
  unfold s, split_sheets; cbn [sh1 sh2]. fold kept.
  rewrite !in_sort_values, !in_map_iff.
  intros [(b & <- & Hb)|(b & <- & Hb)];
    apply filter_In in Hb as [Hb _];
    apply remaining_rows in Hb;
    (destruct none_left;
     [destruct Hb as (j & d & Hd & ->); by exists j, d
     |destruct Hb as (j & Hj & ->); by exists j]).
Qed.

Lemma in_unidentified_sheet (r : debit_row) :
  In r (sh5 s) ->
  if none_left
  then exists j d, dirs !! j = Some d /\ r = to_unidentified (added_row j d)
  else exists j, j < n /\ r = to_unidentified (kept_row j).
Proof.
  unfold s, split_sheets; cbn [sh5]. fold kept.
  rewrite !in_sort_values, !in_map_iff.
  intros (b & <- & Hb). apply filter_In in Hb as [Hb _].
  apply remaining_rows in Hb.
  destruct none_left;
    [destruct Hb as (j & d & Hd & ->); by exists j, d
    |destruct Hb as (j & Hj & ->); by exists j].
Qed.

End Split.

Lemma column_or_blank_length (df : DataFrame) (c : option string)
    (cells : list cell) :
  column_or_blank df c = Ok cells -> length cells = len df.
Proof.
  unfold column_or_blank. destruct (truthy c).
  - apply getcol_length.
  - intros [= <-]. apply repeat_length.
Qed.

Lemma detalle_text_length (df : DataFrame) (key : string)
    (texts : list string) :
  detalle_text df key = Ok texts -> length texts = len df.
Proof.
  unfold detalle_text, text_column. intros H.
  apply bind_ok in H as (cells & Hc & H).
  injection H as <-. rewrite length_map.
  destruct (several df key); [done|]. by apply getitem_length in Hc.
Qed.

(** The masks of a table leave no row exactly when every description
    holds a keyword. *)
Lemma none_left_matches (st : session_state) (texts : list string) :
  forallb
    (fun i =>
       negb (default false
               (series_not
                  (series_or (map (Str.any_in (fee_keywords st)) texts)
                     (map (Str.any_in (tax_keywords st)) texts)) !! i)))
    (seq 0 (length texts))
  = every_row_matches st texts.
Proof.
  unfold every_row_matches.
  apply eq_true_iff_eq. rewrite !List.forallb_forall. split.
  - intros H t Ht. apply list_elem_of_In, list_elem_of_lookup in Ht as [i Hi].
    assert (Hlt : i < length texts) by (by apply lookup_lt_Some in Hi).
    specialize (H i). rewrite in_seq in H. specialize (H ltac:(lia)).
    unfold series_not, series_or in H.
    rewrite list_lookup_fmap, lookup_zip_with, !list_lookup_fmap, Hi in H.
    cbn in H. by apply negb_true_iff, negb_false_iff in H.
  - intros H i Hi. apply in_seq in Hi.
    destruct (lookup_lt_is_Some_2 texts i) as [t Ht]; [lia|].
    unfold series_not, series_or.
    rewrite list_lookup_fmap, lookup_zip_with, !list_lookup_fmap, Ht.
    cbn. rewrite negb_involutive. apply H.
    by apply list_elem_of_lookup_2, list_elem_of_In in Ht.
Qed.

Lemma unmatched_row (st : session_state) (texts : list string) (i : nat)
    (t : string) :
  texts !! i = Some t ->
  Str.any_in (fee_keywords st) t || Str.any_in (tax_keywords st) t = false ->
  every_row_matches st texts = false.
Proof.
  intros Hi Ht. apply not_true_iff_false. unfold every_row_matches.
  rewrite List.forallb_forall. intros H.
  apply list_elem_of_lookup_2, list_elem_of_In in Hi.
  specialize (H t Hi). congruence.
Qed.


(** The intermediate values of a run of [build_output_sheets]. *)
Lemma build_inv (st : session_state) (df : DataFrame)
    (fc rc nc cc dc : option string) (amounts : list float)
    (dirs : list direction) (shs : sheets) :
  build_output_sheets st df fc rc nc cc dc amounts dirs = Ok shs ->
  exists fo refs names cuits dets key texts,
    column_or_blank df rc = Ok refs
    /\ column_or_blank df nc = Ok names
    /\ column_or_blank df cc = Ok cuits
    /\ column_or_blank df dc = Ok dets
    /\ classification_column df dc rc = Ok key
    /\ detalle_text df key = Ok texts
    /\ len df <> 0
    /\ shs = split_sheets
               (frame (len df) fo (map str refs) (map str names)
                  (map str cuits) (map str dets) amounts)
               (map (Str.any_in (fee_keywords st)) texts)
               (map (Str.any_in (tax_keywords st)) texts) dirs.
Proof.
  unfold build_output_sheets. intros H.
  apply bind_ok in H as (fo & _ & H).
  apply bind_ok in H as (refs & Hr & H).
  apply bind_ok in H as (names & Hn & H).
  apply bind_ok in H as (cuits & Hc & H).
  apply bind_ok in H as (dets & Hd & H).
  apply bind_ok in H as (key & Hk & H).
  apply bind_ok in H as ([is_com is_imp] & Hcat & H).
  destruct (is_frame df fc || is_frame df rc || is_frame df nc
            || is_frame df cc || is_frame df dc); [done|].
  destruct (Nat.eqb_spec (len df) 0) as [|Hlen]; [done|].
  injection H as <-.
  unfold categorize_rows in Hcat.
  apply bind_ok in Hcat as (texts & Ht & Hcat). injection Hcat as <- <-.
  by exists fo, refs, names, cuits, dets, key, texts.
Qed.

(** In which sheets the row with label [i] is, from its description, its
    direction and its counterparty, and what the rows of the sheets hold. *)
Lemma build_rows (st : session_state) (df : DataFrame)
    (fc rc nc cc dc : option string) (amounts : list float)
    (dirs : list direction) (shs : sheets) :
  build_output_sheets st df fc rc nc cc dc amounts dirs = Ok shs ->
  exists key texts names cuits,
    classification_column df dc rc = Ok key
    /\ detalle_text df key = Ok texts
    /\ column_or_blank df nc = Ok names
    /\ column_or_blank df cc = Ok cuits
    /\ length texts = len df /\ length names = len df
    /\ length cuits = len df
    /\ len df <> 0
    /\ (forall i t x y,
          texts !! i = Some t -> names !! i = Some x -> cuits !! i = Some y ->
          let fee := Str.any_in (fee_keywords st) t in
          let tax := Str.any_in (tax_keywords st) t in
          let all := every_row_matches st texts in
          occ p_idx i (sh1 shs)
          = b2n ((all || negb (fee || tax)) && dir_at dirs i dir_in)
          /\ occ p_idx i (sh2 shs)
             = b2n ((all || negb (fee || tax)) && dir_at dirs i dir_out)
          /\ occ d_idx i (sh3 shs) = b2n fee
          /\ occ d_idx i (sh4 shs) = b2n tax
          /\ occ d_idx i (sh5 shs)
             = b2n (if all then dir_at dirs i dir_zero
                    else negb (fee || tax)
                         && (dir_at dirs i dir_zero
                             || blank (str x) (str y))))
    /\ (forall i, len df <= i ->
          occ d_idx i (sh3 shs) = 0 /\ occ d_idx i (sh4 shs) = 0
          /\ (length dirs <= i -> appearances i shs = 0))
    /\ (forall r, In r (sh1 shs) \/ In r (sh2 shs) ->
          if every_row_matches st texts
          then p_idx r < length dirs /\ added_payment r
          else p_idx r < len df
               /\ p_importe r = default Float.nan (amounts !! p_idx r))
    /\ (forall r, In r (sh3 shs) \/ In r (sh4 shs) ->
          d_idx r < len df
          /\ d_importe r = default Float.nan (amounts !! d_idx r))
    /\ (forall r, In r (sh5 shs) ->
          if every_row_matches st texts
          then d_idx r < length dirs /\ added_debit r
          else d_idx r < len df
               /\ d_importe r = default Float.nan (amounts !! d_idx r)).
Proof.
  intros H. apply build_inv in H
    as (fo & refs & names & cuits & dets & key & texts & _ & Hn & Hc & _
        & Hk & Ht & Hlen & ->).
  exists key, texts, names, cuits.
  assert (Lt := detalle_text_length _ _ _ Ht).
  assert (Ln := column_or_blank_length _ _ _ Hn).
  assert (Lc := column_or_blank_length _ _ _ Hc).
  assert (Hall := none_left_matches st texts). rewrite Lt in Hall.
  repeat (split; [done|]). split; [|split; [|split; [|split]]].
  - intros i t x y Hi Hx Hy fee tax all.
    assert (Hlt : (i <? len df)%nat = true).
    { apply Nat.ltb_lt. rewrite <- Lt. by apply lookup_lt_Some in Hi. }
    assert (Hfee : map (Str.any_in (fee_keywords st)) texts !! i = Some fee)
      by (by rewrite list_lookup_fmap, Hi).
    assert (Htax : map (Str.any_in (tax_keywords st)) texts !! i = Some tax)
      by (by rewrite list_lookup_fmap, Hi).
    rewrite occ_received, occ_paid, occ_fees, occ_taxes, occ_unidentified.
    rewrite Hall. fold all.
    rewrite (rest_lookup _ _ _ _ _ Hfee Htax), Hfee, Htax, Hlt.
    rewrite !list_lookup_fmap, Hx, Hy. done.
  - intros i Hi.
    assert (Hlt : (i <? len df)%nat = false) by (apply Nat.ltb_ge; lia).
    rewrite occ_fees, occ_taxes, Hlt. split; [done|]. split; [done|].
    intros Hd. unfold appearances.
    rewrite occ_received, occ_paid, occ_fees, occ_taxes, occ_unidentified.
    rewrite Hlt. unfold dir_at.
    rewrite (lookup_ge_None_2 dirs i) by lia.
    rewrite !andb_false_r. by destruct (forallb _ _).
  - intros r Hr. apply in_payment_sheets in Hr. rewrite Hall in Hr.
    destruct (every_row_matches st texts).
    + destruct Hr as (j & d & Hd & ->). split; [|done].
      cbn. by apply lookup_lt_Some in Hd.
    + destruct Hr as (j & Hj & ->). by split.
  - intros r Hr. apply in_fee_tax_sheets in Hr as (j & Hj & ->). by split.
  - intros r Hr. apply in_unidentified_sheet in Hr. rewrite Hall in Hr.
    destruct (every_row_matches st texts).
    + destruct Hr as (j & d & Hd & ->). split; [|done].
      cbn. by apply lookup_lt_Some in Hd.
    + destruct Hr as (j & Hj & ->). by split.
Qed.


(** C3 (as amended).  A row whose direction is "in" (or "out"), whose
    description holds no fee and no tax keyword, and whose counterparty
    name and tax id are both empty after [strip], is once in the
    unidentified sheet and also once in the received (or paid) sheet. *)
Theorem blank_counterparty_row_in_two_sheets (st : session_state)
    (df : DataFrame) (fc rc nc cc dc : option string)
    (amounts : list float) (dirs : list direction) (shs : sheets)
    (key : string) (texts : list string) (names cuits : list cell)
    (i : nat) (t : string) (x y : cell) (d : direction) :
  build_output_sheets st df fc rc nc cc dc amounts dirs = Ok shs ->
  classification_column df dc rc = Ok key ->
  detalle_text df key = Ok texts ->
  column_or_blank df nc = Ok names ->
  column_or_blank df cc = Ok cuits ->
  texts !! i = Some t -> names !! i = Some x -> cuits !! i = Some y ->
  dirs !! i = Some d -> d <> dir_zero ->
  Str.any_in (fee_keywords st) t = false ->
  Str.any_in (tax_keywords st) t = false ->
  blank (str x) (str y) = true ->
  occ d_idx i (sh5 shs) = 1
  /\ occ p_idx i (sh1 shs) = b2n (direction_eqb d dir_in)
  /\ occ p_idx i (sh2 shs) = b2n (direction_eqb d dir_out)
  /\ occ p_idx i (sh1 shs) + occ p_idx i (sh2 shs) = 1
  /\ occ d_idx i (sh3 shs) = 0 /\ occ d_idx i (sh4 shs) = 0.
Proof.
  intros H Hk Ht Hn Hc Hi Hx Hy Hd Hnz Hfee Htax Hblank.
  apply build_rows in H
    as (key' & texts' & names' & cuits' & Hk' & Ht' & Hn' & Hc' & _ & _ & _
        & _ & Hrow & _).
  rewrite Hk in Hk'. injection Hk' as <-.
  rewrite Ht in Ht'. injection Ht' as <-.
  rewrite Hn in Hn'. injection Hn' as <-.
  rewrite Hc in Hc'. injection Hc' as <-.
  destruct (Hrow i t x y Hi Hx Hy) as (H1 & H2 & H3 & H4 & H5).
  assert (Hall : every_row_matches st texts = false).
  { apply (unmatched_row st texts i t Hi). by rewrite Hfee, Htax. }
  unfold dir_at in *. rewrite Hall, Hd, Hfee, Htax, Hblank in *.
  rewrite H1, H2, H3, H4, H5.
  destruct d; simpl; try congruence; repeat split; reflexivity.
Qed.

Lemma process_inv (st : session_state) (df : DataFrame) (shs : sheets) :
  process_dataframe st df = Ok shs ->
  let g := guess_columns (columns (stripped df)) in
  exists amounts dirs,
    detect_direction_and_amount (stripped df) (importe_col g) (credito_col g)
      (debito_col g) (tipo_col g) = Ok (amounts, dirs)
    /\ build_output_sheets st (stripped df) (fecha_col g) (ref_col g)
         (nombre_col g) (cuit_col g) (detalle_col g) amounts dirs = Ok shs.
Proof.
  intros H g. unfold process_dataframe in H.
  apply bind_ok in H as ([amounts dirs] & Hd & H). eauto.
Qed.


(** *** The run completes *)

Lemma getitem_in (df : DataFrame) (c : string) :
  In c (columns df) -> exists cells, getitem df c = Ok cells.
Proof.
  unfold getitem. intros H.
  assert (Hp : exists k, position c (columns df) = Some k).
  { induction (columns df) as [|l labels IH]; [done|]. simpl.
    destruct (String.eqb_spec l c) as [|Hne]; [eauto|].
    destruct H as [H|H]; [done|]. destruct (IH H) as [k ->]. simpl. eauto. }
  destruct Hp as [k ->]. eauto.
Qed.

Lemma find_in (cols cands : list string) (h : string) :
  find (slug_to_orig cols) cands = Some h -> In h cols.
Proof.
  rewrite find_by_priority. intros H.
  apply last_header_in in H as [H _]. exact H.
Qed.

(** Every column that [guess_columns] returns is a label of the frame. *)
Lemma guess_columns_in (cols : list string) (r : role) (h : string) :
  role_col (guess_columns cols) r = Some h -> In h cols.
Proof.
  destruct r; unfold guess_columns, role_col; cbv zeta; cbn [fecha_col
    ref_col nombre_col cuit_col detalle_col importe_col credito_col
    debito_col tipo_col]; try apply find_in.
  destruct (find (slug_to_orig cols) (candidates Detalle)) eqn:Ed.
  - intros [= <-]. by apply find_in in Ed.
  - destruct (truthy (find (slug_to_orig cols) (candidates Referencia))).
    + apply find_in.
    + destruct cols; [done|]. intros [= <-]. by left.
Qed.

Lemma getcol_known (df : DataFrame) (c : option string) :
  known df c -> truthy c = true -> exists cells, getcol df c = Ok cells.
Proof.
  intros Hk Ht. destruct c as [h|]; [|done]. simpl.
  apply getitem_in, Hk. reflexivity.
Qed.

Lemma to_number_of_known (df : DataFrame) (c : option string) :
  known df c -> truthy c = true ->
  exists vs, getcol df c ≫= _to_number = Ok vs.
Proof.
  intros Hk Ht. destruct (getcol_known df c Hk Ht) as [cells ->]. simpl.
  destruct (to_number_total cells) as (vs & -> & _). eauto.
Qed.

Lemma guess_columns_nil :
  guess_columns [] =
  {| fecha_col := None; ref_col := None; nombre_col := None;
     cuit_col := None; detalle_col := None; importe_col := None;
     credito_col := None; debito_col := None; tipo_col := None |}.
Proof. reflexivity. Qed.

Lemma several_nodup (df : DataFrame) (c : string) :
  NoDup (columns df) -> several df c = false.
Proof.
  unfold several. intros H. apply Nat.ltb_ge.
  induction (columns df) as [|l labels IH]; simpl; [lia|].
  apply NoDup_cons in H as [Hl H]. specialize (IH H).
  destruct (String.eqb_spec c l) as [->|Hne]; [|lia].
  assert (Hnil : List.filter (String.eqb l) labels = []).
  { clear IH H. induction labels as [|x labels IH]; simpl; [done|].
    destruct (String.eqb_spec l x) as [->|_].
    - exfalso. apply Hl. by left.
    - apply IH. intros Hin. apply Hl. by right. }
  rewrite Hnil. simpl. lia.
Qed.

Lemma several_col_nodup (df : DataFrame) (c : option string) :
  NoDup (columns df) -> several_col df c = false.
Proof. destruct c; [apply several_nodup|done]. Qed.

Lemma detect_total (df : DataFrame) (ci cc cd ct : option string) :
  NoDup (columns df) ->
  known df ci -> known df cc -> known df cd -> known df ct ->
  exists r, detect_direction_and_amount df ci cc cd ct = Ok r.
Proof.
  intros Hnd Ki Kc Kd Kt.
  unfold detect_direction_and_amount, amount_is_frame, apply_to_column.
  rewrite ?(several_col_nodup df _ Hnd).
  assert (Hamount : exists importe,
    (if truthy cc && truthy cd then
       credito ← (getcol df cc ≫= _to_number);
       debito ← (getcol df cd ≫= _to_number);
       Ok (series_sub credito debito)
     else
       match ci with
       | Some c => getcol df (Some c) ≫= _to_number
       | None => Ok (repeat Float.zero (len df))
       end) = Ok importe).
  { destruct (truthy cc && truthy cd) eqn:Eb.
    - apply andb_true_iff in Eb as [Ec Ed].
      destruct (to_number_of_known df cc Kc Ec) as [v1 ->].
      destruct (to_number_of_known df cd Kd Ed) as [v2 ->]. simpl. eauto.
    - destruct ci as [c|]; [|eauto]. cbn [getcol].
      destruct (getitem_in df c (Ki c eq_refl)) as [cells ->]. simpl.
      destruct (to_number_total cells) as (vs & -> & _). eauto. }
  destruct Hamount as [importe Himp].
  destruct (truthy cc && truthy cd); [|destruct ci as [c|]];
    rewrite ?(several_col_nodup df _ Hnd), Himp; simpl;
    rewrite ?andb_false_r;
    (destruct (truthy ct) eqn:Et; simpl;
     [destruct (getcol_known df ct Kt Et) as [tipos ->]; simpl; eauto
     |eauto]).
Qed.

Lemma column_or_blank_total (df : DataFrame) (c : option string) :
  known df c -> exists cells, column_or_blank df c = Ok cells.
Proof.
  intros Hk. unfold column_or_blank. destruct (truthy c) eqn:Et; [|eauto].
  by apply getcol_known.
Qed.

Lemma classification_column_total (df : DataFrame) (dc rc : option string) :
  columns df <> [] -> known df dc -> known df rc ->
  exists key, classification_column df dc rc = Ok key /\ In key (columns df).
Proof.
  intros Hne Kd Kr. unfold classification_column, or_else.
  destruct (truthy dc) eqn:Ed.
  { destruct dc as [d|]; [|done]. eauto. }
  destruct (truthy rc) eqn:Er.
  { destruct rc as [r|]; [|done]. eauto. }
  destruct (columns df) as [|c0 rest]; [done|]. exists c0. split; [done|].
  by left.
Qed.

Lemma build_total (st : session_state) (df : DataFrame)
    (fc rc nc cc dc : option string) (amounts : list float)
    (dirs : list direction) :
  columns df <> [] -> len df <> 0 -> NoDup (columns df) ->
  known df fc -> known df rc -> known df nc -> known df cc -> known df dc ->
  exists shs,
    build_output_sheets st df fc rc nc cc dc amounts dirs = Ok shs.
Proof.
  intros Hne Hlen Hnd Kf Kr Kn Kc Kd.
  unfold build_output_sheets, is_frame, apply_to_column.
  rewrite !(several_col_nodup df _ Hnd), !andb_false_r.
  assert (Hf : exists fo,
    (if truthy fc then getcol df fc ≫= _to_datetime
     else Ok (repeat NaT (len df))) = Ok fo).
  { destruct (truthy fc) eqn:Ef; [|eauto].
    destruct (getcol_known df fc Kf Ef) as [cells ->]. simpl.
    unfold _to_datetime. apply apply_total, parse_one_total. }
  destruct Hf as [fo ->].
  destruct (column_or_blank_total df rc Kr) as [refs ->].
  destruct (column_or_blank_total df nc Kn) as [names ->].
  destruct (column_or_blank_total df cc Kc) as [cuits ->].
  destruct (column_or_blank_total df dc Kd) as [dets ->].
  destruct (classification_column_total df dc rc Hne Kd Kr)
    as (key & -> & Hkey).
  destruct (getitem_in df key Hkey) as [cells Hcells].
  unfold categorize_rows, detalle_text, text_column. cbn [mbind result_bind].
  rewrite (several_nodup df _ Hnd), Hcells. cbn [mbind result_bind orb].
  destruct (Nat.eqb_spec (len df) 0); [done|]. eauto.
Qed.

Lemma process_total (st : session_state) (df : DataFrame) :
  columns df <> [] -> data df <> [] ->
  NoDup (map Str.strip (columns df)) ->
  exists shs, process_dataframe st df = Ok shs.
Proof.
  intros Hne Hrows Hnd. unfold process_dataframe. fold (stripped df).
  set (g := guess_columns (columns (stripped df))).
  assert (K : forall r, known (stripped df) (role_col g r)).
  { intros r h Hr. by apply guess_columns_in in Hr. }
  destruct (detect_total (stripped df) (importe_col g) (credito_col g)
              (debito_col g) (tipo_col g) Hnd (K Importe) (K Credito)
              (K Debito) (K Tipo)) as [[amounts dirs] ->].
  simpl. apply build_total; try apply (K Fecha); try apply (K Referencia);
    try apply (K Nombre); try apply (K Cuit); try apply (K Detalle);
    try done.
  - simpl. by destruct (columns df).
  - unfold len. simpl. by destruct (data df).
Qed.

(** A run that returns had at least one column and at least one row. *)
Lemma process_ok_table (st : session_state) (df : DataFrame) (shs : sheets) :
  process_dataframe st df = Ok shs -> columns df <> [] /\ data df <> [].
Proof.
  intros H. apply process_inv in H as (amounts & dirs & _ & H).
  split.
  - intros Hc. unfold build_output_sheets in H.
    apply bind_ok in H as (fo & _ & H).
    apply bind_ok in H as (refs & _ & H).
    apply bind_ok in H as (names & _ & H).
    apply bind_ok in H as (cuits & _ & H).
    apply bind_ok in H as (dets & _ & H).
    apply bind_ok in H as (key & Hk & _).
    assert (Hs : columns (stripped df) = []) by (simpl; by rewrite Hc).
    rewrite Hs, guess_columns_nil in Hk.
    unfold classification_column in Hk. by rewrite Hs in Hk.
  - intros Hd. apply build_inv in H
      as (? & ? & ? & ? & ? & ? & ? & _ & _ & _ & _ & _ & _ & Hlen & _).
    apply Hlen. unfold len. simpl. by rewrite Hd.
Qed.



(** *** Tables without a resolved column *)


Lemma repeat_lookup {A : Type} (x : A) (n i : nat) :
  i < n -> repeat x n !! i = Some x.
Proof.
  revert i. induction n as [|n IH]; intros [|i] Hi; simpl; try lia; [done|].
  apply IH. lia.
Qed.

Lemma mask_zero_repeat (n : nat) :
  mask_zero (repeat dir_zero n) (map sign_based (repeat Float.zero n))
  = repeat dir_zero n.
Proof. induction n as [|n IH]; simpl; [done|]. by rewrite IH. Qed.

Lemma detect_unresolved (df : DataFrame) :
  detect_direction_and_amount df None None None None
  = Ok (repeat Float.zero (len df), repeat dir_zero (len df)).
Proof.
  unfold detect_direction_and_amount, amount_is_frame. simpl.
  by rewrite andb_false_r, mask_zero_repeat.
Qed.





End Sheets.

(** ** The examples, with the reference library *)





(** C3, counterexample.  The row has direction "in", the amount 150.00,
    no keyword, and an empty name and tax id (neither column exists); it
    is in the received sheet as well as in the unidentified sheet. *)
Lemma blank_counterparty_row_in_received_sheet :
  exists shs,
    process_dataframe empty_session df_no_counterparty = Ok shs
    /\ detect_direction_and_amount df_no_counterparty (Some "importe") None
         None None = Ok ([f_150], [dir_in])
    /\ Float.of_string "150.00" = Ok f_150
    /\ column_or_blank df_no_counterparty None = Ok [CStr ""]
    /\ blank "" "" = true
    /\ occ p_idx 0 (sh1 shs) = 1
    /\ occ d_idx 0 (sh5 shs) = 1.
Proof.
  eexists. split; [vm_compute; reflexivity|].
  vm_compute. repeat split; reflexivity.
Qed.

(** C3, witness: the table of one payment without counterparty. *)
Lemma blank_counterparty_row_in_two_sheets_witness :
  exists shs,
    build_output_sheets empty_session df_no_counterparty None
      (Some "detalle") None None (Some "detalle") [f_150] [dir_in] = Ok shs
    /\ occ d_idx 0 (sh5 shs) = 1
    /\ occ p_idx 0 (sh1 shs) = b2n (direction_eqb dir_in dir_in)
    /\ occ p_idx 0 (sh2 shs) = b2n (direction_eqb dir_in dir_out)
    /\ occ p_idx 0 (sh1 shs) + occ p_idx 0 (sh2 shs) = 1
    /\ occ d_idx 0 (sh3 shs) = 0 /\ occ d_idx 0 (sh4 shs) = 0.
Proof.
  eexists. split; [vm_compute; reflexivity|].
  apply (blank_counterparty_row_in_two_sheets empty_session
           df_no_counterparty None (Some "detalle") None None
           (Some "detalle") [f_150] [dir_in] _ "detalle"
           ["pago factura 123"] [CStr ""] [CStr ""] 0 "pago factura 123"
           (CStr "") (CStr "") dir_in);
    try (vm_compute; reflexivity).
  discriminate.
Defined.

(** C5, witness: the reference library reads [31/01/2024] day first. *)
Lemma to_datetime_first_pattern_wins_witness :
  pd_to_datetime (Some "%d/%m/%Y") "31/01/2024" = Ok (Some jan31_2024)
  /\ (forall t, pd_to_datetime None "31/01/2024" = Ok t ->
                t = Some jan31_2024)
  /\ _to_datetime [CStr "31/01/2024"] = Ok [Some jan31_2024].
Proof.
  assert (Hdmy : pd_to_datetime (Some "%d/%m/%Y") "31/01/2024"
                 = Ok (Some jan31_2024)) by (vm_compute; reflexivity).
  assert (Hplain : forall t, pd_to_datetime None "31/01/2024" = Ok t ->
                             t = Some jan31_2024).
  { intros t H. vm_compute in H. injection H as <-. reflexivity. }
  split; [exact Hdmy|]. split; [exact Hplain|].
  apply (to_datetime_first_pattern_wins Hdmy Hplain).
Defined.

(** C6, witness: a type [Credito] with the amount -10,00 gives "in". *)
Lemma explicit_type_wins_over_sign_witness :
  exists amounts dirs,
    detect_direction_and_amount df_typed (Some "importe") None None
      (Some "tipo") = Ok (amounts, dirs)
    /\ length amounts = len df_typed /\ length dirs = len df_typed
    /\ (forall v d, amounts !! 0 = Some v -> dirs !! 0 = Some d ->
                    d = dir_in).
Proof.
  eexists _, _. split; [vm_compute; reflexivity|].
  destruct (explicit_type_wins_over_sign df_typed (Some "importe") None
              None (Some "tipo") _ _ ltac:(vm_compute; reflexivity))
    as (La & Ld & Htype & _).
  split; [exact La|]. split; [exact Ld|].
  intros v d Hv Hd.
  eapply (Htype _ 0 (CStr "Credito") v d); try eassumption;
    vm_compute; reflexivity.
Defined.


(** C9, a second example.  The only row of the unresolved table holds a
    tax keyword; it is in the taxes sheet with the amount 0.0, and the
    unidentified sheet has a row with its index label on which the amount
    is not a number. *)
Lemma unresolved_keyword_row_with_nan_amount :
  exists shs r4 r5,
    process_dataframe empty_session df_unresolved_tax = Ok shs
    /\ no_role_resolves (columns (stripped df_unresolved_tax)) = true
    /\ sh4 shs = [r4] /\ d_idx r4 = 0 /\ d_importe r4 = Float.zero
    /\ sh5 shs = [r5] /\ d_idx r5 = 0 /\ d_importe r5 = Float.nan
    /\ d_fecha r5 = NaT /\ d_referencia r5 = None.
Proof.
  eexists _, _, _. split; [vm_compute; reflexivity|].
  vm_compute. repeat split; reflexivity.
Qed.


(** C10, counterexample.  Credit and debit both read [inf]; the amount is
    their difference, which is not a number, and the direction is "zero"
    although the amount does not equal 0.0. *)
Lemma zero_direction_with_nan_amount :
  let g := guess_columns (columns df_infinite) in
  credito_col g = Some "credito" /\ debito_col g = Some "debito"
  /\ detect_direction_and_amount df_infinite (importe_col g) (credito_col g)
       (debito_col g) (tipo_col g) = Ok ([Float.nan], [dir_zero])
  /\ Float.of_string "inf" = Ok (S754_infinity false)
  /\ Float.eqb Float.nan Float.zero = false.
Proof. vm_compute. repeat split; reflexivity. Qed.

(** C10, witness: in the table whose credit and debit both read [inf] the
    amount is not a number, and the theorem gives back the two infinite
    values of the row. *)
Lemma zero_direction_amount_zero_or_nan_witness :
  detect_direction_and_amount df_infinite None (Some "credito")
    (Some "debito") None = Ok ([Float.nan], [dir_zero])
  /\ exists credito debito sg,
       apply_to_column _to_number df_infinite (Some "credito") = Ok credito
       /\ apply_to_column _to_number df_infinite (Some "debito") = Ok debito
       /\ credito !! 0 = Some (S754_infinity sg)
       /\ debito !! 0 = Some (S754_infinity sg).
Proof.
  assert (H : detect_direction_and_amount df_infinite None (Some "credito")
                (Some "debito") None = Ok ([Float.nan], [dir_zero]))
    by (vm_compute; reflexivity).
  split; [exact H|].
  exact (proj2
           (proj1 (proj2 (proj2
              (proj2 (proj2 (zero_direction_amount_zero_or_nan df_infinite
                               None (Some "credito") (Some "debito") None
                               [Float.nan] [dir_zero] H))
                 0 Float.nan dir_zero eq_refl eq_refl)))
              eq_refl)).
Defined.

(** A frame without columns: [df.columns[0]] raises. *)
Lemma no_columns_raises :
  process_dataframe empty_session {| columns := []; data := [] |}
  = Raise IndexError.
Proof. reflexivity. Qed.

(** * Further properties of the program *)

(** ** Column resolution and the run as a whole *)

(** X1.  The description column of [guess_columns] is missing exactly when
    the frame has no column at all: with at least one header it is the
    matched header, else the reference column, else the first header. *)
Theorem description_column_missing_iff_no_columns (cols : list string) :
  detalle_col (guess_columns cols) = None <-> cols = [].
Proof.
  split.
  - intros H. destruct cols as [|c cols]; [done|]. exfalso.
    unfold guess_columns in H; cbv zeta in H; cbn [detalle_col] in H.
    destruct (find _ (candidates Detalle)); [done|].
    destruct (find _ (candidates Referencia)) as [r|] eqn:Er.
    + rewrite find_by_priority in Er.
      by rewrite (resolved_reference_truthy _ _ Er) in H.
    + done.
  - intros ->. reflexivity.
Qed.

(** X2.  A column that [guess_columns] returns for a role is one of the
    headers of the frame, and for every role but the description its slug
    is one of the candidates of the role. *)
Theorem resolved_column_is_a_header (cols : list string) (r : role)
    (h : string) :
  role_col (guess_columns cols) r = Some h ->
  In h cols /\ (r <> Detalle -> In (_slug h) (candidates r)).
Proof.
  intros H. split; [by apply guess_columns_in in H|].
  intros Hr. destruct r; try done;
    unfold guess_columns, role_col in H; cbv zeta in H;
    cbn [fecha_col ref_col nombre_col cuit_col detalle_col importe_col
         credito_col debito_col tipo_col] in H;
    rewrite find_by_priority in H; by apply last_header_in in H as [_ H].
Qed.

(** X2, witness: the amount role of the headers [Fecha], [fecha],
    [Monto]. *)
Lemma resolved_column_is_a_header_witness :
  role_col (guess_columns headers_same_slug) Importe = Some "Monto"
  /\ In "Monto" headers_same_slug
  /\ (Importe <> Detalle -> In (_slug "Monto") (candidates Importe)).
Proof.
  assert (H : role_col (guess_columns headers_same_slug) Importe
              = Some "Monto") by (vm_compute; reflexivity).
  split; [exact H|].
  exact (resolved_column_is_a_header headers_same_slug Importe "Monto" H).
Defined.

Section Run.

Context {lib : Library}.

(** X3.  [process_dataframe] raises on a frame without columns, with the
    [IndexError] of [df.columns[0]], and it raises on a table without
    rows; on every table with at least one column, at least one row and
    labels that are distinct after [strip] it returns the five sheets,
    whatever the cells hold. *)
Theorem run_needs_columns_and_rows (st : session_state) (df : DataFrame) :
  (columns df = [] -> process_dataframe st df = Raise IndexError)
  /\ (data df = [] -> is_raise (process_dataframe st df))
  /\ (columns df <> [] -> data df <> [] ->
      NoDup (map Str.strip (columns df)) ->
      exists shs, process_dataframe st df = Ok shs).
Proof.
  split; [|split; [|apply process_total]].
  - intros H.
    assert (Hs : columns (stripped df) = []) by (simpl; by rewrite H).
    unfold process_dataframe. fold (stripped df).
    rewrite Hs, guess_columns_nil.
    cbn [importe_col credito_col debito_col tipo_col fecha_col ref_col
         nombre_col cuit_col detalle_col].
    rewrite detect_unresolved. simpl.
    unfold build_output_sheets, classification_column. rewrite Hs.
    reflexivity.
  - intros H. destruct (process_dataframe st df) as [shs|e] eqn:E; [|done].
    by apply process_ok_table in E as [_ E].
Qed.

End Run.

(** ** The order of the sheets *)

Lemma ascii_compare_lt_trans (a b c : ascii) :
  Ascii.compare a b = Lt -> Ascii.compare b c = Lt -> Ascii.compare a c = Lt.
Proof.
  unfold Ascii.compare. rewrite !N.compare_lt_iff. lia.
Qed.

Lemma ascii_compare_eq (a b : ascii) : Ascii.compare a b = Eq -> a = b.
Proof.
  unfold Ascii.compare. rewrite N.compare_eq_iff. intros H.
  by rewrite <- (ascii_N_embedding a), <- (ascii_N_embedding b), H.
Qed.

Lemma string_compare_lt_trans (a b c : string) :
  String.compare a b = Lt -> String.compare b c = Lt ->
  String.compare a c = Lt.
Proof.
  revert b c. induction a as [|x a IH]; intros [|y b] [|z c]; simpl;
    try done.
  destruct (Ascii.compare x y) eqn:Exy; try done;
    destruct (Ascii.compare y z) eqn:Eyz; try done; intros H1 H2.
  - apply ascii_compare_eq in Exy as ->, Eyz as ->.
    assert (Ascii.compare z z = Eq) as -> by (unfold Ascii.compare; apply N.compare_refl).
    eauto.
  - apply ascii_compare_eq in Exy as ->. by rewrite Eyz.
  - apply ascii_compare_eq in Eyz as <-. by rewrite Exy.
  - by rewrite (ascii_compare_lt_trans _ _ _ Exy Eyz).
Qed.

Lemma string_compare_refl (a : string) : String.compare a a = Eq.
Proof.
  induction a as [|x a IH]; simpl; [done|].
  unfold Ascii.compare. by rewrite N.compare_refl.
Qed.

Lemma string_le_refl (a : string) : string_le a a = true.
Proof. unfold string_le. by rewrite string_compare_refl. Qed.

Lemma string_le_total (a b : string) :
  string_le a b = false -> string_le b a = true.
Proof.
  unfold string_le. rewrite (String.compare_antisym a b).
  by destruct (String.compare b a).
Qed.

Lemma string_le_trans (a b c : string) :
  string_le a b = true -> string_le b c = true -> string_le a c = true.
Proof.
  unfold string_le.
  destruct (String.compare a b) eqn:Eab; try done;
    destruct (String.compare b c) eqn:Ebc; try done; intros _ _.
  - apply String.compare_eq_iff in Eab as ->. by rewrite Ebc.
  - apply String.compare_eq_iff in Eab as ->. by rewrite Ebc.
  - apply String.compare_eq_iff in Ebc as <-. by rewrite Eab.
  - by rewrite (string_compare_lt_trans _ _ _ Eab Ebc).
Qed.

Ltac split_compare :=
  repeat match goal with
    | |- context [(?x ?= ?y)%Z] =>
        destruct (Z.compare_spec x y); subst; try lia; try done
    | H : context [(?x ?= ?y)%Z] |- _ =>
        destruct (Z.compare_spec x y); subst; try lia; try done
    end.

Lemma timestamp_compare_refl (a : Timestamp) : timestamp_compare a a = Eq.
Proof. unfold timestamp_compare. by rewrite !Z.compare_refl. Qed.

Lemma timestamp_compare_antisym (a b : Timestamp) :
  timestamp_compare b a = CompOpp (timestamp_compare a b).
Proof.
  destruct a, b. unfold timestamp_compare. simpl. split_compare.
Qed.

Lemma timestamp_compare_eq (a b : Timestamp) :
  timestamp_compare a b = Eq -> a = b.
Proof.
  destruct a, b. unfold timestamp_compare. simpl. intros H. split_compare.
Qed.

Lemma timestamp_compare_lt_trans (a b c : Timestamp) :
  timestamp_compare a b = Lt -> timestamp_compare b c = Lt ->
  timestamp_compare a c = Lt.
Proof.
  destruct a, b, c. unfold timestamp_compare. simpl. intros H1 H2.
  split_compare.
Qed.

Lemma text_le_refl (a : option string) : text_le a a = true.
Proof. destruct a; [apply string_le_refl|done]. Qed.

Lemma text_le_total (a b : option string) :
  text_le a b = false -> text_le b a = true.
Proof. destruct a, b; simpl; try done. apply string_le_total. Qed.

Lemma text_le_trans (a b c : option string) :
  text_le a b = true -> text_le b c = true -> text_le a c = true.
Proof. destruct a, b, c; simpl; try done. apply string_le_trans. Qed.

Lemma key_le_refl (k : datetime * option string) : key_le k k = true.
Proof.
  destruct k as [[t|] r]; unfold key_le; simpl;
    rewrite ?timestamp_compare_refl; apply text_le_refl.
Qed.

Lemma key_le_total (a b : datetime * option string) :
  key_le a b = false -> key_le b a = true.
Proof.
  destruct a as [[ta|] ra], b as [[tb|] rb]; unfold key_le; simpl;
    try done; try apply text_le_total.
  rewrite (timestamp_compare_antisym ta tb).
  destruct (timestamp_compare ta tb); simpl; try done.
  apply text_le_total.
Qed.

Lemma key_le_trans (a b c : datetime * option string) :
  key_le a b = true -> key_le b c = true -> key_le a c = true.
Proof.
  destruct a as [[ta|] ra], b as [[tb|] rb], c as [[tc|] rc];
    unfold key_le; simpl; try done; try apply text_le_trans.
  destruct (timestamp_compare ta tb) eqn:Eab; try done;
    destruct (timestamp_compare tb tc) eqn:Ebc; try done.
  - apply timestamp_compare_eq in Eab as ->. rewrite Ebc.
    apply text_le_trans.
  - apply timestamp_compare_eq in Eab as ->. by rewrite Ebc.
  - apply timestamp_compare_eq in Ebc as <-. by rewrite Eab.
  - by rewrite (timestamp_compare_lt_trans _ _ _ Eab Ebc).
Qed.

Section Sorting.

Context {A : Type} (key : A -> datetime * option string).

Lemma insert_by_sorted (x : A) (l : list A) :
  Sorted (in_order key) l -> Sorted (in_order key) (insert_by key x l).
Proof.
  induction l as [|y l IH]; intros Hs; simpl.
  - by repeat constructor.
  - destruct (key_le (key x) (key y)) eqn:E.
    + constructor; [done|]. by constructor.
    + apply Sorted_inv in Hs as [Hs Hhd]. constructor; [by apply IH|].
      destruct l as [|z l]; simpl.
      * constructor. by apply key_le_total.
      * destruct (key_le (key x) (key z)); constructor.
        -- by apply key_le_total.
        -- by apply HdRel_inv in Hhd.
Qed.

Lemma sort_values_sorted (l : list A) :
  StronglySorted (in_order key) (sort_values key l).
Proof.
  apply Sorted_StronglySorted.
  - intros a b c. unfold in_order. apply key_le_trans.
  - unfold sort_values. induction l as [|x l IH]; [constructor|].
    cbn [foldr]. by apply insert_by_sorted.
Qed.

Lemma insert_by_stable (k : datetime * option string) (x : A) (m : list A) :
  List.filter (same_key key k) (insert_by key x m)
  = List.filter (same_key key k) (x :: m).
Proof.
  induction m as [|y m IH]; [done|]. cbn [insert_by].
  destruct (key_le (key x) (key y)) eqn:E; [done|].
  cbn [List.filter] in *. rewrite IH. unfold same_key.
  destruct (bool_decide_reflect (key x = k)) as [Hx|Hx];
    destruct (bool_decide_reflect (key y = k)) as [Hy|Hy]; try done.
  rewrite Hx, Hy, key_le_refl in E. discriminate.
Qed.

(** Rows with a given key stay in the order they had. *)
Lemma sort_values_stable (k : datetime * option string) (l : list A) :
  List.filter (same_key key k) (sort_values key l)
  = List.filter (same_key key k) l.
Proof.
  unfold sort_values. induction l as [|x l IH]; [done|]. cbn [foldr].
  rewrite insert_by_stable. cbn [List.filter]. by rewrite IH.
Qed.

End Sorting.

Lemma increasing_filter {A : Type} (ix : A -> nat) (P : A -> bool)
    (l : list A) :
  increasing ix l -> increasing ix (List.filter P l).
Proof.
  unfold increasing. induction l as [|x l IH]; intros H; simpl; [done|].
  apply StronglySorted_inv in H as [Hs Hx].
  destruct (P x); simpl; [|by apply IH].
  constructor; [by apply IH|].
  rewrite List.Forall_forall in *. intros j Hj. apply Hx.
  apply in_map_iff in Hj as (y & <- & Hy). apply filter_In in Hy as [Hy _].
  apply in_map_iff. eauto.
Qed.

Lemma increasing_map {A B : Type} (ixa : A -> nat) (ixb : B -> nat)
    (f : A -> B) (l : list A) :
  (forall a, ixb (f a) = ixa a) ->
  increasing ixa l -> increasing ixb (map f l).
Proof.
  intros Hf. unfold increasing. rewrite map_map.
  by rewrite (map_ext _ ixa Hf).
Qed.

Lemma seq_sorted (a n : nat) : StronglySorted lt (seq a n).
Proof.
  revert a. induction n as [|n IH]; intros a; simpl; constructor; [apply IH|].
  apply List.Forall_forall. intros j Hj. apply in_seq in Hj. lia.
Qed.

Lemma increasing_frame (n : nat) (fo : list datetime)
    (ro no co do : list string) (ao : list float) :
  increasing idx (frame n fo ro no co do ao).
Proof.
  unfold increasing, frame. rewrite map_map. cbn [idx frame_row].
  rewrite map_id. apply seq_sorted.
Qed.

Lemma increasing_imap {A B : Type} (ix : B -> nat) (h : nat -> A -> B)
    (l : list A) :
  (forall j x, ix (h j x) = j) -> increasing ix (imap h l).
Proof.
  intros Hh. unfold increasing.
  change (map ix (imap h l)) with (ix <$> imap h l).
  rewrite fmap_imap, (imap_ext _ (fun j _ => j)) by (intros; apply Hh).
  rewrite (imap_seq_0 l (fun j => j)), list_fmap_id. apply seq_sorted.
Qed.

Lemma increasing_assign_dir (dirs : list direction) (rows : list base_row) :
  increasing idx rows -> increasing label (assign_dir dirs rows).
Proof.
  intros H. destruct rows as [|r rows].
  - by apply increasing_imap.
  - unfold assign_dir. by apply (increasing_map idx).
Qed.

Section SheetOrder.

Context {lib : Library}.

Lemma split_sheets_sorted (base : list base_row) (is_com is_imp : list bool)
    (dirs : list direction) :
  let s := split_sheets base is_com is_imp dirs in
  StronglySorted (in_order payment_key) (sh1 s)
  /\ StronglySorted (in_order payment_key) (sh2 s)
  /\ StronglySorted (in_order debit_key) (sh3 s)
  /\ StronglySorted (in_order debit_key) (sh4 s)
  /\ StronglySorted (in_order debit_key) (sh5 s).
Proof. repeat split; apply sort_values_sorted. Qed.

Lemma split_sheets_stable (base : list base_row) (is_com is_imp : list bool)
    (dirs : list direction) (k : datetime * option string) :
  increasing idx base ->
  let s := split_sheets base is_com is_imp dirs in
  increasing p_idx (List.filter (same_key payment_key k) (sh1 s))
  /\ increasing p_idx (List.filter (same_key payment_key k) (sh2 s))
  /\ increasing d_idx (List.filter (same_key debit_key k) (sh3 s))
  /\ increasing d_idx (List.filter (same_key debit_key k) (sh4 s))
  /\ increasing d_idx (List.filter (same_key debit_key k) (sh5 s)).
Proof.
  intros Hb s. unfold s, split_sheets; cbn [sh1 sh2 sh3 sh4 sh5].
  rewrite !sort_values_stable.
  assert (Hrem : increasing label
                   (assign_dir dirs
                      (select (series_not (series_or is_com is_imp)) base))).
  { apply increasing_assign_dir. unfold select. by apply increasing_filter. }
  repeat split; apply increasing_filter;
    first [ apply (increasing_map label); [done|];
            by apply increasing_filter
          | apply (increasing_map idx); [done|];
            unfold select; by apply increasing_filter ].
Qed.

(** X4.  Each of the five sheets of a run is sorted: a row stands before
    every later row in the order of [sort_values] on the date and the
    reference, that is, dated rows come before rows without a date, an
    earlier date before a later one, and within a date (or among the
    undated rows) the references are ascending as strings. *)
Theorem sheets_sorted_by_date_and_reference (st : session_state)
    (df : DataFrame) (shs : sheets) :
  process_dataframe st df = Ok shs ->
  StronglySorted (in_order payment_key) (sh1 shs)
  /\ StronglySorted (in_order payment_key) (sh2 shs)
  /\ StronglySorted (in_order debit_key) (sh3 shs)
  /\ StronglySorted (in_order debit_key) (sh4 shs)
  /\ StronglySorted (in_order debit_key) (sh5 shs).
Proof.
  intros H. apply process_inv in H as (amounts & dirs & _ & H).
  apply build_inv in H
    as (? & ? & ? & ? & ? & ? & ? & _ & _ & _ & _ & _ & _ & _ & ->).
  apply split_sheets_sorted.
Qed.

(** X5.  The sort of the sheets is stable: in each sheet the rows that
    share a date and a reference stand in the order of their index labels,
    that is, in the order of the input rows. *)
Theorem sheets_keep_input_order_on_ties (st : session_state)
    (df : DataFrame) (shs : sheets) (k : datetime * option string) :
  process_dataframe st df = Ok shs ->
  increasing p_idx (List.filter (same_key payment_key k) (sh1 shs))
  /\ increasing p_idx (List.filter (same_key payment_key k) (sh2 shs))
  /\ increasing d_idx (List.filter (same_key debit_key k) (sh3 shs))
  /\ increasing d_idx (List.filter (same_key debit_key k) (sh4 shs))
  /\ increasing d_idx (List.filter (same_key debit_key k) (sh5 shs)).
Proof.
  intros H. apply process_inv in H as (amounts & dirs & _ & H).
  apply build_inv in H
    as (? & ? & ? & ? & ? & ? & ? & _ & _ & _ & _ & _ & _ & _ & ->).
  apply split_sheets_stable, increasing_frame.
Qed.

End SheetOrder.

(** X4, witness: the four payments of [df_dated] come out as 01/01 C,
    02/01 B, 02/01 B, undated A. *)
Lemma sheets_sorted_by_date_and_reference_witness :
  exists shs,
    process_dataframe empty_session df_dated = Ok shs
    /\ map p_idx (sh1 shs) = [2; 0; 3; 1]
    /\ StronglySorted (in_order payment_key) (sh1 shs)
    /\ StronglySorted (in_order payment_key) (sh2 shs)
    /\ StronglySorted (in_order debit_key) (sh3 shs)
    /\ StronglySorted (in_order debit_key) (sh4 shs)
    /\ StronglySorted (in_order debit_key) (sh5 shs).
Proof.
  eexists. split; [vm_compute; reflexivity|].
  split; [vm_compute; reflexivity|].
  apply (sheets_sorted_by_date_and_reference empty_session df_dated).
  vm_compute; reflexivity.
Defined.

(** X5, witness: the two payments of 02/01/2024 with the reference [B]
    keep the order of the input, row 0 before row 3. *)
Lemma sheets_keep_input_order_on_ties_witness :
  exists shs k,
    process_dataframe empty_session df_dated = Ok shs
    /\ map p_idx (List.filter (same_key payment_key k) (sh1 shs)) = [0; 3]
    /\ increasing p_idx (List.filter (same_key payment_key k) (sh1 shs))
    /\ increasing p_idx (List.filter (same_key payment_key k) (sh2 shs))
    /\ increasing d_idx (List.filter (same_key debit_key k) (sh3 shs))
    /\ increasing d_idx (List.filter (same_key debit_key k) (sh4 shs))
    /\ increasing d_idx (List.filter (same_key debit_key k) (sh5 shs)).
Proof.
  eexists.
  exists (Some {| year := 2024; month := 1; day := 2;
                  hour := 0; minute := 0; second := 0 |}, Some "B").
  split; [vm_compute; reflexivity|].
  split; [vm_compute; reflexivity|].
  apply (sheets_keep_input_order_on_ties empty_session df_dated).
  vm_compute; reflexivity.
Defined.

(** ** What the rows of the sheets hold *)

Section SheetContent.

Context {lib : Library}.

Lemma text_at (cells : list cell) (n j : nat) :
  length cells = n -> j < n ->
  exists x, cells !! j = Some x
            /\ default "nan" (map str cells !! j) = str x.
Proof.
  intros L Hj. destruct (lookup_lt_is_Some_2 cells j) as [x Hx]; [lia|].
  exists x. split; [done|]. by rewrite list_lookup_fmap, Hx.
Qed.

(** X6.  A row of the fees or taxes sheet repeats the input row with its
    index label: its reference and description are the texts of the row's
    reference and description cells and its amount is the amount computed
    for the row.  When some row of the table holds no keyword, the rows of
    the received, paid and unidentified sheets repeat their input rows in
    the same way, with the texts of the name and tax id cells in the first
    two and the fixed description [Sin Identificacion] in the third.  When
    every row holds a keyword, the rows of those three sheets hold no
    input: every value but the index label (and the fixed description) is
    missing. *)
Theorem sheet_rows_repeat_the_input (st : session_state) (df : DataFrame)
    (fc rc nc cc dc : option string) (amounts : list float)
    (dirs : list direction) (shs : sheets) (key : string)
    (texts : list string) (refs names cuits dets : list cell) :
  build_output_sheets st df fc rc nc cc dc amounts dirs = Ok shs ->
  classification_column df dc rc = Ok key ->
  detalle_text df key = Ok texts ->
  column_or_blank df rc = Ok refs ->
  column_or_blank df nc = Ok names ->
  column_or_blank df cc = Ok cuits ->
  column_or_blank df dc = Ok dets ->
  (forall r, In r (sh3 shs) \/ In r (sh4 shs) ->
     exists x d,
       refs !! d_idx r = Some x /\ dets !! d_idx r = Some d
       /\ d_referencia r = Some (str x) /\ d_detalle r = str d
       /\ d_importe r = default Float.nan (amounts !! d_idx r))
  /\ (every_row_matches st texts = false ->
      (forall r, In r (sh1 shs) \/ In r (sh2 shs) ->
         exists x y z,
           refs !! p_idx r = Some x /\ names !! p_idx r = Some y
           /\ cuits !! p_idx r = Some z
           /\ p_referencia r = Some (str x) /\ p_nombre r = Some (str y)
           /\ p_cuit r = Some (str z)
           /\ p_importe r = default Float.nan (amounts !! p_idx r))
      /\ (forall r, In r (sh5 shs) ->
            exists x,
              refs !! d_idx r = Some x
              /\ d_referencia r = Some (str x)
              /\ d_detalle r = "Sin Identificacion"
              /\ d_importe r = default Float.nan (amounts !! d_idx r)))
  /\ (every_row_matches st texts = true ->
      (forall r, In r (sh1 shs) \/ In r (sh2 shs) -> added_payment r)
      /\ (forall r, In r (sh5 shs) ->
            added_debit r /\ d_detalle r = "Sin Identificacion")).
Proof.
  intros H Hk Ht Hr Hn Hc Hd.
  apply build_inv in H
    as (fo & refs' & names' & cuits' & dets' & key' & texts' & Hr' & Hn'
        & Hc' & Hd' & Hk' & Ht' & _ & ->).
  rewrite Hr in Hr'. injection Hr' as <-.
  rewrite Hn in Hn'. injection Hn' as <-.
  rewrite Hc in Hc'. injection Hc' as <-.
  rewrite Hd in Hd'. injection Hd' as <-.
  rewrite Hk in Hk'. injection Hk' as <-.
  rewrite Ht in Ht'. injection Ht' as <-.
  apply column_or_blank_length in Hr, Hn, Hc, Hd.
  assert (Lt := detalle_text_length _ _ _ Ht).
  assert (Hall := none_left_matches st texts). rewrite Lt in Hall.
  split; [|split].
  - intros r Hin. apply in_fee_tax_sheets in Hin as (j & Hj & ->). cbn.
    destruct (text_at refs _ j Hr Hj) as (x & Hx & ->).
    destruct (text_at dets _ j Hd Hj) as (d & Hdj & ->).
    by exists x, d.
  - intros Hm. split.
    + intros r Hin. apply in_payment_sheets in Hin.
      rewrite Hall, Hm in Hin. destruct Hin as (j & Hj & ->). cbn.
      destruct (text_at refs _ j Hr Hj) as (x & Hx & ->).
      destruct (text_at names _ j Hn Hj) as (y & Hy & ->).
      destruct (text_at cuits _ j Hc Hj) as (z & Hz & ->).
      by exists x, y, z.
    + intros r Hin. apply in_unidentified_sheet in Hin.
      rewrite Hall, Hm in Hin. destruct Hin as (j & Hj & ->). cbn.
      destruct (text_at refs _ j Hr Hj) as (x & Hx & ->).
      by exists x.
  - intros Hm. split.
    + intros r Hin. apply in_payment_sheets in Hin.
      rewrite Hall, Hm in Hin. by destruct Hin as (j & d & _ & ->).
    + intros r Hin. apply in_unidentified_sheet in Hin.
      rewrite Hall, Hm in Hin. by destruct Hin as (j & d & _ & ->).
Qed.

End SheetContent.

(** X6, witness: the sheets of [df_no_counterparty], built from the
    columns that [guess_columns] resolves and the amount 150.0. *)
Lemma sheet_rows_repeat_the_input_witness :
  exists shs (refs : list cell),
    build_output_sheets empty_session df_no_counterparty None
      (Some "detalle") None None (Some "detalle") [f_150] [dir_in] = Ok shs
    /\ every_row_matches empty_session ["pago factura 123"] = false
    /\ length (sh1 shs) = 1
    /\ (forall r, In r (sh5 shs) ->
          exists x,
            refs !! d_idx r = Some x
            /\ d_referencia r = Some (str x)
            /\ d_detalle r = "Sin Identificacion"
            /\ d_importe r = default Float.nan ([f_150] !! d_idx r)).
Proof.
  eexists. eexists.
  split; [vm_compute; reflexivity|].
  assert (Hm : every_row_matches empty_session ["pago factura 123"] = false)
    by (vm_compute; reflexivity).
  split; [exact Hm|].
  split; [vm_compute; reflexivity|].
  refine (proj2 (proj1 (proj2 (sheet_rows_repeat_the_input empty_session
                          df_no_counterparty None (Some "detalle") None None
                          (Some "detalle") [f_150] [dir_in] _ "detalle"
                          ["pago factura 123"] _ _ _ _ _ _ _ _ _ _ _))
                   Hm));
    vm_compute; reflexivity.
Defined.

(** ** Which sheets a row is in *)

Section Membership.

Context {lib : Library}.

(** X20.  The keywords decide before the direction does: a row whose
    lower-cased description holds a fee keyword is once in the fees sheet,
    and one whose description holds a tax keyword once in the taxes sheet,
    whatever the amount, the direction and the counterparty are.  When
    some row of the table holds no keyword, a row with a keyword is in no
    other sheet, and a row without keyword is in the received sheet
    exactly when its direction is "in", in the paid sheet exactly when it
    is "out", and in the unidentified sheet exactly when its direction is
    "zero" or its name and tax id are both blank.  When every row of the
    table holds a keyword, the index label of each row is once more in
    the received, the paid or the unidentified sheet, as its direction is
    "in", "out" or "zero". *)
Theorem keywords_decide_before_direction (st : session_state)
    (df : DataFrame) (fc rc nc cc dc : option string) (amounts : list float)
    (dirs : list direction) (shs : sheets) (key : string)
    (texts : list string) (names cuits : list cell) (i : nat) (t : string)
    (x y : cell) :
  build_output_sheets st df fc rc nc cc dc amounts dirs = Ok shs ->
  classification_column df dc rc = Ok key ->
  detalle_text df key = Ok texts ->
  column_or_blank df nc = Ok names ->
  column_or_blank df cc = Ok cuits ->
  texts !! i = Some t -> names !! i = Some x -> cuits !! i = Some y ->
  let fee := Str.any_in (fee_keywords st) t in
  let tax := Str.any_in (tax_keywords st) t in
  let all := every_row_matches st texts in
  occ d_idx i (sh3 shs) = b2n fee
  /\ occ d_idx i (sh4 shs) = b2n tax
  /\ occ p_idx i (sh1 shs)
     = b2n ((all || negb (fee || tax)) && dir_at dirs i dir_in)
  /\ occ p_idx i (sh2 shs)
     = b2n ((all || negb (fee || tax)) && dir_at dirs i dir_out)
  /\ occ d_idx i (sh5 shs)
     = b2n (if all then dir_at dirs i dir_zero
            else negb (fee || tax)
                 && (dir_at dirs i dir_zero || blank (str x) (str y))).
Proof.
  intros H Hk Ht Hn Hc Hi Hx Hy fee tax all.
  apply build_rows in H
    as (key' & texts' & names' & cuits' & Hk' & Ht' & Hn' & Hc' & _ & _ & _
        & _ & Hrow & _).
  rewrite Hk in Hk'. injection Hk' as <-.
  rewrite Ht in Ht'. injection Ht' as <-.
  rewrite Hn in Hn'. injection Hn' as <-.
  rewrite Hc in Hc'. injection Hc' as <-.
  destruct (Hrow i t x y Hi Hx Hy) as (H1 & H2 & H3 & H4 & H5).
  by repeat split.
Qed.

End Membership.

(** X20, witness: the row of [df_fee_and_tax], with a negative amount and
    a counterparty, is in the fees and the taxes sheet, and its label is
    once more in the paid sheet, since it is the only row. *)
Lemma keywords_decide_before_direction_witness :
  exists shs key texts names cuits,
    build_output_sheets empty_session df_fee_and_tax None (Some "detalle")
      (Some "nombre") (Some "cuit") (Some "detalle") [f_minus_50] [dir_out]
    = Ok shs
    /\ classification_column df_fee_and_tax (Some "detalle")
         (Some "detalle") = Ok key
    /\ detalle_text df_fee_and_tax key = Ok texts
    /\ column_or_blank df_fee_and_tax (Some "nombre") = Ok names
    /\ column_or_blank df_fee_and_tax (Some "cuit") = Ok cuits
    /\ texts !! 0 = Some "comision iva"
    /\ names !! 0 = Some (CStr "Banco")
    /\ cuits !! 0 = Some (CStr "30-1-1")
    /\ occ d_idx 0 (sh3 shs) = 1 /\ occ d_idx 0 (sh4 shs) = 1
    /\ occ p_idx 0 (sh1 shs) = 0 /\ occ p_idx 0 (sh2 shs) = 1
    /\ occ d_idx 0 (sh5 shs) = 0.
Proof.
  eexists. eexists. eexists. eexists. eexists.
  split; [vm_compute; reflexivity|].
  split; [vm_compute; reflexivity|].
  split; [vm_compute; reflexivity|].
  split; [vm_compute; reflexivity|].
  split; [vm_compute; reflexivity|].
  split; [vm_compute; reflexivity|].
  split; [vm_compute; reflexivity|].
  split; [vm_compute; reflexivity|].
  apply (keywords_decide_before_direction empty_session df_fee_and_tax None
           (Some "detalle") (Some "nombre") (Some "cuit") (Some "detalle")
           [f_minus_50] [dir_out] _ "detalle" ["comision iva"]
           [CStr "Banco"] [CStr "30-1-1"] 0 "comision iva" (CStr "Banco")
           (CStr "30-1-1"));
    vm_compute; reflexivity.
Defined.

(** ** Number texts without a comma *)

Lemma contains_char_cons (ch c : ascii) (s : string) :
  Str.contains (String ch "") (String c s)
  = Ascii.eqb ch c || Str.contains (String ch "") s.
Proof. simpl. by rewrite andb_true_r. Qed.

Lemma contains_char_remove (ch d : ascii) (s : string) :
  Str.contains (String ch "") s = false ->
  Str.contains (String ch "") (Str.remove_char d s) = false.
Proof.
  induction s as [|c s IH]; [done|]. rewrite contains_char_cons.
  intros H. apply orb_false_iff in H as [Hc Hs]. cbn [Str.remove_char].
  destruct (Ascii.eqb c d); [by apply IH|].
  rewrite contains_char_cons, Hc. by apply IH.
Qed.

Lemma search_thousands_comma (s : string) :
  search_thousands s = true -> Str.contains "," s = true.
Proof.
  induction s as [|c s IH]; [done|]. cbn [search_thousands].
  rewrite contains_char_cons. intros H.
  apply orb_true_iff in H as [H|H].
  - destruct s as [|co s]; [done|]. rewrite contains_char_cons.
    unfold thousands_at in H. destruct s as [|? [|? [|? ?]]]; try done.
    apply andb_true_iff in H as [H _]. apply andb_true_iff in H as [H _].
    apply andb_true_iff in H as [H _]. apply andb_true_iff in H as [_ H].
    apply Ascii.eqb_eq in H as ->. by rewrite orb_true_r.
  - rewrite (IH H). by rewrite orb_true_r.
Qed.

Lemma replace_char_absent (a b : ascii) (s : string) :
  Str.contains (String a "") s = false -> Str.replace_char a b s = s.
Proof.
  induction s as [|c s IH]; [done|]. rewrite contains_char_cons.
  intros H. apply orb_false_iff in H as [Hc Hs]. cbn [Str.replace_char].
  rewrite Ascii.eqb_sym, Hc. by rewrite IH.
Qed.

Lemma remove_char_comm (a b : ascii) (s : string) :
  Str.remove_char a (Str.remove_char b s)
  = Str.remove_char b (Str.remove_char a s).
Proof.
  induction s as [|c s IH]; [done|]. cbn [Str.remove_char].
  destruct (Ascii.eqb c b) eqn:Eb, (Ascii.eqb c a) eqn:Ea;
    cbn [Str.remove_char]; rewrite ?Ea, ?Eb, ?IH; done.
Qed.

Lemma remove_char_twice (a : ascii) (s : string) :
  Str.remove_char a (Str.remove_char a s) = Str.remove_char a s.
Proof.
  induction s as [|c s IH]; [done|]. cbn [Str.remove_char].
  destruct (Ascii.eqb c a) eqn:Ea; cbn [Str.remove_char];
    rewrite ?Ea, ?IH; done.
Qed.

Lemma normalize_without_comma (s : string) :
  Str.contains "," s = false ->
  normalize_number_text s = Str.remove_char "." (Str.remove_char " " s).
Proof.
  intros H. unfold normalize_number_text.
  assert (Hc : Str.contains "," (Str.remove_char " " s) = false)
    by by apply contains_char_remove.
  destruct (search_thousands (Str.remove_char " " s)) eqn:Es.
  { apply search_thousands_comma in Es. congruence. }
  cbn [andb]. apply replace_char_absent. by apply contains_char_remove.
Qed.

Section NumberText.

Context {lib : Library}.

(** X7.  In a text without a comma a dot is never a decimal point: the
    text handed to [float] is the text without its blanks and dots, so the
    cell parses to the same number as the cell with the dots deleted. *)
Theorem dot_without_comma_is_dropped (s : string) :
  Str.contains "," s = false ->
  normalize_number_text s = Str.remove_char "." (Str.remove_char " " s)
  /\ parse_num (CStr s) = parse_num (CStr (Str.remove_char "." s)).
Proof.
  intros H. split; [by apply normalize_without_comma|].
  unfold parse_num. cbn [isna str].
  rewrite (normalize_without_comma s H).
  rewrite (normalize_without_comma (Str.remove_char "." s))
    by by apply contains_char_remove.
  by rewrite (remove_char_comm " " "."), remove_char_twice.
Qed.

End NumberText.

(** X7, witness: the text [12.5] parses to 125.0. *)
Lemma dot_without_comma_is_dropped_witness :
  Str.contains "," "12.5" = false
  /\ normalize_number_text "12.5" = "125"
  /\ parse_num (CStr "12.5") = parse_num (CStr "125").
Proof.
  assert (H : Str.contains "," "12.5" = false) by reflexivity.
  split; [exact H|]. exact (dot_without_comma_is_dropped "12.5" H).
Defined.

(** ** A credit or debit column alone *)

Section LoneColumn.

Context {lib : Library}.

(** X8.  A credit column without a debit column (or the reverse) is not
    read: when no amount column resolved either, the amount computed for
    every row is 0.0.  So every row of the fees and taxes sheets has the
    amount 0.0, and every row of the other three sheets has the amount 0.0
    or is a row of missing values (from a table in which every row holds a
    keyword). *)
Theorem lone_credit_or_debit_column_is_ignored (st : session_state)
    (df : DataFrame) (shs : sheets) :
  process_dataframe st df = Ok shs ->
  importe_col (guess_columns (columns (stripped df))) = None ->
  credito_col (guess_columns (columns (stripped df))) = None
  \/ debito_col (guess_columns (columns (stripped df))) = None ->
  (exists dirs,
     let g := guess_columns (columns (stripped df)) in
     detect_direction_and_amount (stripped df) (importe_col g)
       (credito_col g) (debito_col g) (tipo_col g)
     = Ok (repeat Float.zero (len df), dirs))
  /\ (forall r, In r (sh3 shs) \/ In r (sh4 shs) ->
        d_importe r = Float.zero)
  /\ (forall r, In r (sh1 shs) \/ In r (sh2 shs) ->
        p_importe r = Float.zero \/ added_payment r)
  /\ (forall r, In r (sh5 shs) ->
        d_importe r = Float.zero \/ added_debit r).
Proof.
  intros H Hi Hcd. apply process_inv in H as (amounts & dirs & Hd & Hb).
  assert (Hb2 : truthy (credito_col (guess_columns (columns (stripped df))))
                && truthy (debito_col
                             (guess_columns (columns (stripped df))))
                = false).
  { destruct Hcd as [->| ->]; [done|]. by rewrite andb_false_r. }
  pose proof Hd as Hd'.
  apply detect_inv in Hd as (_ & _ & _ & _ & _ & Hz & _).
  specialize (Hz Hi Hb2). subst amounts.
  change (len (stripped df)) with (len df) in *.
  apply build_rows in Hb
    as (key & texts & _ & _ & _ & _ & _ & _ & _ & _ & _ & _ & _ & _ & Hp
        & Hfee & Hun).
  change (len (stripped df)) with (len df) in *.
  split; [by exists dirs|]. split; [|split].
  - intros r Hr. destruct (Hfee r Hr) as [Hlt ->]. by rewrite repeat_lookup.
  - intros r Hr. specialize (Hp r Hr).
    destruct (every_row_matches st texts); [right; by destruct Hp|].
    left. destruct Hp as [Hlt ->]. by rewrite repeat_lookup.
  - intros r Hr. specialize (Hun r Hr).
    destruct (every_row_matches st texts); [right; by destruct Hun|].
    left. destruct Hun as [Hlt ->]. by rewrite repeat_lookup.
Qed.

End LoneColumn.

(** X8, witness: a credit of 100,00 of type [credito] is received with
    the amount 0.0. *)
Lemma lone_credit_or_debit_column_is_ignored_witness :
  exists shs,
    process_dataframe empty_session df_credit_only = Ok shs
    /\ importe_col (guess_columns (columns (stripped df_credit_only))) = None
    /\ debito_col (guess_columns (columns (stripped df_credit_only))) = None
    /\ length (sh1 shs) = 1
    /\ (forall r, In r (sh3 shs) \/ In r (sh4 shs) ->
                  d_importe r = Float.zero).
Proof.
  eexists. split; [vm_compute; reflexivity|].
  do 3 (split; [vm_compute; reflexivity|]).
  refine (proj1 (proj2 (lone_credit_or_debit_column_is_ignored empty_session
                          df_credit_only _ _ _ _)));
    [vm_compute; reflexivity|vm_compute; reflexivity|].
  right. vm_compute. reflexivity.
Defined.

(** ** The form of a slug *)

Ltac each_char c :=
  destruct c as [[] [] [] [] [] [] [] []]; vm_compute; try reflexivity;
  try discriminate; auto.

Lemma nfkd_char_ascii (c : ascii) : all_chars ascii7 (nfkd_ascii_char c) = true.
Proof. each_char c. Qed.

Lemma nfkd_char_fixed (c : ascii) :
  ascii7 c = true -> nfkd_ascii_char c = String c "".
Proof. unfold nfkd_ascii_char, ascii7. by intros ->. Qed.

Lemma lower_char_lowered (c : ascii) :
  ascii7 c = true -> lowered (Str.lower_char c) = true.
Proof. each_char c. Qed.

Lemma lowered_alnum (c : ascii) :
  lowered c = true -> Str.isalnum_ascii c = true ->
  slug_char c = true /\ underscore c = false.
Proof. each_char c. Qed.

Lemma slug_char_cases (c : ascii) :
  slug_char c = true ->
  ascii7 c = true /\ Str.isspace c = false /\ Str.lower_char c = c
  /\ Str.isalnum_ascii c = negb (underscore c).
Proof. each_char c. Qed.

Lemma all_chars_app (p : ascii -> bool) (s t : string) :
  all_chars p (s ++ t) = all_chars p s && all_chars p t.
Proof.
  induction s as [|c s IH]; simpl; [done|]. by rewrite IH, andb_assoc.
Qed.

Lemma all_chars_impl (p q : ascii -> bool) (s : string) :
  (forall c, p c = true -> q c = true) ->
  all_chars p s = true -> all_chars q s = true.
Proof.
  intros Hpq. induction s as [|c s IH]; simpl; [done|].
  intros H. apply andb_true_iff in H as [Hc Hs].
  by rewrite (Hpq c Hc), IH.
Qed.

Lemma nfkd_ascii_all (s : string) : all_chars ascii7 (nfkd_ascii s) = true.
Proof.
  induction s as [|c s IH]; simpl; [done|].
  by rewrite all_chars_app, nfkd_char_ascii, IH.
Qed.

Lemma lower_all (s : string) :
  all_chars ascii7 s = true -> all_chars lowered (Str.lower s) = true.
Proof.
  induction s as [|c s IH]; simpl; [done|]. intros H.
  apply andb_true_iff in H as [Hc Hs].
  by rewrite lower_char_lowered, IH.
Qed.

(** The text after the substitution of the runs. *)
Lemma re_sub_form (b : bool) (t : string) :
  all_chars lowered t = true ->
  let u := re_sub_nonalnum b t in
  all_chars slug_char u = true /\ no_run underscore u = true
  /\ (b = true -> first_is underscore u = false).
Proof.
  revert b. induction t as [|c t IH]; intros b H; simpl; [done|].
  simpl in H. apply andb_true_iff in H as [Hc Ht].
  destruct (Str.isalnum_ascii c) eqn:Ea.
  - destruct (lowered_alnum c Hc Ea) as [Hs Hu].
    destruct (IH false Ht) as (H1 & H2 & _). simpl.
    by rewrite Hs, Hu, H1, H2.
  - destruct b.
    + apply (IH true Ht).
    + destruct (IH true Ht) as (H1 & H2 & H3). simpl.
      rewrite H1, H2, (H3 eq_refl). repeat split; done.
Qed.

Section Strip.

Variable p : ascii -> bool.

Lemma lstrip_form (q : ascii -> bool) (s : string) :
  let u := Str.lstrip_with p s in
  first_is p u = false
  /\ (all_chars q s = true -> all_chars q u = true)
  /\ (no_run q s = true -> no_run q u = true).
Proof.
  induction s as [|c s IH]; simpl; [done|].
  destruct (p c) eqn:Ec.
  - destruct IH as (H1 & H2 & H3). split; [done|]. split; intros H.
    + apply andb_true_iff in H as [_ H]. auto.
    + apply andb_true_iff in H as [_ H]. auto.
  - simpl. by rewrite Ec.
Qed.

Lemma rstrip_form (q : ascii -> bool) (s : string) :
  let u := Str.rstrip_with p s in
  last_is p u = false
  /\ first_is q u = first_is q s && negb (String.eqb u "")
  /\ (all_chars q s = true -> all_chars q u = true)
  /\ (no_run q s = true -> no_run q u = true).
Proof.
  induction s as [|c s IH]; simpl; [done|].
  destruct IH as (H1 & H2 & H3 & H4).
  destruct (Str.rstrip_with p s) as [|d u] eqn:Eu.
  - destruct (p c) eqn:Ec; simpl.
    + rewrite andb_false_r. repeat split; done.
    + rewrite Ec, andb_true_r. repeat split; try done.
      * intros H. by apply andb_true_iff in H as [-> _].
      * intros _. by rewrite andb_false_r.
  - simpl in *. rewrite andb_true_r in *. split; [done|]. split; [done|].
    split; intros H; apply andb_true_iff in H as [Hc Hs].
    + by rewrite Hc, (H3 Hs).
    + by rewrite (H4 Hs), andb_true_r, H2.
Qed.

Lemma lstrip_fixed (s : string) :
  first_is p s = false -> Str.lstrip_with p s = s.
Proof. destruct s as [|c s]; simpl; [done|]. by intros ->. Qed.

Lemma rstrip_fixed (s : string) :
  last_is p s = false -> Str.rstrip_with p s = s.
Proof.
  induction s as [|c s IH]; simpl; [done|].
  destruct s as [|d s]; [by intros ->|]. intros H. by rewrite (IH H).
Qed.

End Strip.

Lemma no_space_ends (s : string) :
  all_chars slug_char s = true ->
  first_is Str.isspace s = false /\ last_is Str.isspace s = false.
Proof.
  induction s as [|c s IH]; simpl; [done|]. intros H.
  apply andb_true_iff in H as [Hc Hs].
  destruct (slug_char_cases c Hc) as (_ & Hsp & _).
  split; [done|]. destruct s as [|d s]; [done|]. by apply IH.
Qed.

Lemma nfkd_ascii_fixed (s : string) :
  all_chars slug_char s = true -> nfkd_ascii s = s.
Proof.
  induction s as [|c s IH]; simpl; [done|]. intros H.
  apply andb_true_iff in H as [Hc Hs].
  destruct (slug_char_cases c Hc) as (H7 & _).
  by rewrite (nfkd_char_fixed c H7), IH.
Qed.

Lemma lower_fixed (s : string) :
  all_chars slug_char s = true -> Str.lower s = s.
Proof.
  induction s as [|c s IH]; simpl; [done|]. intros H.
  apply andb_true_iff in H as [Hc Hs].
  destruct (slug_char_cases c Hc) as (_ & _ & -> & _). by rewrite IH.
Qed.

Lemma re_sub_fixed (b : bool) (s : string) :
  all_chars slug_char s = true -> no_run underscore s = true ->
  (b = true -> first_is underscore s = false) ->
  re_sub_nonalnum b s = s.
Proof.
  revert b. induction s as [|c s IH]; intros b Ha Hn Hb; simpl; [done|].
  simpl in Ha, Hn. apply andb_true_iff in Ha as [Hc Hs].
  apply andb_true_iff in Hn as [Hcn Hsn].
  destruct (slug_char_cases c Hc) as (_ & _ & _ & ->).
  destruct (underscore c) eqn:Eu; simpl.
  - destruct b.
    { specialize (Hb eq_refl). simpl in Hb. congruence. }
    simpl in Hcn. apply negb_true_iff in Hcn.
    rewrite (IH true Hs Hsn (fun _ => Hcn)).
    unfold underscore in Eu. by apply Ascii.eqb_eq in Eu as <-.
  - by rewrite (IH false Hs Hsn).
Qed.

Lemma slug_unfold (s : string) :
  _slug s =
  Str.rstrip_with underscore
    (Str.lstrip_with underscore
       (re_sub_nonalnum false (Str.lower (nfkd_ascii (Str.strip s))))).
Proof. reflexivity. Qed.

(** The slug of any text is in slug form. *)
Lemma slug_form (s : string) : is_slug (_slug s) = true.
Proof.
  rewrite slug_unfold. unfold is_slug.
  set (t := Str.lower (nfkd_ascii (Str.strip s))).
  assert (Ht : all_chars lowered t = true) by apply lower_all, nfkd_ascii_all.
  destruct (re_sub_form false t Ht) as (Ha & Hn & _).
  set (u := re_sub_nonalnum false t) in *.
  destruct (lstrip_form underscore slug_char u) as (L1 & L2 & _).
  destruct (lstrip_form underscore underscore u) as (_ & _ & L3).
  set (v := Str.lstrip_with underscore u) in *.
  destruct (rstrip_form underscore slug_char v) as (R1 & _ & R3 & _).
  destruct (rstrip_form underscore underscore v) as (_ & R2 & _ & R4).
  rewrite R1, R2, L1, (R3 (L2 Ha)), (R4 (L3 Hn)). done.
Qed.

(** A text in slug form is its own slug. *)
Lemma slug_of_slug_form (u : string) : is_slug u = true -> _slug u = u.
Proof.
  unfold is_slug. intros H.
  apply andb_true_iff in H as [H Hn]. apply andb_true_iff in H as [H Hl].
  apply andb_true_iff in H as [Ha Hf].
  apply negb_true_iff in Hl, Hf.
  destruct (no_space_ends u Ha) as [S1 S2].
  rewrite slug_unfold. unfold Str.strip, Str.strip_with.
  rewrite (lstrip_fixed _ u S1), (rstrip_fixed _ u S2).
  rewrite (nfkd_ascii_fixed u Ha), (lower_fixed u Ha).
  rewrite (re_sub_fixed false u Ha Hn) by done.
  by rewrite (lstrip_fixed _ u Hf), (rstrip_fixed _ u Hl).
Qed.

(** X9.  Whatever the header is, its slug consists of lower-case ASCII
    letters, digits and underscores only, does not begin or end with an
    underscore and has no two underscores in a row. *)
Theorem slug_alphabet (s : string) :
  all_chars slug_char (_slug s) = true
  /\ first_is underscore (_slug s) = false
  /\ last_is underscore (_slug s) = false
  /\ no_run underscore (_slug s) = true.
Proof.
  assert (H := slug_form s). unfold is_slug in H.
  apply andb_true_iff in H as [H Hn]. apply andb_true_iff in H as [H Hl].
  apply andb_true_iff in H as [Ha Hf].
  apply negb_true_iff in Hl, Hf. done.
Qed.

(** X10.  [_slug] is idempotent, and every text in slug form (such as
    each candidate of [guess_columns]) is the slug of itself, so a header
    written as a candidate resolves to that candidate. *)
Theorem slug_idempotent :
  (forall s, _slug (_slug s) = _slug s)
  /\ (forall u, is_slug u = true -> _slug u = u)
  /\ (forall r c, In c (candidates r) -> _slug c = c).
Proof.
  split; [intros s; apply slug_of_slug_form, slug_form|].
  split; [exact slug_of_slug_form|].
  intros r c Hc. apply slug_of_slug_form.
  destruct r; simpl in Hc;
    repeat (destruct Hc as [<-|Hc]; [vm_compute; reflexivity|]); done.
Qed.

(** ** The keyword boxes *)

Lemma lower_char_cases (c : ascii) :
  Str.lower_char (Str.lower_char c) = Str.lower_char c
  /\ Str.isspace (Str.lower_char c) = Str.isspace c
  /\ not_comma (Str.lower_char c) = not_comma c.
Proof. each_char c. Qed.

Lemma lower_twice (s : string) : Str.lower (Str.lower s) = Str.lower s.
Proof.
  induction s as [|c s IH]; simpl; [done|].
  destruct (lower_char_cases c) as (-> & _). by rewrite IH.
Qed.

Lemma lower_keeps (p : ascii -> bool) (s : string) :
  (forall c, p (Str.lower_char c) = p c) ->
  all_chars p (Str.lower s) = all_chars p s
  /\ first_is p (Str.lower s) = first_is p s
  /\ last_is p (Str.lower s) = last_is p s.
Proof.
  intros Hp. induction s as [|c s (H1 & H2 & H3)]; simpl; [done|].
  rewrite Hp, H1. split; [done|]. split; [done|].
  destruct s as [|d s]; [done|]. done.
Qed.

Lemma lower_empty (s : string) : Str.lower s = "" -> s = "".
Proof. by destruct s. Qed.

Lemma split_on_pieces (sep : ascii) (s : string) :
  split_on sep s <> []
  /\ Forall (fun piece =>
               all_chars (fun c => negb (Ascii.eqb c sep)) piece = true)
       (split_on sep s).
Proof.
  induction s as [|c s [Hne IH]]; simpl.
  - split; [done|]. by repeat constructor.
  - destruct (Ascii.eqb c sep) eqn:Ec.
    + split; [done|]. by constructor.
    + destruct (split_on sep s) as [|piece pieces]; [done|].
      split; [done|]. apply Forall_cons in IH as [Hp Hps].
      constructor; [|done]. simpl. by rewrite Ec, Hp.
Qed.

Lemma strip_keeps (q : ascii -> bool) (s : string) :
  all_chars q s = true -> all_chars q (Str.strip s) = true.
Proof.
  intros H. unfold Str.strip, Str.strip_with.
  destruct (lstrip_form Str.isspace q s) as (_ & L & _).
  destruct (rstrip_form Str.isspace q (Str.lstrip_with Str.isspace s))
    as (_ & _ & R & _).
  auto.
Qed.

Lemma strip_ends (s : string) :
  first_is Str.isspace (Str.strip s) = false
  /\ last_is Str.isspace (Str.strip s) = false.
Proof.
  unfold Str.strip, Str.strip_with.
  destruct (lstrip_form Str.isspace Str.isspace s) as (L & _).
  destruct (rstrip_form Str.isspace Str.isspace
              (Str.lstrip_with Str.isspace s)) as (R1 & R2 & _).
  split; [|done]. by rewrite R2, L.
Qed.

Lemma parse_keywords_clean (text : string) :
  Forall (fun k => clean_keyword k = true) (parse_keywords text).
Proof.
  unfold parse_keywords. apply List.Forall_forall. intros k Hk.
  apply in_map_iff in Hk as (piece & <- & Hp).
  apply filter_In in Hp as [Hin Hne].
  destruct (split_on_pieces "," text) as [_ Hall].
  rewrite List.Forall_forall in Hall. specialize (Hall piece Hin).
  change (fun c => negb (Ascii.eqb c ",")) with not_comma in Hall.
  destruct (strip_ends piece) as [S1 S2].
  destruct (lower_keeps Str.isspace (Str.strip piece)) as (_ & F & L).
  { intros c. apply lower_char_cases. }
  destruct (lower_keeps not_comma (Str.strip piece)) as (A & _).
  { intros c. apply lower_char_cases. }
  unfold clean_keyword.
  rewrite A, (strip_keeps not_comma piece Hall), F, L, S1, S2, lower_twice,
    String.eqb_refl.
  destruct (String.eqb_spec (Str.lower (Str.strip piece)) "") as [E|E];
    [|done].
  apply lower_empty in E. rewrite E in Hne. done.
Qed.

Lemma contains_nonempty_in_empty (k : string) :
  k <> "" -> Str.contains k "" = false.
Proof. by destruct k. Qed.

(** X11.  Every keyword that the page stores is clean: it is not empty,
    holds no comma, has no white space at either end and is lower-case.
    So a stored keyword list never matches an empty description. *)
Theorem stored_keywords_are_clean (fee_text tax_text : string) :
  let st := store_keywords fee_text tax_text in
  Forall (fun k => clean_keyword k = true) (fee_keywords st)
  /\ Forall (fun k => clean_keyword k = true) (tax_keywords st)
  /\ Str.any_in (fee_keywords st) "" = false
  /\ Str.any_in (tax_keywords st) "" = false.
Proof.
  assert (Hempty : forall text, Str.any_in (parse_keywords text) "" = false).
  { intros text. unfold Str.any_in.
    apply not_true_iff_false. rewrite existsb_exists.
    intros (k & Hk & Hc).
    assert (Hclean := parse_keywords_clean text).
    rewrite List.Forall_forall in Hclean. specialize (Hclean k Hk).
    rewrite contains_nonempty_in_empty in Hc; [done|].
    intros ->. discriminate Hclean. }
  intros st. subst st. unfold fee_keywords, tax_keywords, store_keywords.
  cbn [kw_comisiones kw_impuestos default].
  split; [apply parse_keywords_clean|]. split; [apply parse_keywords_clean|].
  split; apply Hempty.
Qed.

Lemma split_on_free (sep : ascii) (k t : string) :
  all_chars (fun c => negb (Ascii.eqb c sep)) k = true ->
  split_on sep (k ++ String sep t) = k :: split_on sep t
  /\ split_on sep k = [k].
Proof.
  induction k as [|c k IH]; simpl.
  - by rewrite Ascii.eqb_refl.
  - intros H. apply andb_true_iff in H as [Hc Hk].
    apply negb_true_iff in Hc. rewrite Hc.
    destruct (IH Hk) as [-> ->]. done.
Qed.

Lemma split_join (sep : ascii) (l : list string) :
  l <> [] ->
  Forall (fun k => all_chars (fun c => negb (Ascii.eqb c sep)) k = true) l ->
  split_on sep (join_with sep l) = l.
Proof.
  induction l as [|k l IH]; [done|]. intros _ H.
  apply Forall_cons in H as [Hk Hl].
  destruct l as [|k2 l].
  - simpl. by apply split_on_free.
  - change (join_with sep (k :: k2 :: l))
      with (k ++ String sep (join_with sep (k2 :: l))).
    destruct (split_on_free sep k (join_with sep (k2 :: l)) Hk) as [-> _].
    by rewrite IH.
Qed.

Lemma clean_keyword_inv (k : string) :
  clean_keyword k = true ->
  k <> "" /\ all_chars not_comma k = true /\ Str.strip k = k
  /\ Str.lower k = k.
Proof.
  unfold clean_keyword. intros H.
  apply andb_true_iff in H as [H Hl]. apply andb_true_iff in H as [H Hr].
  apply andb_true_iff in H as [H Hf]. apply andb_true_iff in H as [Hn Hc].
  apply negb_true_iff in Hr, Hf, Hn. apply String.eqb_eq in Hl.
  apply String.eqb_neq in Hn. repeat split; try done.
  unfold Str.strip, Str.strip_with.
  by rewrite (lstrip_fixed _ k Hf), (rstrip_fixed _ k Hr).
Qed.

(** X12.  Typing clean keywords separated by commas into a box and
    reading the box back gives the same keywords in the same order. *)
Theorem keyword_box_round_trip (kws : list string) :
  Forall (fun k => clean_keyword k = true) kws ->
  parse_keywords (join_with "," kws) = kws.
Proof.
  intros H. destruct kws as [|k0 kws0] eqn:E; [done|]. rewrite <- E in *.
  unfold parse_keywords. rewrite split_join.
  - clear E. induction kws as [|k kws IH]; [done|].
    apply Forall_cons in H as [Hk Hl].
    destruct (clean_keyword_inv k Hk) as (Hn & _ & Hs & Hlow).
    cbn [List.filter]. rewrite Hs.
    destruct (String.eqb_spec k "") as [|_]; [done|].
    cbn [negb map]. by rewrite Hs, Hlow, IH.
  - by rewrite E.
  - eapply Forall_impl; [exact H|]. intros k Hk.
    by destruct (clean_keyword_inv k Hk) as (_ & Hc & _).
Qed.

(** X12, witness: two keywords, one of them of two words. *)
Lemma keyword_box_round_trip_witness :
  Forall (fun k => clean_keyword k = true) ["iva"; "ley 25413"]
  /\ join_with "," ["iva"; "ley 25413"] = "iva,ley 25413"
  /\ parse_keywords (join_with "," ["iva"; "ley 25413"])
     = ["iva"; "ley 25413"].
Proof.
  assert (H : Forall (fun k => clean_keyword k = true) ["iva"; "ley 25413"])
    by (repeat constructor).
  split; [exact H|]. split; [reflexivity|].
  exact (keyword_box_round_trip ["iva"; "ley 25413"] H).
Defined.

Section EmptyBox.

Context {lib : Library}.

(** X13.  When the stored fee list is empty (a fee box left blank), the
    fees sheet of the run is empty: the defaults are used only while
    nothing is stored; likewise for the tax list and the taxes sheet. *)
Theorem empty_keyword_list_switches_category_off (st : session_state)
    (df : DataFrame) (shs : sheets) :
  process_dataframe st df = Ok shs ->
  (kw_comisiones st = Some [] -> sh3 shs = [])
  /\ (kw_impuestos st = Some [] -> sh4 shs = []).
Proof.
  intros H. apply process_inv in H as (amounts & dirs & _ & Hb).
  apply build_rows in Hb
    as (key & texts & names & cuits & _ & _ & _ & _ & Lt & Ln & Lc & _
        & Hrow & Hout & _).
  assert (Hcase : forall i,
    (exists t x y, texts !! i = Some t /\ names !! i = Some x
                   /\ cuits !! i = Some y)
    \/ len (stripped df) <= i).
  { intros i. destruct (Nat.lt_ge_cases i (len (stripped df))) as [Hi|Hi];
      [left|by right].
    destruct (lookup_lt_is_Some_2 texts i) as [t Ht]; [lia|].
    destruct (lookup_lt_is_Some_2 names i) as [x Hx]; [lia|].
    destruct (lookup_lt_is_Some_2 cuits i) as [y Hy]; [lia|].
    by exists t, x, y. }
  split; intros Hk; apply (occ_nil_all d_idx); intros i;
    (destruct (Hcase i) as [(t & x & y & Ht & Hx & Hy)|Hi];
     [destruct (Hrow i t x y Ht Hx Hy) as (_ & _ & H3 & H4 & _)
     |by destruct (Hout i Hi) as (? & ? & _)]).
  - rewrite H3. unfold fee_keywords. by rewrite Hk.
  - rewrite H4. unfold tax_keywords. by rewrite Hk.
Qed.

End EmptyBox.

(** X13, witness: a fee box of blanks and commas. *)
Lemma empty_keyword_list_switches_category_off_witness :
  exists shs,
    process_dataframe (store_keywords " , ," "iva") df_fee_and_tax = Ok shs
    /\ kw_comisiones (store_keywords " , ," "iva") = Some []
    /\ sh3 shs = [] /\ length (sh4 shs) = 1.
Proof.
  eexists. split; [vm_compute; reflexivity|].
  split; [vm_compute; reflexivity|].
  split; [|vm_compute; reflexivity].
  apply (empty_keyword_list_switches_category_off
           (store_keywords " , ," "iva") df_fee_and_tax);
    vm_compute; reflexivity.
Defined.

(** ** Headers that differ in case or outer blanks *)

Lemma lower_app (a b : string) :
  Str.lower (a ++ b) = Str.lower a ++ Str.lower b.
Proof. induction a as [|c a IH]; simpl; [done|]. by rewrite IH. Qed.

Lemma nfkd_lower_char (c : ascii) :
  Str.lower (nfkd_ascii_char (Str.lower_char c))
  = Str.lower (nfkd_ascii_char c).
Proof. each_char c. Qed.

Lemma nfkd_lower (s : string) :
  Str.lower (nfkd_ascii (Str.lower s)) = Str.lower (nfkd_ascii s).
Proof.
  induction s as [|c s IH]; simpl; [done|].
  by rewrite !lower_app, nfkd_lower_char, IH.
Qed.

Lemma lstrip_lower (s : string) :
  Str.lstrip_with Str.isspace (Str.lower s)
  = Str.lower (Str.lstrip_with Str.isspace s).
Proof.
  induction s as [|c s IH]; simpl; [done|].
  destruct (lower_char_cases c) as (_ & -> & _).
  by destruct (Str.isspace c).
Qed.

Lemma rstrip_lower (s : string) :
  Str.rstrip_with Str.isspace (Str.lower s)
  = Str.lower (Str.rstrip_with Str.isspace s).
Proof.
  induction s as [|c s IH]; simpl; [done|]. rewrite IH.
  destruct (lower_char_cases c) as (_ & -> & _).
  destruct (Str.rstrip_with Str.isspace s); simpl; [|done].
  by destruct (Str.isspace c).
Qed.

Lemma strip_lower (s : string) :
  Str.strip (Str.lower s) = Str.lower (Str.strip s).
Proof.
  unfold Str.strip, Str.strip_with. by rewrite lstrip_lower, rstrip_lower.
Qed.

Lemma strip_twice (s : string) : Str.strip (Str.strip s) = Str.strip s.
Proof.
  destruct (strip_ends s) as [F L]. unfold Str.strip at 1, Str.strip_with.
  by rewrite (lstrip_fixed _ _ F), (rstrip_fixed _ _ L).
Qed.

Lemma slug_lower (s : string) : _slug (Str.lower s) = _slug s.
Proof. by rewrite !slug_unfold, strip_lower, nfkd_lower. Qed.

Lemma slug_strip (s : string) : _slug (Str.strip s) = _slug s.
Proof. by rewrite !slug_unfold, strip_twice. Qed.

Section Renaming.

Variable f : string -> string.
Hypothesis slug_f : forall s, _slug (f s) = _slug s.

Lemma headers_with_slug_map (cols : list string) (k : string) :
  headers_with_slug (map f cols) k = map f (headers_with_slug cols k).
Proof.
  unfold headers_with_slug. rewrite filter_map_comm.
  f_equal. induction cols as [|c cols IH]; simpl; [done|].
  by rewrite slug_f, IH.
Qed.

Lemma last_header_map (cols cands : list string) :
  last_header_by_priority (map f cols) cands
  = f <$> last_header_by_priority cols cands.
Proof.
  induction cands as [|c cands IH]; simpl; [done|].
  rewrite headers_with_slug_map.
  change (map f (headers_with_slug cols c))
    with (f <$> headers_with_slug cols c).
  rewrite fmap_last.
  by destruct (last (headers_with_slug cols c)).
Qed.

Lemma guess_columns_map (cols : list string) (r : role) :
  role_col (guess_columns (map f cols)) r
  = f <$> role_col (guess_columns cols) r.
Proof.
  destruct r; unfold guess_columns, role_col; cbv zeta;
    cbn [fecha_col ref_col nombre_col cuit_col detalle_col importe_col
         credito_col debito_col tipo_col];
    rewrite !find_by_priority, ?last_header_map; try done.
  destruct (last_header_by_priority cols (candidates Detalle)); [done|].
  cbn [fmap option_fmap option_map].
  destruct (last_header_by_priority cols (candidates Referencia)) as [h|]
    eqn:Er.
  - assert (Hf : last_header_by_priority (map f cols) (candidates Referencia)
                 = Some (f h)) by (by rewrite last_header_map, Er).
    cbn [fmap option_fmap option_map].
    by rewrite (resolved_reference_truthy _ _ Er),
      (resolved_reference_truthy _ _ Hf).
  - cbn [fmap option_fmap option_map truthy]. by destruct cols.
Qed.

End Renaming.

(** X21.  Column resolution does not depend on the case of the headers
    nor on white space around them: a header and its lower-case form have
    the same slug, as have a header and its stripped form, and on the
    lower-cased (or stripped) headers [guess_columns] chooses for every
    role the lower-cased (or stripped) form of the header that it chooses
    on the headers as written. *)
Theorem headers_match_in_any_case (cols : list string) (r : role) :
  (forall s, _slug (Str.lower s) = _slug s)
  /\ (forall s, _slug (Str.strip s) = _slug s)
  /\ role_col (guess_columns (map Str.lower cols)) r
     = Str.lower <$> role_col (guess_columns cols) r
  /\ role_col (guess_columns (map Str.strip cols)) r
     = Str.strip <$> role_col (guess_columns cols) r.
Proof.
  split; [exact slug_lower|]. split; [exact slug_strip|]. split.
  - apply guess_columns_map, slug_lower.
  - apply guess_columns_map, slug_strip.
Qed.

(** ** The report *)

Lemma column_after_from (calls : list sheet_call) (c : nat)
    (st : option (nat * option cell_format)) :
  foldl (fun st call =>
           match call with
           | SetColumn a b w f =>
               if (a <=? c)%nat && (c <=? b)%nat then Some (w, f) else st
           | _ => st
           end) st calls
  = match column_after calls c with
    | Some s => Some s
    | None => st
    end.
Proof.
  unfold column_after. induction calls as [|x calls IH] using rev_ind.
  - done.
  - rewrite !foldl_app. cbn [foldl]. rewrite IH.
    destruct x as [| a b w f |]; try done.
    by destruct ((a <=? c)%nat && (c <=? b)%nat).
Qed.

Lemma column_after_app (calls1 calls2 : list sheet_call) (c : nat) :
  column_after (calls1 ++ calls2) c
  = match column_after calls2 c with
    | Some s => Some s
    | None => column_after calls1 c
    end.
Proof.
  unfold column_after at 1. rewrite foldl_app.
  fold (column_after calls1 c). apply column_after_from.
Qed.

Lemma column_after_cons (call : sheet_call) (calls : list sheet_call)
    (c : nat) :
  column_after (call :: calls) c
  = match column_after calls c with
    | Some s => Some s
    | None => column_after [call] c
    end.
Proof. apply (column_after_app [call]). Qed.

Lemma column_after_one (a w c : nat) (f : option cell_format) :
  column_after [SetColumn a a w f] c = if (a =? c)%nat then Some (w, f) else None.
Proof.
  unfold column_after. cbn [foldl].
  destruct (Nat.eqb_spec a c) as [->|Hn].
  - by rewrite Nat.leb_refl.
  - destruct (Nat.leb_spec a c), (Nat.leb_spec c a); try done. lia.
Qed.

Lemma column_after_headers (names : list string) (k c : nat) :
  column_after
    (imap (fun col_num col_name => Write 0 (k + col_num) col_name Bold) names)
    c = None.
Proof.
  revert k. induction names as [|x names IH]; intros k; [done|].
  rewrite imap_cons, column_after_cons.
  rewrite (imap_ext _ (fun col_num col_name =>
                         Write 0 (S k + col_num) col_name Bold)).
  - by rewrite IH.
  - intros i y _. cbn. f_equal. lia.
Qed.

Lemma column_after_widths (W : string -> nat) (names : list string)
    (k c : nat) :
  column_after
    (imap (fun idx col => SetColumn (k + idx) (k + idx) (W col) None) names)
    (k + c)
  = (fun col => (W col, None)) <$> names !! c.
Proof.
  revert k c. induction names as [|x names IH]; intros k c; [done|].
  rewrite imap_cons, column_after_cons.
  rewrite (imap_ext _ (fun idx col =>
                         SetColumn (S k + idx) (S k + idx) (W col) None)).
  2: { intros i y _. cbn. f_equal; lia. }
  destruct c as [|c].
  - replace (k + 0) with k by lia.
    change ((x :: names) !! 0) with (Some x).
    cbn [fmap option_fmap option_map].
    assert (Hn : column_after
                   (imap (fun idx col =>
                            SetColumn (S k + idx) (S k + idx) (W col) None)
                      names) k = None).
    { clear IH. generalize (S k) (Nat.lt_succ_diag_r k).
      induction names as [|y names IH]; intros m Hm; [done|].
      rewrite imap_cons, column_after_cons.
      rewrite (imap_ext _ (fun idx col =>
                             SetColumn (S m + idx) (S m + idx) (W col) None)).
      2: { intros i z _. cbn. f_equal; lia. }
      rewrite IH by lia. rewrite column_after_one.
      destruct (Nat.eqb_spec (m + 0) k); [lia|done]. }
    rewrite Hn, column_after_one.
    replace (k + 0) with k by lia. by rewrite Nat.eqb_refl.
  - replace (k + S c) with (S k + c) by lia. rewrite IH.
    change ((x :: names) !! S c) with (names !! c).
    destruct (names !! c) as [y|]; [done|].
    cbn [fmap option_fmap option_map]. rewrite column_after_one.
    destruct (Nat.eqb_spec (k + 0) (S k + c)); [lia|done].
Qed.

Lemma position_Some (name : string) (names : list string) (k : nat) :
  position name names = Some k -> names !! k = Some name.
Proof.
  revert k. induction names as [|x names IH]; intros k; [done|].
  cbn [position]. destruct (String.eqb_spec x name) as [->|Hn].
  - by intros [= <-].
  - destruct (position name names) as [j|]; [|done].
    intros [= <-]. by apply IH.
Qed.

Lemma position_lookup (names : list string) (i : nat) (l : string) :
  NoDup names -> names !! i = Some l -> position l names = Some i.
Proof.
  revert i. induction names as [|x names IH]; intros i Hnd Hi; [done|].
  apply NoDup_cons in Hnd as [Hx Hnd]. cbn [position].
  destruct i as [|i].
  - injection Hi as ->. by rewrite String.eqb_refl.
  - cbn in Hi. destruct (String.eqb_spec x l) as [->|Hn].
    + exfalso. apply Hx. by eapply list_elem_of_lookup_2.
    + by rewrite (IH i Hnd Hi).
Qed.

Lemma column_after_format (df : text_frame) (names : list string)
    (w : nat) (fmt : cell_format) (i : nat) (l : string) :
  NoDup (labels df) -> labels df !! i = Some l ->
  column_after (format_columns df names w fmt) i
  = if bool_decide (l ∈ names) then Some (w, Some fmt) else None.
Proof.
  intros Hnd Hi. unfold format_columns.
  induction names as [|x names IH] using rev_ind.
  - done.
  - rewrite flat_map_app, column_after_app. cbn [flat_map].
    rewrite app_nil_r.
    destruct (decide (x = l)) as [->|Hn].
    + rewrite (position_lookup _ _ _ Hnd Hi), column_after_one, Nat.eqb_refl.
      rewrite bool_decide_eq_true_2; [done|].
      apply elem_of_app. right. by apply list_elem_of_singleton.
    + assert (Hx : column_after
                     match position x (labels df) with
                     | Some col_idx =>
                         [SetColumn col_idx col_idx w (Some fmt)]
                     | None => []
                     end i = None).
      { destruct (position x (labels df)) as [k|] eqn:Hk; [|done].
        rewrite column_after_one. destruct (Nat.eqb_spec k i) as [->|]; [|done].
        apply position_Some in Hk. congruence. }
      rewrite Hx, IH.
      rewrite (bool_decide_ext (l ∈ names) (l ∈ (names ++ [x])%list));
        [done|].
      rewrite elem_of_app, list_elem_of_singleton.
      split; [by left|]. intros [?|?]; [done|congruence].
Qed.

Lemma column_after_autosize (df : text_frame) (dcs mcs : list string)
    (i : nat) (l : string) :
  NoDup (labels df) -> labels df !! i = Some l ->
  column_after (autosize_and_formats df dcs mcs) i
  = Some (if bool_decide (l ∈ mcs) then (14, Some MoneyFormat)
          else if bool_decide (l ∈ dcs) then (12, Some DateFormat)
          else (Nat.min (max_len l (column_texts df l) + 2) 60, None)).
Proof.
  intros Hnd Hi. unfold autosize_and_formats.
  rewrite !column_after_app.
  rewrite (column_after_format df mcs _ _ i l Hnd Hi).
  destruct (bool_decide (l ∈ mcs)); [done|].
  rewrite (column_after_format df dcs _ _ i l Hnd Hi).
  destruct (bool_decide (l ∈ dcs)); [done|].
  change (column_after [Autofilter _ _ _ _] i) with (@None (nat * option cell_format)).
  pose proof (column_after_widths
                (fun col => Nat.min (max_len col (column_texts df col) + 2) 60)
                (labels df) 0 i) as Hw.
  cbn [Nat.add] in Hw. rewrite Hw, Hi. done.
Qed.

Lemma max_len_label (label : string) (values : list string) :
  String.length label <= max_len label values.
Proof. unfold max_len. cbn [foldr]. lia. Qed.

Lemma In_imap {A B : Type} (f : nat -> A -> B) (l : list A) (y : B) :
  In y (imap f l) -> exists i x, l !! i = Some x /\ y = f i x.
Proof.
  revert f. induction l as [|a l IH]; intros f; [done|].
  rewrite imap_cons. intros [<-|H].
  - by exists 0, a.
  - apply IH in H as (i & x & Hi & ->). by exists (S i), x.
Qed.

Lemma In_format_columns (df : text_frame) (names : list string)
    (w : nat) (fmt : cell_format) (call : sheet_call) :
  In call (format_columns df names w fmt) ->
  exists k name, labels df !! k = Some name /\ In name names
                 /\ call = SetColumn k k w (Some fmt).
Proof.
  unfold format_columns. rewrite in_flat_map. intros (name & Hn & H).
  destruct (position name (labels df)) as [k|] eqn:Hk; [|done].
  destruct H as [<-|[]]. apply position_Some in Hk. by exists k, name.
Qed.

(** X14.  In a frame with distinct labels, the calls of
    [autosize_and_formats] leave every column with a setting: a column
    named among the money columns ends 14 wide with the money format,
    whether or not it is also named among the date columns; any other
    column named among the date columns ends 12 wide with the date format;
    every remaining column has no format and the width of its longest text
    among the label and the first 1000 values, plus 2, capped at 60. *)
Theorem formats_override_autosize (df : text_frame)
    (date_cols money_cols : list string) (i : nat) (l : string) :
  NoDup (labels df) -> labels df !! i = Some l ->
  column_after (autosize_and_formats df date_cols money_cols) i
  = Some (if bool_decide (l ∈ money_cols) then (14, Some MoneyFormat)
          else if bool_decide (l ∈ date_cols) then (12, Some DateFormat)
          else (Nat.min (max_len l (column_texts df l) + 2) 60, None)).
Proof. apply column_after_autosize. Qed.

(** X14, witness: in [tf_two_columns] the amount column, named as a date
    and as a money column, ends with the money format. *)
Lemma formats_override_autosize_witness :
  NoDup (labels tf_two_columns)
  /\ labels tf_two_columns !! 1 = Some "importe"
  /\ column_after
       (autosize_and_formats tf_two_columns ["importe"] ["importe"]) 1
     = Some (14, Some MoneyFormat).
Proof.
  assert (Hnd : NoDup (labels tf_two_columns)).
  { apply (bool_decide_unpack _). vm_compute. exact I. }
  split; [exact Hnd|]. split; [reflexivity|].
  exact (formats_override_autosize tf_two_columns ["importe"] ["importe"] 1
           "importe" Hnd eq_refl).
Defined.

(** X15.  Every [set_column] call of [autosize_and_formats] is on one
    single column of the frame, with a width of at least 2 and at most 60;
    an unformatted one is at least 2 wider than the column label unless the
    cap of 60 applies. *)
Theorem set_column_calls_stay_in_the_frame (df : text_frame)
    (date_cols money_cols : list string) (a b w : nat)
    (f : option cell_format) :
  In (SetColumn a b w f) (autosize_and_formats df date_cols money_cols) ->
  a = b
  /\ (exists l, labels df !! a = Some l
                /\ (f = None -> Nat.min (String.length l + 2) 60 <= w))
  /\ 2 <= w <= 60.
Proof.
  unfold autosize_and_formats. rewrite !in_app_iff.
  intros [H|[H|[H|[H|H]]]].
  - apply In_imap in H as (? & ? & _ & ?). done.
  - apply In_imap in H as (i & x & Hi & [= -> -> -> ->]).
    pose proof (max_len_label x (column_texts df x)).
    split; [done|]. split; [|lia]. exists x. split; [done|]. lia.
  - by destruct H as [?|[]].
  - apply In_format_columns in H as (k & name & Hk & _ & [= -> -> -> ->]).
    split; [done|]. split; [|lia]. by exists name.
  - apply In_format_columns in H as (k & name & Hk & _ & [= -> -> -> ->]).
    split; [done|]. split; [|lia]. by exists name.
Qed.

(** X15, witness: the autosize call on the first column of
    [tf_two_columns], whose label has 10 characters. *)
Lemma set_column_calls_stay_in_the_frame_witness :
  In (SetColumn 0 0 12 None)
    (autosize_and_formats tf_two_columns ["importe"] ["importe"])
  /\ 0 = 0
  /\ (exists l, labels tf_two_columns !! 0 = Some l
                /\ (@None cell_format = None ->
                    Nat.min (String.length l + 2) 60 <= 12))
  /\ 2 <= 12 <= 60.
Proof.
  assert (H : In (SetColumn 0 0 12 None)
                (autosize_and_formats tf_two_columns ["importe"]
                   ["importe"])).
  { vm_compute. right. right. left. reflexivity. }
  split; [exact H|].
  exact (set_column_calls_stay_in_the_frame tf_two_columns ["importe"]
           ["importe"] 0 0 12 None H).
Defined.

Section Workbook.

Context {lib : Library}.

(** X16.  The workbook of a set of five sheets has the five sheet names in
    the order received, paid, fees, taxes, unidentified, and the column
    names that [to_excel_bytes] formats are the ones that
    [build_output_sheets] gives the sheets: in every sheet the first
    column, the date, ends 12 wide with the date format, the last column,
    the amount, ends 14 wide with the money format, and each column in
    between has no format and a width of at most 60. *)
Theorem workbook_formats_date_and_amount (date_text : datetime -> string)
    (shs : sheets) :
  map sheet_name (to_excel_bytes (sheet_frames date_text shs)) = sheet_names
  /\ map written (to_excel_bytes (sheet_frames date_text shs))
     = sheet_frames date_text shs
  /\ Forall (fun ws =>
               let n := length (labels (written ws)) in
               column_after (calls ws) 0 = Some (12, Some DateFormat)
               /\ column_after (calls ws) (n - 1)
                  = Some (14, Some MoneyFormat)
               /\ forall i, 0 < i < n - 1 ->
                    exists w, column_after (calls ws) i = Some (w, None)
                              /\ w <= 60)
       (to_excel_bytes (sheet_frames date_text shs)).
Proof.
  split; [done|]. split; [done|].
  unfold to_excel_bytes, sheet_frames, sheet_names, sheet_date_cols,
    sheet_money_cols. cbn [zip4].
  repeat apply Forall_cons_2; [..|apply Forall_nil_2];
    cbn [written calls payment_frame debit_frame labels length Nat.sub];
    (split; [|split]).
  all: try (intros i Hi;
            assert (Hc : i = 1 \/ i = 2 \/ i = 3) by lia;
            destruct Hc as [->|[->| ->]]; try lia).
  all: match goal with
       | |- context [column_after (autosize_and_formats ?df ?dcs ?mcs) ?i] =>
           let H := fresh in
           let l := eval vm_compute in (default EmptyString (labels df !! i)) in
           assert (H : NoDup (labels df))
             by (apply (bool_decide_unpack _); vm_compute; exact I);
           rewrite (column_after_autosize df dcs mcs i l H eq_refl)
       end.
  all: try done.
  all: eexists; split; [reflexivity|]; apply Nat.le_min_r.
Qed.

End Workbook.

(** ** The standalone script *)

Section AppFacts.

Import App.

Context {lib : Library}.

Lemma assign_lookup (mask : list bool) (v : string) (tipo : list string)
    (j : nat) :
  assign mask v tipo !! j
  = match mask !! j, tipo !! j with
    | Some m, Some t => Some (if m : bool then v else t)
    | _, _ => None
    end.
Proof.
  revert tipo j. induction mask as [|m mask IH]; intros [|t tipo] [|j];
    try done.
  - cbn. by destruct (mask !! j).
  - cbn [assign].
    change ((?a :: ?l) !! S j) with (l !! j).
    change ((?a :: ?l) !! S j) with (l !! j).
    change ((?a :: ?l) !! S j) with (l !! j). apply IH.
Qed.

Lemma has_column_In (c : string) (df : DataFrame) :
  has_column c df = true <-> In c (columns df).
Proof.
  unfold has_column. rewrite existsb_exists. split.
  - intros (x & Hx & He). apply String.eqb_eq in He. by subst.
  - intros H. exists c. split; [done|]. apply String.eqb_refl.
Qed.

Lemma getitem_has (df : DataFrame) (c : string) :
  has_column c df = true -> exists cells, getitem df c = Ok cells.
Proof. intros H. by apply getitem_in, has_column_In. Qed.

Lemma getitem_has_not (df : DataFrame) (c : string) :
  has_column c df = false -> getitem df c = Raise KeyError.
Proof.
  unfold has_column, getitem. induction (columns df) as [|l labels IH];
    [done|].
  cbn [existsb position]. rewrite String.eqb_sym.
  destruct (String.eqb l c); [done|]. cbn [orb]. intros H.
  specialize (IH H). by destruct (position c labels).
Qed.

Lemma mapM_numeric (f : cell -> option bool) (amounts : list cell) :
  (forall x, is_Some (f x) <-> numeric x = true) ->
  is_Some (mapM f amounts) <-> forallb numeric amounts = true.
Proof.
  intros Hf. rewrite List.forallb_forall. split.
  - intros [k Hk] x Hx. apply mapM_Some in Hk.
    apply list_elem_of_In, list_elem_of_lookup in Hx as [j Hj].
    eapply Forall2_lookup_l in Hk as (y & _ & Hy); [|exact Hj].
    apply Hf. by exists y.
  - intros H. induction amounts as [|x amounts IH].
    + by exists [].
    + destruct IH as [k Hk]; [intros y Hy; apply H; by right|].
      destruct (proj2 (Hf x)) as [b Hb]; [apply H; by left|].
      exists (b :: k). cbn. by rewrite Hb, Hk.
Qed.

Lemma gt_zero_numeric (x : cell) : is_Some (gt_zero x) <-> numeric x = true.
Proof. destruct x; cbn; split; try done; by intros [? ?]. Qed.

Lemma lt_zero_numeric (x : cell) : is_Some (lt_zero x) <-> numeric x = true.
Proof. destruct x; cbn; split; try done; by intros [? ?]. Qed.

(** What a run that writes a report went through. *)
Lemma run_inv (df : DataFrame) (rep : report) :
  run df = inr rep ->
  exists cells amounts positive negative,
    getitem (normalized df) "concepto" = Ok cells
    /\ getitem (normalized df) "importe" = Ok amounts
    /\ mapM gt_zero amounts = Some positive
    /\ mapM lt_zero amounts = Some negative
    /\ rep = build_report
               (length (columns_named (normalized df) "fecha"))
               (length (columns_named (normalized df) "referencia"))
               (movements (len df) (columns_named (normalized df) "fecha")
                  (columns_named (normalized df) "referencia")
                  (map concepto_text cells) amounts
                  (assign negative "Pago Realizado"
                     (assign positive "Pago Recibido"
                        (tipo_by_keyword (len df)
                           (map concepto_text cells))))).
Proof.
  unfold run. fold (normalized df). intros H.
  destruct (negb (has_column "concepto" (normalized df))
            || negb (has_column "importe" (normalized df))); [done|].
  destruct (several (normalized df) "concepto"); [done|].
  destruct (getitem (normalized df) "concepto") as [cells|]; [|done].
  destruct (getitem (normalized df) "importe") as [amounts|]; [|done].
  destruct (several (normalized df) "importe"); [done|].
  destruct (mapM gt_zero amounts) as [positive|] eqn:Hp; [|done].
  destruct (mapM lt_zero amounts) as [negative|] eqn:Hn; [|done].
  destruct (several (normalized df) "tipo"); [done|].
  destruct (negb (has_column "fecha" (normalized df))
            || negb (has_column "referencia" (normalized df))); [done|].
  injection H as <-.
  exists cells, amounts, positive, negative.
  repeat split; done.
Qed.

(** The value of [tipo] of one row after the four assignments. *)
Lemma tipo_at (n : nat) (cells amounts : list cell)
    (positive negative : list bool) (j : nat) (c x : cell) :
  length cells = n -> length amounts = n ->
  mapM gt_zero amounts = Some positive ->
  mapM lt_zero amounts = Some negative ->
  cells !! j = Some c -> amounts !! j = Some x ->
  exists pos neg,
    gt_zero x = Some pos /\ lt_zero x = Some neg
    /\ assign negative "Pago Realizado"
         (assign positive "Pago Recibido"
            (tipo_by_keyword n (map concepto_text cells))) !! j
       = Some (if neg then "Pago Realizado"
               else if pos then "Pago Recibido"
               else if es_impuesto (concepto_text c) then "Impuesto"
               else if es_comision (concepto_text c) then "Comision"
               else "Sin Identificacion").
Proof.
  intros Lc La Hp Hn Hc Hx.
  apply mapM_Some in Hp, Hn.
  eapply Forall2_lookup_l in Hp as (pos & Hpj & Hpos); [|exact Hx].
  eapply Forall2_lookup_l in Hn as (neg & Hnj & Hneg); [|exact Hx].
  exists pos, neg. split; [done|]. split; [done|].
  assert (Hj : j < n) by (rewrite <- Lc; by eapply lookup_lt_Some).
  unfold tipo_by_keyword.
  rewrite !assign_lookup, Hnj, Hpj, !list_lookup_fmap, Hc. cbn.
  rewrite (repeat_lookup _ _ _ Hj). cbn.
  by destruct neg, pos, (es_impuesto (concepto_text c)),
    (es_comision (concepto_text c)).
Qed.

Lemma count_with_tipo (f : movement -> nat * list cell) (v : string)
    (n : nat) (fecha referencia : list (list cell)) (concepto : list string)
    (amounts : list cell) (tipo : list string) (i : nat) :
  (forall m, fst (f m) = m_idx m) ->
  occ fst i
    (map f (with_tipo v (movements n fecha referencia concepto amounts tipo)))
  = b2n ((i <? n)%nat && String.eqb (default "nan" (tipo !! i)) v).
Proof.
  intros Hf. rewrite (occ_map m_idx) by done.
  unfold with_tipo, movements.
  by rewrite (occ_filter_seq m_idx) by done.
Qed.

(** The five counts of one index label in the report of a run. *)
Lemma counts_at (df : DataFrame) (rep : report) (i : nat) :
  run df = inr rep ->
  (len df <= i ->
   count i (pagos_realizados rep) = 0 /\ count i (pagos_recibidos rep) = 0
   /\ count i (impuestos rep) = 0 /\ count i (comisiones rep) = 0
   /\ count i (sin_identificar rep) = 0)
  /\ (i < len df ->
      exists cells amounts c x pos neg,
        getitem (normalized df) "concepto" = Ok cells
        /\ getitem (normalized df) "importe" = Ok amounts
        /\ cells !! i = Some c /\ amounts !! i = Some x
        /\ gt_zero x = Some pos /\ lt_zero x = Some neg
        /\ count i (pagos_realizados rep) = b2n neg
        /\ count i (pagos_recibidos rep) = b2n (negb neg && pos)
        /\ count i (impuestos rep)
           = b2n (negb neg && negb pos && es_impuesto (concepto_text c))
        /\ count i (comisiones rep)
           = b2n (negb neg && negb pos
                  && negb (es_impuesto (concepto_text c))
                  && es_comision (concepto_text c))
        /\ count i (sin_identificar rep)
           = b2n (negb neg && negb pos
                  && negb (es_impuesto (concepto_text c))
                  && negb (es_comision (concepto_text c)))).
Proof.
  intros H.
  apply run_inv in H
    as (cells & amounts & positive & negative & Hc & Ha & Hp & Hn & ->).
  unfold count, build_report;
    cbn [pagos_recibidos pagos_realizados comisiones impuestos
         sin_identificar body].
  rewrite !count_with_tipo by done.
  split.
  - intros Hi. destruct (Nat.ltb_spec i (len df)); [lia|]. by cbn.
  - intros Hi. destruct (Nat.ltb_spec i (len df)); [|lia]. cbn [andb].
    pose proof (getitem_length _ _ _ Hc) as Lc.
    pose proof (getitem_length _ _ _ Ha) as La.
    change (len (normalized df)) with (len df) in Lc, La.
    destruct (lookup_lt_is_Some_2 cells i) as [c Hci]; [lia|].
    destruct (lookup_lt_is_Some_2 amounts i) as [x Hxi]; [lia|].
    destruct (tipo_at (len df) cells amounts positive negative i c x Lc La
                Hp Hn Hci Hxi) as (pos & neg & Hpos & Hneg & ->).
    exists cells, amounts, c, x, pos, neg.
    do 6 (split; [done|]). cbn [default].
    by destruct neg, pos, (es_impuesto (concepto_text c)),
      (es_comision (concepto_text c)).
Qed.

Lemma sum_upto_ones (n : nat) : sum_upto (fun _ => 1) n = n.
Proof. induction n as [|n IH]; simpl; lia. Qed.

(** How a run ends, by the columns of the table and its amounts. *)
Lemma run_cases (df : DataFrame) :
  let nd := normalized df in
  (has_column "concepto" nd && has_column "importe" nd = false ->
   run df = inl StStop)
  /\ (has_column "concepto" nd && has_column "importe" nd = true ->
      several nd "concepto" = true -> run df = inl RaiseAttributeError)
  /\ (has_column "concepto" nd && has_column "importe" nd = true ->
      several nd "concepto" = false -> several nd "importe" = false ->
      amounts_numeric df = false -> run df = inl RaiseTypeError)
  /\ (has_column "concepto" nd && has_column "importe" nd = true ->
      several nd "concepto" = false -> several nd "importe" = false ->
      several nd "tipo" = false ->
      amounts_numeric df = true ->
      has_column "fecha" nd && has_column "referencia" nd = false ->
      run df = inl RaiseKeyError)
  /\ (has_column "concepto" nd && has_column "importe" nd = true ->
      several nd "concepto" = false -> several nd "importe" = false ->
      several nd "tipo" = false ->
      amounts_numeric df = true ->
      has_column "fecha" nd && has_column "referencia" nd = true ->
      exists rep, run df = inr rep).
Proof.
  intros nd. unfold run, amounts_numeric. fold (normalized df). fold nd.
  destruct (has_column "concepto" nd) eqn:Hc;
    [|by repeat split; intros; try done].
  destruct (has_column "importe" nd) eqn:Hi;
    [|by repeat split; intros; try done].
  cbn [negb orb andb].
  split; [done|].
  destruct (several nd "concepto"); [by repeat split|].
  split; [done|].
  destruct (getitem_has _ _ Hc) as [cells ->].
  destruct (getitem_has _ _ Hi) as [amounts ->].
  destruct (several nd "importe"); [by repeat split|].
  pose proof (mapM_numeric gt_zero amounts gt_zero_numeric) as Hgt.
  pose proof (mapM_numeric lt_zero amounts lt_zero_numeric) as Hlt.
  destruct (forallb numeric amounts).
  - destruct (proj2 Hgt eq_refl) as [positive ->].
    destruct (proj2 Hlt eq_refl) as [negative ->].
    split; [done|].
    destruct (several nd "tipo"); [by split|].
    destruct (has_column "fecha" nd && has_column "referencia" nd) eqn:Hfr.
    + apply andb_prop in Hfr as [-> ->]. cbn [negb orb].
      split; [done|]. intros _ _ _ _ _ _. by eexists.
    + assert (negb (has_column "fecha" nd)
              || negb (has_column "referencia" nd) = true) as ->.
      { by destruct (has_column "fecha" nd), (has_column "referencia" nd). }
      by split.
  - destruct (mapM gt_zero amounts) as [positive|] eqn:Hp.
    { assert (Hs : is_Some (Some positive)) by done.
      apply Hgt in Hs. done. }
    by repeat split.
Qed.

Lemma mapM_label_text (labels : list string) :
  mapM label_text (map CStr labels) = Some labels.
Proof.
  induction labels as [|l labels IH]; [done|]. cbn. by rewrite IH.
Qed.

Lemma mapM_label_other (labels : list cell) (x : cell) :
  In x labels -> (forall s, x <> CStr s) -> mapM label_text labels = None.
Proof.
  intros Hin Hx. induction labels as [|l labels IH]; [done|].
  cbn. destruct Hin as [->|Hin].
  - destruct x; try done. by destruct (Hx s).
  - rewrite (IH Hin). by destruct (label_text l).
Qed.

(** X17.  In the report of the standalone script the sign of the amount
    decides before the keywords do: a row with a negative amount is in the
    payments made and a row with a positive amount in the payments
    received, whatever its text says; only a row whose amount is neither
    (zero or missing) is classified by its text, as a tax when the text
    holds a tax keyword, else as a fee when it holds a fee keyword, else as
    unidentified. *)
Theorem script_sign_decides_before_keywords (df : DataFrame) (rep : report)
    (cells amounts : list cell) (i : nat) (c x : cell) :
  run df = inr rep ->
  getitem (normalized df) "concepto" = Ok cells ->
  getitem (normalized df) "importe" = Ok amounts ->
  cells !! i = Some c -> amounts !! i = Some x ->
  exists pos neg,
    gt_zero x = Some pos /\ lt_zero x = Some neg
    /\ count i (pagos_realizados rep) = b2n neg
    /\ count i (pagos_recibidos rep) = b2n (negb neg && pos)
    /\ count i (impuestos rep)
       = b2n (negb neg && negb pos && es_impuesto (concepto_text c))
    /\ count i (comisiones rep)
       = b2n (negb neg && negb pos && negb (es_impuesto (concepto_text c))
              && es_comision (concepto_text c))
    /\ count i (sin_identificar rep)
       = b2n (negb neg && negb pos && negb (es_impuesto (concepto_text c))
              && negb (es_comision (concepto_text c))).
Proof.
  intros H Hc Ha Hci Hxi.
  assert (Hi : i < len df).
  { apply getitem_length in Hc. change (len (normalized df)) with (len df) in Hc.
    rewrite <- Hc. by eapply lookup_lt_Some. }
  destruct (proj2 (counts_at df rep i H) Hi)
    as (cells' & amounts' & c' & x' & pos & neg & Hc' & Ha' & Hci' & Hxi'
        & Hrest).
  rewrite Hc in Hc'. injection Hc' as <-.
  rewrite Ha in Ha'. injection Ha' as <-.
  rewrite Hci in Hci'. injection Hci' as <-.
  rewrite Hxi in Hxi'. injection Hxi' as <-.
  by exists pos, neg.
Qed.

(** X18.  The five frames of the standalone script split the rows of the
    table: every input row is in exactly one frame, once, no other index
    label appears, and the five row counts add up to the number of input
    rows. *)
Theorem script_row_in_exactly_one_frame (df : DataFrame) (rep : report) :
  run df = inr rep ->
  (forall i, i < len df -> App.appearances i rep = 1)
  /\ (forall i, len df <= i -> App.appearances i rep = 0)
  /\ App.rows_total rep = len df.
Proof.
  intros H.
  assert (Hin : forall i, i < len df -> App.appearances i rep = 1).
  { intros i Hi. unfold App.appearances.
    destruct (proj2 (counts_at df rep i H) Hi)
      as (_ & _ & c & _ & pos & neg & _ & _ & _ & _ & _ & _ & -> & -> & ->
          & -> & ->).
    by destruct neg, pos, (es_impuesto (concepto_text c)),
      (es_comision (concepto_text c)). }
  assert (Hout : forall i, len df <= i -> App.appearances i rep = 0).
  { intros i Hi.
    destruct (proj1 (counts_at df rep i H) Hi) as (H1 & H2 & H3 & H4 & H5).
    unfold App.appearances. by rewrite H1, H2, H3, H4, H5. }
  split; [done|]. split; [done|].
  unfold App.rows_total.
  rewrite (length_sum_occ fst (body (pagos_recibidos rep)) (len df)),
    (length_sum_occ fst (body (pagos_realizados rep)) (len df)),
    (length_sum_occ fst (body (comisiones rep)) (len df)),
    (length_sum_occ fst (body (impuestos rep)) (len df)),
    (length_sum_occ fst (body (sin_identificar rep)) (len df)).
  2-6: intros i Hi; specialize (Hout i Hi);
       unfold App.appearances, count in Hout; lia.
  rewrite <- !sum_upto_add.
  rewrite (sum_upto_ext _ (fun _ => 1)); [apply sum_upto_ones|].
  intros i Hi. apply (Hin i Hi).
Qed.

(** X19.  A label that is not a text ends the script with an
    [AttributeError] at line 38; on labels that are texts it runs as [run]
    does.  It stops with its error message exactly when no label
    normalises to [concepto] or none to [importe], and ends with an
    [AttributeError] when both are there and several labels normalise to
    [concepto].  On a table in which at most one label normalises to each
    of [concepto], [importe] and [tipo], it writes a report exactly when
    the normalised labels hold [fecha], [referencia], [concepto] and
    [importe] and every amount is a number: with [concepto] and [importe]
    there, an amount that is no number ends in a [TypeError], and numeric
    amounts without [fecha] or [referencia] in a [KeyError]. *)
Theorem script_report_needs_four_columns (df : DataFrame) :
  let nd := normalized df in
  (forall u x, In x (u_labels u) -> (forall s, x <> CStr s) ->
     script u = inl RaiseAttributeError)
  /\ script {| u_labels := map CStr (columns df); u_rows := data df |}
     = run df
  /\ (run df = inl StStop
      <-> has_column "concepto" nd && has_column "importe" nd = false)
  /\ (has_column "concepto" nd && has_column "importe" nd = true ->
      several nd "concepto" = true -> run df = inl RaiseAttributeError)
  /\ (several nd "concepto" = false -> several nd "importe" = false ->
      several nd "tipo" = false ->
      ((exists rep, run df = inr rep)
       <-> has_column "fecha" nd && has_column "referencia" nd
           && (has_column "concepto" nd && has_column "importe" nd)
           && amounts_numeric df = true)
      /\ (has_column "concepto" nd && has_column "importe" nd = true ->
          amounts_numeric df = false -> run df = inl RaiseTypeError)
      /\ (has_column "concepto" nd && has_column "importe" nd = true ->
          amounts_numeric df = true ->
          has_column "fecha" nd && has_column "referencia" nd = false ->
          run df = inl RaiseKeyError)).
Proof.
  cbv zeta. pose proof (run_cases df) as Hcases. cbv zeta in Hcases.
  destruct Hcases as (Hs & Ha & Ht & Hk & Hr). set (nd := normalized df) in *.
  split.
  { intros u x Hin Hx. unfold script.
    by rewrite (mapM_label_other _ x Hin Hx). }
  split.
  { unfold script. cbn [u_labels u_rows]. rewrite mapM_label_text.
    by destruct df. }
  split.
  { destruct (has_column "concepto" nd && has_column "importe" nd) eqn:Hci.
    - split; [|done]. intros Hst. exfalso. revert Hst.
      unfold run. fold (normalized df). fold nd.
      apply andb_prop in Hci as [-> ->]. cbn [negb orb].
      destruct (several nd "concepto"); [done|].
      destruct (getitem nd "concepto"); [|done].
      destruct (getitem nd "importe"); [|done].
      destruct (several nd "importe"); [done|].
      destruct (mapM gt_zero _); [|done].
      destruct (mapM lt_zero _); [|done].
      destruct (several nd "tipo"); [done|].
      by destruct (negb _ || negb _).
    - by split; [|apply Hs]. }
  split; [exact Ha|].
  intros S1 S2 S3.
  destruct (has_column "concepto" nd && has_column "importe" nd) eqn:Hci.
  - destruct (amounts_numeric df) eqn:Hn.
    + destruct (has_column "fecha" nd && has_column "referencia" nd) eqn:Hfr.
      * destruct (Hr eq_refl S1 S2 S3 eq_refl eq_refl) as [rep Hrep].
        repeat split; try done. by intros _; eexists.
      * specialize (Hk eq_refl S1 S2 S3 eq_refl eq_refl).
        repeat split; try done. rewrite Hk. by intros [? ?].
    + specialize (Ht eq_refl S1 S2 eq_refl).
      repeat split; try done.
      * rewrite Ht. by intros [? ?].
      * by rewrite andb_false_r.
  - specialize (Hs eq_refl).
    repeat split; try done.
    + rewrite Hs. by intros [? ?].
    + by rewrite andb_false_r.
Qed.

End AppFacts.

(** X17, witness: in [df_movements] row 0, a maintenance commission of
    -50.0, is a payment made and in no other frame. *)
Lemma script_sign_decides_before_keywords_witness :
  exists rep cells amounts pos neg,
    App.run App.df_movements = inr rep
    /\ getitem (App.normalized App.df_movements) "concepto" = Ok cells
    /\ getitem (App.normalized App.df_movements) "importe" = Ok amounts
    /\ cells !! 0 = Some (CStr "Comision mantenimiento")
    /\ amounts !! 0 = Some (CFloat f_minus_50)
    /\ App.es_comision
         (App.concepto_text (CStr "Comision mantenimiento")) = true
    /\ App.gt_zero (CFloat f_minus_50) = Some pos
    /\ App.lt_zero (CFloat f_minus_50) = Some neg
    /\ App.count 0 (App.pagos_realizados rep) = b2n neg
    /\ App.count 0 (App.pagos_recibidos rep) = b2n (negb neg && pos)
    /\ App.count 0 (App.impuestos rep)
       = b2n (negb neg && negb pos
              && App.es_impuesto
                   (App.concepto_text (CStr "Comision mantenimiento")))
    /\ App.count 0 (App.comisiones rep)
       = b2n (negb neg && negb pos
              && negb (App.es_impuesto
                         (App.concepto_text (CStr "Comision mantenimiento")))
              && App.es_comision
                   (App.concepto_text (CStr "Comision mantenimiento")))
    /\ App.count 0 (App.sin_identificar rep)
       = b2n (negb neg && negb pos
              && negb (App.es_impuesto
                         (App.concepto_text (CStr "Comision mantenimiento")))
              && negb (App.es_comision
                         (App.concepto_text
                            (CStr "Comision mantenimiento")))).
Proof.
  eexists. eexists. eexists.
  edestruct (fun rep cells amounts a b c d e =>
               script_sign_decides_before_keywords App.df_movements rep cells
                 amounts 0 (CStr "Comision mantenimiento")
                 (CFloat f_minus_50) a b c d e)
    as (pos & neg & Hrest).
  6: { exists pos, neg.
       split; [vm_compute; reflexivity|].
       split; [vm_compute; reflexivity|].
       split; [vm_compute; reflexivity|].
       split; [vm_compute; reflexivity|].
       split; [vm_compute; reflexivity|].
       split; [vm_compute; reflexivity|].
       exact Hrest. }
  all: vm_compute; reflexivity.
Defined.

(** X18, witness: the five rows of [df_movements]. *)
Lemma script_row_in_exactly_one_frame_witness :
  exists rep,
    App.run App.df_movements = inr rep
    /\ (forall i, i < len App.df_movements -> App.appearances i rep = 1)
    /\ (forall i, len App.df_movements <= i -> App.appearances i rep = 0)
    /\ App.rows_total rep = len App.df_movements.
Proof.
  eexists. split; [vm_compute; reflexivity|].
  apply (script_row_in_exactly_one_frame App.df_movements).
  vm_compute; reflexivity.
Defined.


(** X19, witness: a header cell with the number 2024 and two labels that
    normalise to [concepto] end in an [AttributeError]; the table without
    a date column ends in a [KeyError]. *)
Lemma script_report_needs_four_columns_witness :
  App.script App.upload_number_label = inl App.RaiseAttributeError
  /\ App.run App.df_concepto_twice = inl App.RaiseAttributeError
  /\ App.run App.df_no_fecha = inl App.RaiseKeyError.
Proof.
  split; [|split].
  - apply (proj1 (script_report_needs_four_columns App.df_no_fecha)
             App.upload_number_label (CInt 2024)).
    + right. by left.
    + discriminate.
  - apply (proj1 (proj2 (proj2 (proj2
             (script_report_needs_four_columns App.df_concepto_twice)))));
      vm_compute; reflexivity.
  - pose proof (script_report_needs_four_columns App.df_no_fecha) as H.
    cbv zeta in H. destruct H as (_ & _ & _ & _ & H).
    destruct H as (_ & _ & H); [vm_compute; reflexivity..|].
    apply H; vm_compute; reflexivity.
Defined.
